(** * Insights engine: shallow embedding of [app/services/insights_service.py]

    The analytics pipeline of the service ([InsightsService]) together with
    the pydantic models of [app/models/schemas.py] it consumes and produces.

    Conventions of the embedding.
    - Python [float] is idealised as an exact rational ([Q]); the decimal
      literals of the source ([0.15], [1.5], ...) stand for the decimals they
      denote.  The two places where the source can produce a non-finite
      float (mean of an empty selection, division by a zero target) are
      modelled explicitly.  The numbered properties of the pipeline are
      stated through the code's own sums, quotients, products and
      comparisons, not through identities that only exact arithmetic has;
      where rounding matters (the percentages of the spending patterns),
      the function is given over an arithmetic, with binary64 as one
      instance.
    - Python [int] is [Z]; [str] is [string]; [Optional[str]] is
      [option string].
    - A [datetime] is a number of microseconds since the epoch together
      with its UTC offset when it is tz-aware.
    - A pandas [DataFrame] is the list of its rows, in row order.
    - Exceptions are values of [result]. *)

From Stdlib Require Import List String Ascii ZArith QArith Qround Qabs.
From Stdlib Require Import Lia Lqa Bool DecimalString Permutation Sorted.
From Stdlib Require Import Floats.
Import ListNotations.

(** ** Python runtime pieces used by the service *)

Inductive exn : Type := IndexError | KeyError | TypeError | AttributeError.

Inductive result (A : Type) : Type :=
| Ok (a : A)
| Raise (e : exn).
Arguments Ok {A} a.
Arguments Raise {A} e.

Definition bind {A B : Type} (m : result A) (k : A -> result B) : result B :=
  match m with
  | Ok a => k a
  | Raise e => Raise e
  end.

Notation "x <- m ;; k" := (bind m (fun x => k))
  (at level 61, m at next level, right associativity).

(** [[f x for x in l]] where [f] may raise. *)
Fixpoint mapM {A B : Type} (f : A -> result B) (l : list A) : result (list B) :=
  match l with
  | [] => Ok []
  | x :: xs => y <- f x ;; ys <- mapM f xs ;; Ok (y :: ys)
  end.

(** An f-string is the concatenation of its pieces. *)
Definition fstr (parts : list string) : string := String.concat "" parts.

(** [d.get(k, default)] and [d[k]] on a dict literal. *)
Fixpoint dict_get {V : Type} (d : list (string * V)) (k : string) (default : V) : V :=
  match d with
  | [] => default
  | (k', v) :: d' => if String.eqb k' k then v else dict_get d' k default
  end.

Fixpoint dict_index {V : Type} (d : list (string * V)) (k : string) : result V :=
  match d with
  | [] => Raise KeyError
  | (k', v) :: d' => if String.eqb k' k then Ok v else dict_index d' k
  end.

(** [x or y] on an optional string: [None] and the empty string are falsy. *)
Definition str_or (x : option string) (y : string) : string :=
  match x with
  | Some EmptyString => y
  | Some s => s
  | None => y
  end.

(** Comparisons of numbers, as booleans. *)
Definition Qgt_bool (x y : Q) : bool := negb (Qle_bool x y).
Definition Qlt_bool (x y : Q) : bool := negb (Qle_bool y x).
Definition Qge_bool (x y : Q) : bool := Qle_bool y x.

(** *** Number formatting *)

Definition str_of_Z (z : Z) : string :=
  match z with
  | Zneg p => String "-" (NilZero.string_of_uint (Pos.to_uint p))
  | _ => NilZero.string_of_uint (N.to_uint (Z.to_N z))
  end.

Definition str_of_nat (n : nat) : string := NilZero.string_of_uint (Nat.to_uint n).

(** Rounding to the nearest integer, ties to even, as [format] does. *)
Definition round_half_even (q : Q) : Z :=
  let f := Qfloor q in
  match Qcompare (q - inject_Z f) (1 # 2) with
  | Lt => f
  | Gt => (f + 1)%Z
  | Eq => if Z.even f then f else (f + 1)%Z
  end.

Fixpoint zeros (n : nat) : string :=
  match n with
  | O => EmptyString
  | S n' => String "0" (zeros n')
  end.

Definition zfill (width : nat) (s : string) : string :=
  String.append (zeros (width - String.length s)) s.

(** [f"{q:.<prec>f}"]. *)
Definition format_f (prec : nat) (q : Q) : string :=
  let p := (10 ^ Z.of_nat prec)%Z in
  let n := round_half_even (Qabs q * inject_Z p) in
  let sign := if Qlt_bool q 0 then "-"%string else EmptyString in
  let int_part := str_of_Z (n / p) in
  let frac_part :=
    match prec with
    | O => EmptyString
    | _ => String "." (zfill prec (str_of_Z (n mod p)))
    end in
  fstr [sign; int_part; frac_part].

(** *** Column reductions *)

(** [series.sum()]. *)
Fixpoint series_sum (l : list Q) : Q :=
  match l with
  | [] => 0
  | x :: xs => x + series_sum xs
  end.

(** [series.mean()]; [None] is NaN, the mean of an empty selection. *)
Definition series_mean (l : list Q) : option Q :=
  match l with
  | [] => None
  | _ => Some (series_sum l / inject_Z (Z.of_nat (List.length l)))
  end.

(** [series.max()] and [series.min()]; [None] is NaT, for an empty column. *)
Definition series_max (l : list Z) : option Z :=
  match l with
  | [] => None
  | x :: xs => Some (fold_left Z.max xs x)
  end.

Definition series_min (l : list Z) : option Z :=
  match l with
  | [] => None
  | x :: xs => Some (fold_left Z.min xs x)
  end.

(** [series.unique()]: the distinct values, in order of first appearance. *)
Fixpoint unique (l : list string) : list string :=
  match l with
  | [] => []
  | x :: xs => x :: filter (fun y => negb (String.eqb y x)) (unique xs)
  end.

(** *** [list.sort]: a stable sort

    [le x y] tells that [x] may stay in front of [y].  For [sort(key=k)] it
    is [k x <= k y]; for [sort(key=k, reverse=True)] it is [k y <= k x]:
    in both cases entries with equal keys keep their order. *)
Fixpoint insert_by {A : Type} (le : A -> A -> bool) (x : A) (l : list A) : list A :=
  match l with
  | [] => [x]
  | y :: l' => if le x y then x :: l else y :: insert_by le x l'
  end.

Fixpoint list_sort {A : Type} (le : A -> A -> bool) (l : list A) : list A :=
  match l with
  | [] => []
  | x :: xs => insert_by le x (list_sort le xs)
  end.

(** *** Dates

    [timestamp] counts microseconds since the epoch: of the instant for a
    tz-aware value, of the wall clock for a tz-naive one.  [utcoffset] is
    the offset of a tz-aware value, in microseconds, and [None] for a
    tz-naive one; a tz-aware value has one fixed offset, as the values that
    pydantic parses have.  Dates are taken inside the range of timestamps
    that pandas represents. *)
Record datetime : Type := {
  timestamp : Z;
  utcoffset : option Z
}.

Definition naive (wall_clock : Z) : datetime :=
  {| timestamp := wall_clock; utcoffset := None |}.

Definition aware (instant offset : Z) : datetime :=
  {| timestamp := instant; utcoffset := Some offset |}.

Definition is_aware (d : datetime) : bool :=
  match utcoffset d with
  | Some _ => true
  | None => false
  end.

(** Timestamps can be ordered among themselves when they are all tz-aware
    or all tz-naive; comparing one of each kind raises TypeError. *)
Definition comparable (dates : list datetime) : bool :=
  forallb is_aware dates || forallb (fun d => negb (is_aware d)) dates.

(** ** [app/models/schemas.py] *)

Module TransactionCategory.
Inductive t : Type :=
| FOOD | TRANSPORT | ENTERTAINMENT | UTILITIES | HEALTHCARE | SHOPPING | OTHER.

Definition value (c : t) : string :=
  match c with
  | FOOD => "food"
  | TRANSPORT => "transport"
  | ENTERTAINMENT => "entertainment"
  | UTILITIES => "utilities"
  | HEALTHCARE => "healthcare"
  | SHOPPING => "shopping"
  | OTHER => "other"
  end.
End TransactionCategory.

Module Transaction.
Record t : Type := mk {
  id : option string;
  amount : Q;
  category : TransactionCategory.t;
  description : option string;
  date : datetime;
  userId : string;
  type : option string
}.
End Transaction.

Module SpendingPattern.
Record t : Type := mk {
  category : string;
  totalAmount : Q;
  transactionCount : Z;
  averageAmount : Q;
  percentage : Q
}.
End SpendingPattern.

Module BudgetRecommendation.
Record t : Type := mk {
  category : string;
  recommendedAmount : Q;
  currentSpending : Q;
  reason : string;
  priority : string
}.
End BudgetRecommendation.

Module AnomalyDetection.
Record t : Type := mk {
  transactionId : string;
  amount : Q;
  category : string;
  date : datetime;
  anomalyScore : Q;
  reason : string
}.
End AnomalyDetection.

Module CategoryHealth.
Record t : Type := mk {
  category : string;
  status : string;
  reason : string;
  spending : Q;
  recommendation : string
}.
End CategoryHealth.

Module IncomeVsExpense.
Record t : Type := mk {
  totalIncome : Q;
  totalExpense : Q;
  netBalance : Q;
  savingsRate : Q;
  status : string
}.
End IncomeVsExpense.

Module InsightsResponse.
Record t : Type := mk {
  userId : string;
  incomeVsExpense : IncomeVsExpense.t;
  spendingPatterns : list SpendingPattern.t;
  categoryHealth : list CategoryHealth.t;
  budgetRecommendations : list BudgetRecommendation.t;
  anomalies : list AnomalyDetection.t;
  totalSpending : Q;
  averageDailySpending : Q;
  projectedMonthlySpending : Q;
  savingsOpportunities : list string
}.
End InsightsResponse.

(** ** The data frame built by the service *)

Module Row.
Record t : Type := mk {
  id : option string;
  type : option string;
  amount : Q;
  category : string;
  description : string;
  date : datetime;
  userId : string
}.
End Row.

Definition DataFrame : Type := list Row.t.

(** [df[df['type'] == s]]: a cell holding [None] equals no string. *)
Definition type_is (s : string) (r : Row.t) : bool :=
  match Row.type r with
  | Some s' => String.eqb s' s
  | None => false
  end.

(** [df[df['category'] == c]]. *)
Definition category_is (c : string) (r : Row.t) : bool :=
  String.eqb (Row.category r) c.

(** [df['amount']]. *)
Definition amounts (df : DataFrame) : list Q := map Row.amount df.

(** ** [sklearn.ensemble.IsolationForest]

    The outlier model is external to the repository; the service only calls
    [fit_predict] (fit, then one label per sample: [-1] for an outlier) and
    [score_samples] on the fitted model. *)
Record IsolationForest : Type := {
  Model : Type;
  fit : list Q -> Model;
  predict : Model -> list Q -> list Z;
  score_samples : Model -> list Q -> list Q
}.

(** ** [class InsightsService] *)

Record InsightsService : Type := {
  anomaly_detector : IsolationForest
}.

(** [Transaction] declares [type: Optional[str] = None] and the required
    field [userId]: every instance carries both attributes, [type] holding
    [None] when it was not set. *)
Definition hasattr_type (t : Transaction.t) : bool := true.
Definition hasattr_userId (t : Transaction.t) : bool := true.

(** [getattr(t, 'type', default)]. *)
Definition getattr_type (t : Transaction.t) (default : option string) : option string :=
  if hasattr_type t then Transaction.type t else default.

Definition _transactions_to_dataframe (transactions : list Transaction.t) : DataFrame :=
  map (fun t =>
         let tx_type := getattr_type t (Some "EXPENSE"%string) in
         {| Row.id := Transaction.id t;
            Row.type := tx_type;
            Row.amount := Transaction.amount t;
            Row.category := TransactionCategory.value (Transaction.category t);
            Row.description := str_or (Transaction.description t) EmptyString;
            Row.date := Transaction.date t;
            Row.userId := Transaction.userId t |})
      transactions.

(** One [SpendingPattern] of the loop body of [_analyze_spending_patterns]. *)
Definition pattern_of (df : DataFrame) (total : Q) (category : string) : SpendingPattern.t :=
  let cat_data := filter (category_is category) df in
  let cat_total := series_sum (amounts cat_data) in
  let cat_count := Z.of_nat (List.length cat_data) in
  let cat_avg := cat_total / inject_Z cat_count in
  {| SpendingPattern.category := category;
     SpendingPattern.totalAmount := cat_total;
     SpendingPattern.transactionCount := cat_count;
     SpendingPattern.averageAmount := cat_avg;
     SpendingPattern.percentage :=
       if Qgt_bool total 0 then (cat_total / total) * 100 else 0 |}.

Definition _analyze_spending_patterns (df : DataFrame) : list SpendingPattern.t :=
  let total := series_sum (amounts df) in
  let patterns := map (pattern_of df total) (unique (map Row.category df)) in
  (* patterns.sort(key=lambda x: x.totalAmount, reverse=True) *)
  list_sort (fun x y => Qle_bool (SpendingPattern.totalAmount y) (SpendingPattern.totalAmount x))
            patterns.

Definition budget_guidelines : list (string * Q) :=
  [ ("food"%string, 15 # 100);
    ("utilities"%string, 10 # 100);
    ("transport"%string, 10 # 100);
    ("healthcare"%string, 5 # 100);
    ("entertainment"%string, 5 # 100);
    ("shopping"%string, 10 # 100);
    ("other"%string, 5 # 100) ].

(** [f"{((current_spending/recommended - 1) * 100):.0f}"]: the quotient is
    infinite when the target is zero (the branch has [current_spending > 0]
    then). *)
Definition overspend_text (current_spending recommended : Q) : string :=
  if Qeq_bool recommended 0 then "inf"%string
  else format_f 0 ((current_spending / recommended - 1) * 100).

(** One [BudgetRecommendation] of the loop body of
    [_generate_budget_recommendations]. *)
Definition recommendation_of (total_spending : Q) (pattern : SpendingPattern.t)
  : BudgetRecommendation.t :=
  let category := SpendingPattern.category pattern in
  let current_spending := SpendingPattern.totalAmount pattern in
  let guideline_pct := dict_get budget_guidelines category (5 # 100) in
  let recommended := total_spending * guideline_pct in
  let '(priority, reason) :=
    if Qgt_bool current_spending (recommended * (15 # 10)) then
      ("high"%string,
       fstr ["Spending is "%string; overspend_text current_spending recommended;
             "% over recommended budget"%string])
    else if Qgt_bool current_spending (recommended * (12 # 10)) then
      ("medium"%string, "Spending is slightly above recommended budget"%string)
    else
      ("low"%string, "Spending is within recommended range"%string) in
  {| BudgetRecommendation.category := category;
     BudgetRecommendation.recommendedAmount := recommended;
     BudgetRecommendation.currentSpending := current_spending;
     BudgetRecommendation.reason := reason;
     BudgetRecommendation.priority := priority |}.

Definition _generate_budget_recommendations
  (df : DataFrame) (patterns : list SpendingPattern.t) : list BudgetRecommendation.t :=
  let total_spending := series_sum (amounts df) in
  map (recommendation_of total_spending) patterns.

(** [f"{abs(amount - cat_avg):.2f}"], where [cat_avg] may be NaN. *)
Definition distance_text (amount : Q) (cat_avg : option Q) : string :=
  match cat_avg with
  | Some avg => format_f 2 (Qabs (amount - avg))
  | None => "nan"%string
  end.

(** The record built for the sample at position [idx] once it is flagged. *)
Definition anomaly_of (df : DataFrame) (idx : nat) (score : Q) (transaction : Transaction.t)
  : AnomalyDetection.t :=
  let category := TransactionCategory.value (Transaction.category transaction) in
  let cat_avg := series_mean (amounts (filter (category_is category) df)) in
  let reason :=
    fstr ["Amount is $"%string;
          distance_text (Transaction.amount transaction) cat_avg;
          " away from average "%string; category; " spending"%string] in
  {| AnomalyDetection.transactionId :=
       str_or (Transaction.id transaction) (fstr ["tx_"%string; str_of_nat idx]);
     AnomalyDetection.amount := Transaction.amount transaction;
     AnomalyDetection.category := category;
     AnomalyDetection.date := Transaction.date transaction;
     AnomalyDetection.anomalyScore := Qabs score;
     AnomalyDetection.reason := reason |}.

(** [for idx, (pred, score) in enumerate(zip(predictions, scores))], from
    position [idx] on. *)
Fixpoint anomaly_loop (df : DataFrame) (transactions : list Transaction.t)
  (idx : nat) (samples : list (Z * Q)) : result (list AnomalyDetection.t) :=
  match samples with
  | [] => Ok []
  | (pred, score) :: rest =>
      if (pred =? -1)%Z then
        match nth_error transactions idx with
        | None => Raise IndexError
        | Some transaction =>
            tl <- anomaly_loop df transactions (S idx) rest ;;
            Ok (anomaly_of df idx score transaction :: tl)
        end
      else anomaly_loop df transactions (S idx) rest
  end.

Definition _detect_anomalies (self : InsightsService)
  (df : DataFrame) (transactions : list Transaction.t) : result (list AnomalyDetection.t) :=
  if (List.length df <? 10)%nat then Ok []
  else
    let features := amounts df in
    let detector := anomaly_detector self in
    let fitted := fit detector features in
    let predictions := predict detector fitted features in
    let scores := score_samples detector fitted features in
    anomaly_loop df transactions 0 (combine predictions scores).

Definition is_high (r : BudgetRecommendation.t) : bool :=
  String.eqb (BudgetRecommendation.priority r) "high".

Definition reduce_text (rec : BudgetRecommendation.t) : string :=
  let excess := BudgetRecommendation.currentSpending rec
                - BudgetRecommendation.recommendedAmount rec in
  fstr ["Reduce "%string; BudgetRecommendation.category rec; " spending by $"%string;
        format_f 2 excess; "/month to meet budget goals"%string].

Definition consolidate_text (pattern : SpendingPattern.t) : string :=
  let total_saved := inject_Z (SpendingPattern.transactionCount pattern)
                     * SpendingPattern.averageAmount pattern * (3 # 10) in
  fstr ["Consolidate small "%string; SpendingPattern.category pattern;
        " purchases to save up to $"%string; format_f 2 total_saved; "/month"%string].

Definition well_balanced : string :=
  "Your spending is well-balanced. Keep up the good work!".

Definition _identify_savings_opportunities
  (patterns : list SpendingPattern.t) (recommendations : list BudgetRecommendation.t)
  : list string :=
  let opportunities : list string := [] in
  let high_priority := filter is_high recommendations in
  let opportunities :=
    fold_left
      (fun opportunities rec =>
         let excess := BudgetRecommendation.currentSpending rec
                       - BudgetRecommendation.recommendedAmount rec in
         if Qgt_bool excess 0 then opportunities ++ [reduce_text rec]
         else opportunities)
      (firstn 3 high_priority) opportunities in
  let opportunities :=
    fold_left
      (fun opportunities pattern =>
         if (SpendingPattern.transactionCount pattern >? 20)%Z
            && Qlt_bool (SpendingPattern.averageAmount pattern) 10
         then opportunities ++ [consolidate_text pattern]
         else opportunities)
      patterns opportunities in
  let opportunities :=
    match opportunities with
    | [] => opportunities ++ [well_balanced]
    | _ => opportunities
    end in
  firstn 5 opportunities.

Definition _analyze_income_vs_expense (df : DataFrame) : IncomeVsExpense.t :=
  (* every row built by [_transactions_to_dataframe] has the column 'type' *)
  let total_income := series_sum (amounts (filter (type_is "INCOME") df)) in
  let total_expense := series_sum (amounts (filter (type_is "EXPENSE") df)) in
  let net_balance := total_income - total_expense in
  let savings_rate :=
    if Qgt_bool total_income 0 then net_balance / total_income * 100 else 0 in
  let status :=
    if Qge_bool savings_rate 20 then "healthy"%string
    else if Qge_bool savings_rate 10 then "concerning"%string
    else "critical"%string in
  {| IncomeVsExpense.totalIncome := total_income;
     IncomeVsExpense.totalExpense := total_expense;
     IncomeVsExpense.netBalance := net_balance;
     IncomeVsExpense.savingsRate := savings_rate;
     IncomeVsExpense.status := status |}.

Definition recommended_pct : list (string * Z) :=
  [ ("food"%string, 15%Z);
    ("utilities"%string, 10%Z);
    ("transport"%string, 10%Z);
    ("healthcare"%string, 5%Z);
    ("entertainment"%string, 5%Z);
    ("shopping"%string, 10%Z);
    ("other"%string, 5%Z) ].

Definition status_order : list (string * Z) :=
  [ ("bad"%string, 0%Z); ("warning"%string, 1%Z); ("good"%string, 2%Z) ].

(** One [CategoryHealth] of the loop body of [_assess_category_health]. *)
Definition health_of (pattern : SpendingPattern.t) : CategoryHealth.t :=
  let category := SpendingPattern.category pattern in
  let current_pct := SpendingPattern.percentage pattern in
  let recommended := dict_get recommended_pct category 5%Z in
  let '(status, reason, recommendation) :=
    if Qle_bool current_pct (inject_Z recommended) then
      ("good"%string,
       fstr ["Spending is within healthy limits ("%string; format_f 1 current_pct;
             "% of total)"%string],
       fstr ["Great job managing your "%string; category; " expenses!"%string])
    else if Qle_bool current_pct (inject_Z recommended * (15 # 10)) then
      ("warning"%string,
       fstr ["Spending is "%string;
             format_f 0 ((current_pct / inject_Z recommended - 1) * 100);
             "% over recommended"%string],
       fstr ["Try to reduce "%string; category; " spending by $"%string;
             format_f 2 (SpendingPattern.totalAmount pattern * (2 # 10))])
    else
      ("bad"%string,
       fstr ["Spending is significantly over recommended ("%string;
             format_f 1 current_pct; "% vs "%string; str_of_Z recommended; "%)"%string],
       fstr ["Priority: Cut "%string; category; " expenses by $"%string;
             format_f 2 (SpendingPattern.totalAmount pattern * (3 # 10));
             " or more"%string]) in
  {| CategoryHealth.category := category;
     CategoryHealth.status := status;
     CategoryHealth.reason := reason;
     CategoryHealth.spending := SpendingPattern.totalAmount pattern;
     CategoryHealth.recommendation := recommendation |}.

(** The key of [category_health.sort]: [status_order[x.status]]. *)
Definition status_key (x : CategoryHealth.t) : result (Z * CategoryHealth.t) :=
  k <- dict_index status_order (CategoryHealth.status x) ;; Ok (k, x).

Definition _assess_category_health (df : DataFrame) (patterns : list SpendingPattern.t)
  (income_data : IncomeVsExpense.t) : result (list CategoryHealth.t) :=
  let category_health := map health_of patterns in
  (* sort(key=...) computes every key first, then sorts on the keys *)
  keyed <- mapM status_key category_health ;;
  Ok (map snd (list_sort (fun a b => (fst a <=? fst b)%Z) keyed)).

Definition start_tracking : string :=
  "Start tracking your expenses to get personalized insights!".

Definition _empty_insights (userId : string) : InsightsResponse.t :=
  {| InsightsResponse.userId := userId;
     InsightsResponse.incomeVsExpense :=
       {| IncomeVsExpense.totalIncome := 0;
          IncomeVsExpense.totalExpense := 0;
          IncomeVsExpense.netBalance := 0;
          IncomeVsExpense.savingsRate := 0;
          IncomeVsExpense.status := "healthy" |};
     InsightsResponse.spendingPatterns := [];
     InsightsResponse.categoryHealth := [];
     InsightsResponse.budgetRecommendations := [];
     InsightsResponse.anomalies := [];
     InsightsResponse.totalSpending := 0;
     InsightsResponse.averageDailySpending := 0;
     InsightsResponse.projectedMonthlySpending := 0;
     InsightsResponse.savingsOpportunities := [start_tracking] |}.

Definition usec_per_day : Z := 86400000000.

(** [timedelta.days] of a non-negative difference of two timestamps. *)
Definition days (delta : Z) : Z := (delta / usec_per_day)%Z.

(** [(df['date'].max() - df['date'].min()).days]: the comparisons of [max]
    raise TypeError when the column holds tz-naive and tz-aware timestamps;
    the frame is never empty where the service computes it. *)
Definition date_range_of (df : DataFrame) : result Z :=
  let dates := map Row.date df in
  if comparable dates then
    match series_max (map timestamp dates), series_min (map timestamp dates) with
    | Some hi, Some lo => Ok (days (hi - lo))
    | _, _ => Ok 0%Z
    end
  else Raise TypeError.

Definition analyze_transactions (self : InsightsService)
  (transactions : list Transaction.t) (userId : string) : result InsightsResponse.t :=
  match transactions with
  | [] => Ok (_empty_insights userId)
  | _ =>
      let df := _transactions_to_dataframe transactions in
      let income_vs_expense := _analyze_income_vs_expense df in
      let expense_df := filter (type_is "EXPENSE") df in
      let spending_patterns := _analyze_spending_patterns expense_df in
      category_health <-
        _assess_category_health expense_df spending_patterns income_vs_expense ;;
      let budget_recommendations :=
        _generate_budget_recommendations expense_df spending_patterns in
      anomalies <-
        _detect_anomalies self expense_df (filter hasattr_userId transactions) ;;
      let total_spending :=
        match expense_df with
        | [] => 0
        | _ => series_sum (amounts expense_df)
        end in
      date_range <- date_range_of df ;;
      let avg_daily_spending := total_spending / inject_Z (Z.max date_range 1) in
      let projected_monthly := avg_daily_spending * 30 in
      let savings_opportunities :=
        _identify_savings_opportunities spending_patterns budget_recommendations in
      Ok {| InsightsResponse.userId := userId;
            InsightsResponse.incomeVsExpense := income_vs_expense;
            InsightsResponse.spendingPatterns := spending_patterns;
            InsightsResponse.categoryHealth := category_health;
            InsightsResponse.budgetRecommendations := budget_recommendations;
            InsightsResponse.anomalies := anomalies;
            InsightsResponse.totalSpending := total_spending;
            InsightsResponse.averageDailySpending := avg_daily_spending;
            InsightsResponse.projectedMonthlySpending := projected_monthly;
            InsightsResponse.savingsOpportunities := savings_opportunities |}
  end.

(** ** Concrete runs *)

(** A stand-in detector that flags nothing. *)
Definition quiet_forest : IsolationForest :=
  {| Model := unit;
     fit := fun _ => tt;
     predict := fun _ xs => map (fun _ => 1%Z) xs;
     score_samples := fun _ xs => map (fun _ => - (4 # 10)) xs |}.

Definition quiet_service : InsightsService := {| anomaly_detector := quiet_forest |}.

Definition tx (id : string) (amount : Q) (category : TransactionCategory.t)
  (day : Z) (type : option string) : Transaction.t :=
  {| Transaction.id := Some id;
     Transaction.amount := amount;
     Transaction.category := category;
     Transaction.description := None;
     Transaction.date := naive (day * usec_per_day);
     Transaction.userId := "user123";
     Transaction.type := type |}.

(** ** Vocabulary of the properties *)

(** Keyed entries, as [sort(key=...)] compares them. *)
Definition key_le {A : Type} (a b : Z * A) : bool := (fst a <=? fst b)%Z.

Definition has_key {A : Type} (k : Z) (a : Z * A) : bool := (fst a =? k)%Z.

Definition three_tiered {A : Type} (l : list (Z * A)) : Prop :=
  Forall (fun a => fst a = 0 \/ fst a = 1 \/ fst a = 2)%Z l.

Definition status_is (s : string) (h : CategoryHealth.t) : bool :=
  String.eqb (CategoryHealth.status h) s.

(** The position of a tier in [status_order]. *)
Definition rank (h : CategoryHealth.t) : Z :=
  if status_is "bad" h then 0 else if status_is "warning" h then 1 else 2.

(** The expense subset the service analyses. *)
Definition expense_subset (transactions : list Transaction.t) : DataFrame :=
  filter (type_is "EXPENSE") (_transactions_to_dataframe transactions).

(** The contract of the outlier model: one label per sample. *)
Definition one_label_per_sample (d : IsolationForest) : Prop :=
  forall xs, List.length (predict d (fit d xs) xs) = List.length xs.

Definition EXPENSE : option string := Some "EXPENSE"%string.

Definition INCOME : option string := Some "INCOME"%string.

(** Two expenses and a salary. *)
Definition sample_small : list Transaction.t :=
  [ tx "1" 50 TransactionCategory.FOOD 1 EXPENSE;
    tx "2" 100 TransactionCategory.TRANSPORT 3 EXPENSE;
    tx "3" 2000 TransactionCategory.OTHER 9 INCOME ].

(** Expenses that land in all three health tiers. *)
Definition sample_tiers : list Transaction.t :=
  [ tx "1" 12 TransactionCategory.FOOD 1 EXPENSE;
    tx "2" 13 TransactionCategory.TRANSPORT 2 EXPENSE;
    tx "3" 5 TransactionCategory.HEALTHCARE 2 EXPENSE;
    tx "4" 60 TransactionCategory.SHOPPING 3 EXPENSE;
    tx "5" 10 TransactionCategory.UTILITIES 5 EXPENSE ].

(** Twenty-one coffees of 3, one a day, and a salary. *)
Definition sample_coffees : list Transaction.t :=
  tx "salary" 3000 TransactionCategory.OTHER 1 INCOME
  :: map (fun i => tx (str_of_nat i) 3 TransactionCategory.OTHER (Z.of_nat i) EXPENSE)
         (seq 1 21).

(** Two expenses of one user, one dated without and one with a time zone
    (UTC). *)
Definition sample_naive_and_aware : list Transaction.t :=
  [ tx "1" 50 TransactionCategory.FOOD 1 EXPENSE;
    {| Transaction.id := Some "2"%string;
       Transaction.amount := 100;
       Transaction.category := TransactionCategory.TRANSPORT;
       Transaction.description := None;
       Transaction.date := aware (3 * usec_per_day) 0;
       Transaction.userId := "user123";
       Transaction.type := EXPENSE |} ].

(** The response of [service] to [transactions], for inputs on which the
    engine answers. *)
Definition response_of (service : InsightsService) (transactions : list Transaction.t)
  : InsightsResponse.t :=
  match analyze_transactions service transactions "user123" with
  | Ok r => r
  | Raise _ => _empty_insights "user123"
  end.

Definition sample_small_response : InsightsResponse.t :=
  Eval vm_compute in response_of quiet_service sample_small.

Definition sample_tiers_response : InsightsResponse.t :=
  Eval vm_compute in response_of quiet_service sample_tiers.

(** The transaction of [test_single_transaction]: no [type] is given. *)
Definition typeless_food : Transaction.t :=
  {| Transaction.id := Some "1"%string;
     Transaction.amount := 50;
     Transaction.category := TransactionCategory.FOOD;
     Transaction.description := None;
     Transaction.date := naive (20000 * usec_per_day);
     Transaction.userId := "user123";
     Transaction.type := None |}.

(** A salary, nine food expenses of 10 and one shopping expense of 1000. *)
Definition sample_mixed : list Transaction.t :=
  [ tx "salary" 3000 TransactionCategory.OTHER 1 INCOME;
    tx "e0" 10 TransactionCategory.FOOD 2 EXPENSE;
    tx "e1" 10 TransactionCategory.FOOD 3 EXPENSE;
    tx "e2" 10 TransactionCategory.FOOD 4 EXPENSE;
    tx "e3" 10 TransactionCategory.FOOD 5 EXPENSE;
    tx "e4" 10 TransactionCategory.FOOD 6 EXPENSE;
    tx "e5" 10 TransactionCategory.FOOD 7 EXPENSE;
    tx "e6" 10 TransactionCategory.FOOD 8 EXPENSE;
    tx "e7" 10 TransactionCategory.FOOD 9 EXPENSE;
    tx "e8" 10 TransactionCategory.FOOD 10 EXPENSE;
    tx "e9" 1000 TransactionCategory.SHOPPING 11 EXPENSE ].

(** A stand-in detector that flags the amounts of 500 and more. *)
Definition spike_forest : IsolationForest :=
  {| Model := unit;
     fit := fun _ => tt;
     predict := fun _ xs => map (fun x => if Qle_bool 500 x then (-1)%Z else 1%Z) xs;
     score_samples :=
       fun _ xs => map (fun x => if Qle_bool 500 x then - (75 # 100) else - (4 # 10)) xs |}.

Definition spike_service : InsightsService := {| anomaly_detector := spike_forest |}.

(** A transaction whose [type] is the string "EXPENSE". *)
Definition typed_expense (t : Transaction.t) : bool :=
  match Transaction.type t with
  | Some s => String.eqb s "EXPENSE"
  | None => false
  end.

Definition differs (x y : string) : bool := negb (String.eqb y x).

(** The total of one category of a frame. *)
Definition category_total (df : DataFrame) (c : string) : Q :=
  series_sum (amounts (filter (category_is c) df)).

(** [amount: float = Field(..., gt=0)]. *)
Definition valid_transaction (t : Transaction.t) : Prop :=
  (0 < Transaction.amount t)%Q.

(** The guideline fractions of section 4.5, by category. *)
Definition guideline_fraction (c : TransactionCategory.t) : Q :=
  match c with
  | TransactionCategory.FOOD => 15 # 100
  | TransactionCategory.UTILITIES => 10 # 100
  | TransactionCategory.TRANSPORT => 10 # 100
  | TransactionCategory.HEALTHCARE => 5 # 100
  | TransactionCategory.ENTERTAINMENT => 5 # 100
  | TransactionCategory.SHOPPING => 10 # 100
  | TransactionCategory.OTHER => 5 # 100
  end.

Definition sample_small_first_recommendation : BudgetRecommendation.t :=
  Eval vm_compute in
    match InsightsResponse.budgetRecommendations sample_small_response with
    | b :: _ => b
    | [] => recommendation_of 0 (pattern_of [] 0 "other")
    end.

(** The guard of the first loop and the test of the second. *)
Definition exceeds (rec : BudgetRecommendation.t) : bool :=
  Qgt_bool (BudgetRecommendation.currentSpending rec
            - BudgetRecommendation.recommendedAmount rec) 0.

Definition frequent_small (pattern : SpendingPattern.t) : bool :=
  (SpendingPattern.transactionCount pattern >? 20)%Z
  && Qlt_bool (SpendingPattern.averageAmount pattern) 10.

(** The two rules of section 4.7, in the words of the specification. *)
Definition overspent_high (b : BudgetRecommendation.t) : bool :=
  String.eqb (BudgetRecommendation.priority b) "high"
  && Qgt_bool (BudgetRecommendation.currentSpending b)
              (BudgetRecommendation.recommendedAmount b).

Definition spec_reductions (recommendations : list BudgetRecommendation.t) : list string :=
  map reduce_text (firstn 3 (filter overspent_high recommendations)).

Definition spec_consolidations (patterns : list SpendingPattern.t) : list string :=
  map consolidate_text
      (filter (fun p => (20 <? SpendingPattern.transactionCount p)%Z
                        && Qlt_bool (SpendingPattern.averageAmount p) 10)
              patterns).

(** ** [InsightsService.predict_spending] *)

(** [timestamp.date()]: the calendar day of a timestamp on its own clock,
    as a day number. *)
Definition date_of (d : datetime) : Z :=
  match utcoffset d with
  | Some offset => ((timestamp d + offset) / usec_per_day)%Z
  | None => (timestamp d / usec_per_day)%Z
  end.

Definition same_tz (a b : datetime) : bool :=
  match utcoffset a, utcoffset b with
  | Some x, Some y => (x =? y)%Z
  | None, None => true
  | _, _ => false
  end.

(** The column of dates has a datetime dtype (and the accessor [.dt]) when
    all its values are tz-naive or all are tz-aware with one offset;
    otherwise it is a column of objects. *)
Definition datetimelike (dates : list datetime) : bool :=
  match dates with
  | [] => true
  | d :: rest => forallb (same_tz d) rest
  end.

(** [df['date'].dt.date]. *)
Definition calendar_days (df : DataFrame) : list Z :=
  map (fun r => date_of (Row.date r)) df.

Definition on_day (d : Z) (r : Row.t) : bool := (date_of (Row.date r) =? d)%Z.

(** The distinct group keys, in order of first appearance. *)
Fixpoint unique_days (l : list Z) : list Z :=
  match l with
  | [] => []
  | x :: xs => x :: filter (fun y => negb (y =? x)%Z) (unique_days xs)
  end.

(** The total of one calendar day of a frame. *)
Definition day_total (df : DataFrame) (d : Z) : Q :=
  series_sum (amounts (filter (on_day d) df)).

(** [df.groupby(df['date'].dt.date)['amount'].sum()]: one total per calendar
    day, the days in ascending order. *)
Definition daily_totals (df : DataFrame) : list Q :=
  map (day_total df) (list_sort Z.leb (unique_days (calendar_days df))).

(** Truth value of an optional string: [None] and [""] are falsy. *)
Definition truthy (x : option string) : bool :=
  match x with
  | Some EmptyString => false
  | Some _ => true
  | None => false
  end.

(** [min(1.0, x)] and [max(0.0, x)] of Python, [None] being NaN: the first
    argument is kept unless the second compares below (above) it. *)
Definition min_with_one (x : option Q) : Q :=
  match x with
  | Some v => if Qlt_bool v 1 then v else 1
  | None => 1
  end.

Definition max_with_zero (x : Q) : Q := if Qgt_bool x 0 then x else 0.

Section Prediction.

(** The square root of the floating-point library. *)
Variable sqrt : Q -> Q.

(** [series.std()]: the sample deviation; NaN with fewer than two values. *)
Definition series_std (l : list Q) : option Q :=
  match l with
  | [] => None
  | [_] => None
  | _ =>
      let n := inject_Z (Z.of_nat (List.length l)) in
      let mean := series_sum l / n in
      Some (sqrt (series_sum (map (fun x => (x - mean) * (x - mean)) l) / (n - 1)))
  end.

(** The pair (predicted amount, confidence); a [None] amount is NaN.  The
    accessor [.dt] raises AttributeError on a column of objects; the
    selection of rows keeps the dtype of the column. *)
Definition predict_spending (self : InsightsService)
  (transactions : list Transaction.t) (category : option string) (days_ahead : Z)
  : result (option Q * Q) :=
  match transactions with
  | [] => Ok (Some 0, 0)
  | _ =>
      let df := _transactions_to_dataframe transactions in
      let has_dt := datetimelike (map Row.date df) in
      let df :=
        if truthy category
        then filter (category_is (str_or category EmptyString)) df
        else df in
      match df with
      | [] => Ok (Some 0, 0)
      | _ =>
          if negb has_dt then Raise AttributeError else
          let daily_spending := daily_totals df in
          let avg_daily := series_mean daily_spending in
          let std_daily := series_std daily_spending in
          let predicted_amount :=
            option_map (fun avg => avg * inject_Z days_ahead) avg_daily in
          let cv :=
            match avg_daily with
            | Some avg =>
                if Qgt_bool avg 0
                then option_map (fun std => std / avg) std_daily
                else Some 1
            | None => Some 1
            end in
          let confidence :=
            max_with_zero (min_with_one (option_map (fun c => 1 - c) cv)) in
          Ok (predicted_amount, confidence)
      end
  end.

End Prediction.

(** ** [app/core/database.py] and the conversion of [get_user_insights] *)

Module TransactionTypeEnum.
Inductive t : Type := INCOME | EXPENSE.

Definition value (x : t) : string :=
  match x with
  | INCOME => "INCOME"
  | EXPENSE => "EXPENSE"
  end.
End TransactionTypeEnum.

(** [Column(DateTime)] holds timestamps without time zone. *)
Module TransactionModel.
Record t : Type := mk {
  id : string;
  type : TransactionTypeEnum.t;
  amount : Q;
  category : string;
  description : string;
  date : Z;
  userId : string;
  createdAt : Z;
  updatedAt : Z
}.
End TransactionModel.

(** [[cat.value for cat in TransactionCategory]], in definition order. *)
Definition category_members : list TransactionCategory.t :=
  [ TransactionCategory.FOOD; TransactionCategory.TRANSPORT;
    TransactionCategory.ENTERTAINMENT; TransactionCategory.UTILITIES;
    TransactionCategory.HEALTHCARE; TransactionCategory.SHOPPING;
    TransactionCategory.OTHER ].

Definition category_values : list string :=
  map TransactionCategory.value category_members.

(** [TransactionCategory(s)]: the member whose value is [s]; [None] stands
    for the ValueError of a string that is no value. *)
Definition category_of_value (s : string) : option TransactionCategory.t :=
  find (fun c => String.eqb (TransactionCategory.value c) s) category_members.

(** [Transaction(...)]: pydantic refuses an amount that is not above zero;
    [None] stands for its ValidationError. *)
Definition new_transaction (id : option string) (amount : Q)
  (category : TransactionCategory.t) (description : option string)
  (date : datetime) (userId : string) : option Transaction.t :=
  if Qgt_bool amount 0 then
    Some {| Transaction.id := id;
            Transaction.amount := amount;
            Transaction.category := category;
            Transaction.description := description;
            Transaction.date := date;
            Transaction.userId := userId;
            Transaction.type := None |}
  else None.

(** [tx.type = ...]: assignment to the attribute. *)
Definition set_type (t : Transaction.t) (type : option string) : Transaction.t :=
  {| Transaction.id := Transaction.id t;
     Transaction.amount := Transaction.amount t;
     Transaction.category := Transaction.category t;
     Transaction.description := Transaction.description t;
     Transaction.date := Transaction.date t;
     Transaction.userId := Transaction.userId t;
     Transaction.type := type |}.

(** The response written out twice in [get_user_insights]. *)
Definition no_transactions_response (user_id : string) : InsightsResponse.t :=
  {| InsightsResponse.userId := user_id;
     InsightsResponse.incomeVsExpense :=
       {| IncomeVsExpense.totalIncome := 0;
          IncomeVsExpense.totalExpense := 0;
          IncomeVsExpense.netBalance := 0;
          IncomeVsExpense.savingsRate := 0;
          IncomeVsExpense.status := "healthy" |};
     InsightsResponse.spendingPatterns := [];
     InsightsResponse.categoryHealth := [];
     InsightsResponse.budgetRecommendations := [];
     InsightsResponse.anomalies := [];
     InsightsResponse.totalSpending := 0;
     InsightsResponse.averageDailySpending := 0;
     InsightsResponse.projectedMonthlySpending := 0;
     InsightsResponse.savingsOpportunities :=
       ["Start tracking your expenses to get personalized insights!"%string] |}.

Section UserInsights.

(** [str.lower]. *)
Variable lower : string -> string.

(** The body of the conversion loop for one database row; [None] when an
    exception makes the loop skip the row. *)
Definition convert_row (db_tx : TransactionModel.t) : option Transaction.t :=
  let category := lower (TransactionModel.category db_tx) in
  let category :=
    if existsb (String.eqb category) category_values then category
    else "other"%string in
  match category_of_value category with
  | None => None
  | Some member =>
      match new_transaction (Some (TransactionModel.id db_tx))
                            (TransactionModel.amount db_tx)
                            member
                            (Some (str_or (Some (TransactionModel.description db_tx))
                                          EmptyString))
                            (naive (TransactionModel.date db_tx))
                            (TransactionModel.userId db_tx) with
      | None => None
      | Some tx =>
          Some (set_type tx
                  (Some (TransactionTypeEnum.value (TransactionModel.type db_tx))))
      end
  end.

(** The conversion loop: rows that raise are skipped, the others appended. *)
Fixpoint convert_rows (db_transactions : list TransactionModel.t)
  : list Transaction.t :=
  match db_transactions with
  | [] => []
  | db_tx :: rest =>
      match convert_row db_tx with
      | Some tx => tx :: convert_rows rest
      | None => convert_rows rest
      end
  end.

(** The [try] body of [get_user_insights] over the table [db]; the [except]
    clause turns an exception into the HTTP status 500. *)
Definition get_user_insights (service : InsightsService)
  (db : list TransactionModel.t) (user_id : string) : result InsightsResponse.t :=
  let db_transactions :=
    filter (fun row => String.eqb (TransactionModel.userId row) user_id) db in
  match db_transactions with
  | [] => Ok (no_transactions_response user_id)
  | _ =>
      let transactions := convert_rows db_transactions in
      match transactions with
      | [] => Ok (no_transactions_response user_id)
      | _ => analyze_transactions service transactions user_id
      end
  end.

End UserInsights.

(** ** Vocabulary of the further properties *)

(** The guideline percentages of [recommended_pct], by category. *)
Definition guideline_percent (c : TransactionCategory.t) : Z :=
  match c with
  | TransactionCategory.FOOD => 15
  | TransactionCategory.UTILITIES => 10
  | TransactionCategory.TRANSPORT => 10
  | TransactionCategory.HEALTHCARE => 5
  | TransactionCategory.ENTERTAINMENT => 5
  | TransactionCategory.SHOPPING => 10
  | TransactionCategory.OTHER => 5
  end.

(** A transaction typed "INCOME". *)
Definition typed_income (t : Transaction.t) : bool :=
  match Transaction.type t with
  | Some s => String.eqb s "INCOME"
  | None => false
  end.

(** A transaction the splitter puts in one of its two subsets. *)
Definition typed (t : Transaction.t) : bool := typed_income t || typed_expense t.

(** Descending order of totals. *)
Definition total_ge (p q : SpendingPattern.t) : Prop :=
  (SpendingPattern.totalAmount q <= SpendingPattern.totalAmount p)%Q.

(** A stand-in square root: exact on the squares of small integers. *)
Definition toy_sqrt (q : Q) : Q :=
  inject_Z (Z.sqrt (Qfloor q)).

(** A table with three rows of user123 (one of them refused by the schema)
    and one of another user. *)
Definition db_row (id : string) (type : TransactionTypeEnum.t) (amount : Q)
  (category : string) (day : Z) (userId : string) : TransactionModel.t :=
  {| TransactionModel.id := id;
     TransactionModel.type := type;
     TransactionModel.amount := amount;
     TransactionModel.category := category;
     TransactionModel.description := "";
     TransactionModel.date := (day * usec_per_day)%Z;
     TransactionModel.userId := userId;
     TransactionModel.createdAt := 0;
     TransactionModel.updatedAt := 0 |}.

Definition sample_table : list TransactionModel.t :=
  [ db_row "a" TransactionTypeEnum.EXPENSE 40 "food" 1 "user123";
    db_row "b" TransactionTypeEnum.INCOME 900 "salary" 2 "user123";
    db_row "c" TransactionTypeEnum.EXPENSE 0 "food" 3 "user123";
    db_row "d" TransactionTypeEnum.EXPENSE 70 "transport" 3 "user456" ].

(** An expense of category [c]. *)
Definition in_category (c : string) (t : Transaction.t) : bool :=
  typed_expense t
  && String.eqb (TransactionCategory.value (Transaction.category t)) c.

(** The frame with every amount replaced by 1: its sums are counts. *)
Definition unit_amounts (df : DataFrame) : DataFrame :=
  map (fun r => {| Row.id := Row.id r;
                   Row.type := Row.type r;
                   Row.amount := 1;
                   Row.category := Row.category r;
                   Row.description := Row.description r;
                   Row.date := Row.date r;
                   Row.userId := Row.userId r |}) df.

(** [sum(counts)]. *)
Fixpoint sum_Z (l : list Z) : Z :=
  match l with
  | [] => 0%Z
  | x :: xs => (x + sum_Z xs)%Z
  end.

(** The transactions a prediction is made from: those of the category
    asked for, or all of them; their type plays no part. *)
Definition selected (transactions : list Transaction.t) (category : option string)
  : list Transaction.t :=
  if truthy category
  then filter (fun t => String.eqb (TransactionCategory.value (Transaction.category t))
                                   (str_or category EmptyString))
              transactions
  else transactions.

(** The calendar days on which the transactions fall, each once. *)
Definition days_covered (transactions : list Transaction.t) : list Z :=
  unique_days (map (fun t => date_of (Transaction.date t)) transactions).

(** The transaction falls on calendar day [d]. *)
Definition on_date (d : Z) (t : Transaction.t) : bool :=
  (date_of (Transaction.date t) =? d)%Z.

Definition usec_per_hour : Z := 3600000000.

(** Two expenses on the morning and the evening of day 4, a salary on
    day 9. *)
Definition sample_same_day : list Transaction.t :=
  [ {| Transaction.id := Some "1"%string;
       Transaction.amount := 50;
       Transaction.category := TransactionCategory.FOOD;
       Transaction.description := None;
       Transaction.date := naive (4 * usec_per_day + 8 * usec_per_hour);
       Transaction.userId := "user123";
       Transaction.type := EXPENSE |};
    {| Transaction.id := Some "2"%string;
       Transaction.amount := 100;
       Transaction.category := TransactionCategory.TRANSPORT;
       Transaction.description := None;
       Transaction.date := naive (4 * usec_per_day + 20 * usec_per_hour);
       Transaction.userId := "user123";
       Transaction.type := EXPENSE |};
    tx "3" 2000 TransactionCategory.OTHER 9 INCOME ].

(** ** [_analyze_spending_patterns] over an arithmetic

    The same function with the arithmetic of its numbers as a parameter: the
    exact one of the rest of this development, and the binary64 one of
    Python's [float].  Of the frame it reads the columns [category] and
    [amount] only. *)

Module Arith.
Record t (F : Type) : Type := mk {
  zero : F;                 (* 0.0 *)
  hundred : F;              (* 100 *)
  of_int : Z -> F;          (* an int, as a number of the column's type *)
  sum : list F -> F;        (* series.sum() *)
  div : F -> F -> F;        (* / *)
  mul : F -> F -> F;        (* * *)
  gtb : F -> F -> bool;     (* > *)
  leb : F -> F -> bool      (* <=, of the sort *)
}.
Arguments zero {F} _.
Arguments hundred {F} _.
Arguments of_int {F} _ _.
Arguments sum {F} _ _.
Arguments div {F} _ _ _.
Arguments mul {F} _ _ _.
Arguments gtb {F} _ _ _.
Arguments leb {F} _ _ _.
End Arith.

Module PatternOver.
Record t (F : Type) : Type := mk {
  category : string;
  totalAmount : F;
  transactionCount : Z;
  averageAmount : F;
  percentage : F
}.
Arguments mk {F} _ _ _ _ _.
Arguments category {F} _.
Arguments totalAmount {F} _.
Arguments transactionCount {F} _.
Arguments averageAmount {F} _.
Arguments percentage {F} _.
End PatternOver.

(** The columns [category] and [amount] of a frame, row by row. *)
Definition Columns (F : Type) : Type := list (string * F).

(** [df[df['category'] == c]]. *)
Definition in_column {F : Type} (c : string) (row : string * F) : bool :=
  String.eqb (fst row) c.

Section OverArithmetic.
Context {F : Type} (A : Arith.t F).

Definition pattern_over (df : Columns F) (total : F) (category : string)
  : PatternOver.t F :=
  let cat_data := filter (in_column category) df in
  let cat_total := Arith.sum A (map snd cat_data) in
  let cat_count := Z.of_nat (List.length cat_data) in
  let cat_avg := Arith.div A cat_total (Arith.of_int A cat_count) in
  {| PatternOver.category := category;
     PatternOver.totalAmount := cat_total;
     PatternOver.transactionCount := cat_count;
     PatternOver.averageAmount := cat_avg;
     PatternOver.percentage :=
       if Arith.gtb A total (Arith.zero A)
       then Arith.mul A (Arith.div A cat_total total) (Arith.hundred A)
       else Arith.zero A |}.

Definition _analyze_spending_patterns_over (df : Columns F) : list (PatternOver.t F) :=
  let total := Arith.sum A (map snd df) in
  let patterns := map (pattern_over df total) (unique (map fst df)) in
  (* patterns.sort(key=lambda x: x.totalAmount, reverse=True) *)
  list_sort (fun x y => Arith.leb A (PatternOver.totalAmount y) (PatternOver.totalAmount x))
            patterns.

End OverArithmetic.

(** The exact arithmetic of the rest of this development. *)
Definition exact_arithmetic : Arith.t Q :=
  {| Arith.zero := 0;
     Arith.hundred := 100;
     Arith.of_int := inject_Z;
     Arith.sum := series_sum;
     Arith.div := Qdiv;
     Arith.mul := Qmult;
     Arith.gtb := Qgt_bool;
     Arith.leb := Qle_bool |}.

Definition columns (df : DataFrame) : Columns Q :=
  map (fun r => (Row.category r, Row.amount r)) df.

Definition record_of (p : PatternOver.t Q) : SpendingPattern.t :=
  {| SpendingPattern.category := PatternOver.category p;
     SpendingPattern.totalAmount := PatternOver.totalAmount p;
     SpendingPattern.transactionCount := PatternOver.transactionCount p;
     SpendingPattern.averageAmount := PatternOver.averageAmount p;
     SpendingPattern.percentage := PatternOver.percentage p |}.

(** The arithmetic of Python's [float]: IEEE 754 binary64, rounding to
    nearest.  The values of a column are added in row order, as numpy adds
    a column of fewer than eight values; the blocks in which it adds a
    longer column are not modelled, and no property depends on them. *)
Definition binary64 : Arith.t float :=
  {| Arith.zero := 0%float;
     Arith.hundred := 100%float;
     Arith.of_int := fun z => PrimFloat.of_uint63 (Uint63.of_Z z);
     Arith.sum := fun l => fold_left PrimFloat.add l 0%float;
     Arith.div := PrimFloat.div;
     Arith.mul := PrimFloat.mul;
     Arith.gtb := fun x y => PrimFloat.ltb y x;
     Arith.leb := PrimFloat.leb |}.

(** The number a finite float stands for; 0 for infinities and NaN. *)
Definition value (x : float) : Q :=
  match Prim2SF x with
  | S754_finite negative m e =>
      (if negative then - 1 else 1) * inject_Z (Zpos m) * 2 ^ e
  | _ => 0
  end.


(** *** Accuracy of the operations of one run

    [val] reads a number of the arithmetic as the rational it stands for.
    A sum of positive amounts is accurate when it is within the relative
    error [e] of the exact sum; a quotient or a product, when it is within
    the relative error [u] of the exact one, up to the absolute error
    [eta] of a result too small to be normal.  An operation that overflows
    is not accurate. *)
Section Accuracy.
Context {F : Type} (A : Arith.t F) (val : F -> Q) (u e eta : Q).





End Accuracy.

(** The exact total of the rows of one key. *)
Definition keyed_total {X : Type} (key : X -> string) (weight : X -> Q)
  (l : list X) (c : string) : Q :=
  series_sum (map weight (filter (fun x => String.eqb (key x) c) l)).

(** The expenses of [sample_small], as floats. *)
Definition sample_small_floats : Columns float :=
  [ ("food"%string, 50%float); ("transport"%string, 100%float) ].



(** * Properties *)

(** ** Boolean comparisons *)

Lemma Qgt_bool_iff (x y : Q) : Qgt_bool x y = true <-> (y < x)%Q.
Proof.
  unfold Qgt_bool. rewrite negb_true_iff. split; intro H.
  - apply Qnot_le_lt. intro Hle. apply Qle_bool_iff in Hle. congruence.
  - destruct (Qle_bool x y) eqn:E; [|reflexivity].
    apply Qle_bool_iff in E. exfalso. apply (Qlt_not_le _ _ H E).
Qed.

Lemma Qgt_bool_false_iff (x y : Q) : Qgt_bool x y = false <-> (x <= y)%Q.
Proof.
  unfold Qgt_bool. rewrite negb_false_iff. apply Qle_bool_iff.
Qed.

Lemma Qlt_bool_iff (x y : Q) : Qlt_bool x y = true <-> (x < y)%Q.
Proof. apply (Qgt_bool_iff y x). Qed.

(** ** The stable sort *)

Section Sorting.
Context {A : Type} (le : A -> A -> bool).

Lemma insert_by_perm (x : A) (l : list A) : Permutation (insert_by le x l) (x :: l).
Proof.
  induction l as [|y l IH]; simpl.
  - apply Permutation_refl.
  - destruct (le x y).
    + apply Permutation_refl.
    + eapply Permutation_trans; [apply perm_skip, IH | apply perm_swap].
Qed.

Lemma list_sort_perm (l : list A) : Permutation (list_sort le l) l.
Proof.
  induction l as [|x l IH]; simpl.
  - apply perm_nil.
  - eapply Permutation_trans; [apply insert_by_perm | apply perm_skip, IH].
Qed.

Lemma list_sort_In (x : A) (l : list A) : In x (list_sort le l) <-> In x l.
Proof.
  split; apply Permutation_in;
    [apply list_sort_perm | apply Permutation_sym, list_sort_perm].
Qed.

(** An entry that may stay in front of the head stays in front. *)
Lemma insert_by_front (x : A) (l : list A) :
  (forall y, In y l -> le x y = true) -> insert_by le x l = x :: l.
Proof.
  destruct l as [|y l]; simpl; intro H; [reflexivity|].
  rewrite (H y (or_introl eq_refl)). reflexivity.
Qed.

(** An entry travels past every entry it may not precede. *)
Lemma insert_by_skip (x : A) (l1 l2 : list A) :
  (forall y, In y l1 -> le x y = false) ->
  insert_by le x (l1 ++ l2) = l1 ++ insert_by le x l2.
Proof.
  induction l1 as [|y l1 IH]; simpl; intro H; [reflexivity|].
  rewrite (H y (or_introl eq_refl)). f_equal. apply IH.
  intros z Hz. apply H. right. exact Hz.
Qed.
End Sorting.

(** Sorting on a key that takes the values 0, 1 and 2 groups the entries by
    key and keeps the order inside each group. *)
Section ThreeTiers.
Context {A : Type}.

Lemma has_key_In (k : Z) (y : Z * A) (l : list (Z * A)) :
  In y (filter (has_key k) l) -> fst y = k.
Proof.
  intro H. apply filter_In in H. destruct H as [_ H].
  unfold has_key in H. apply Z.eqb_eq in H. exact H.
Qed.

Lemma list_sort_three_tiers (l : list (Z * A)) :
  three_tiered l ->
  list_sort key_le l
  = filter (has_key 0) l ++ filter (has_key 1) l ++ filter (has_key 2) l.
Proof.
  unfold three_tiered.
  induction 1 as [|x l Hx Hl IH]; simpl; [reflexivity|].
  rewrite IH.
  assert (E : forall k, has_key k x = (fst x =? k)%Z) by reflexivity.
  rewrite !E.
  destruct Hx as [Hx|[Hx|Hx]]; rewrite Hx; simpl.
  - apply insert_by_front. intros y Hy.
    unfold key_le. rewrite Hx. apply Z.leb_le.
    rewrite !in_app_iff in Hy.
    destruct Hy as [Hy|[Hy|Hy]]; apply has_key_In in Hy; lia.
  - rewrite insert_by_skip.
    + f_equal. apply insert_by_front. intros y Hy.
      unfold key_le. rewrite Hx. apply Z.leb_le.
      rewrite in_app_iff in Hy.
      destruct Hy as [Hy|Hy]; apply has_key_In in Hy; lia.
    + intros y Hy. apply has_key_In in Hy.
      unfold key_le. rewrite Hx, Hy. reflexivity.
  - rewrite insert_by_skip.
    + f_equal. rewrite insert_by_skip.
      * f_equal. apply insert_by_front. intros y Hy.
        apply has_key_In in Hy. unfold key_le. rewrite Hx, Hy. reflexivity.
      * intros y Hy. apply has_key_In in Hy.
        unfold key_le. rewrite Hx, Hy. reflexivity.
    + intros y Hy. apply has_key_In in Hy.
      unfold key_le. rewrite Hx, Hy. reflexivity.
Qed.
End ThreeTiers.

(** ** Category health *)

(** The tiers of section 4.4 as the comparisons that select them. *)
Lemma health_of_status (p : SpendingPattern.t) :
  let pct := SpendingPattern.percentage p in
  let guideline := inject_Z (dict_get recommended_pct (SpendingPattern.category p) 5%Z) in
  (Qle_bool pct guideline = true
   /\ CategoryHealth.status (health_of p) = "good"%string)
  \/ (Qle_bool pct guideline = false /\ Qle_bool pct (guideline * (15 # 10)) = true
      /\ CategoryHealth.status (health_of p) = "warning"%string)
  \/ (Qle_bool pct guideline = false /\ Qle_bool pct (guideline * (15 # 10)) = false
      /\ CategoryHealth.status (health_of p) = "bad"%string).
Proof.
  unfold health_of. cbv zeta.
  destruct (Qle_bool _ (inject_Z _)) eqn:E1; [left; split; reflexivity|].
  destruct (Qle_bool _ (_ * _)) eqn:E2; [right; left | right; right];
    repeat split; reflexivity.
Qed.

Lemma health_of_tier (p : SpendingPattern.t) :
  CategoryHealth.status (health_of p) = "bad"%string
  \/ CategoryHealth.status (health_of p) = "warning"%string
  \/ CategoryHealth.status (health_of p) = "good"%string.
Proof.
  destruct (health_of_status p) as [[_ H]|[[_ [_ H]]|[_ [_ H]]]]; auto.
Qed.

Lemma status_key_health_of (p : SpendingPattern.t) :
  status_key (health_of p) = Ok (rank (health_of p), health_of p).
Proof.
  unfold status_key, rank, status_is.
  destruct (health_of_tier p) as [H|[H|H]]; rewrite H; reflexivity.
Qed.

Lemma mapM_status_key (ps : list SpendingPattern.t) :
  mapM status_key (map health_of ps)
  = Ok (map (fun h => (rank h, h)) (map health_of ps)).
Proof.
  induction ps as [|p ps IH]; simpl; [reflexivity|].
  rewrite status_key_health_of, IH. reflexivity.
Qed.

Lemma filter_decorated (k : Z) (hs : list CategoryHealth.t) :
  map snd (filter (has_key k) (map (fun h => (rank h, h)) hs))
  = filter (fun h => (rank h =? k)%Z) hs.
Proof.
  induction hs as [|h hs IH]; simpl; [reflexivity|].
  unfold has_key at 1. simpl.
  destruct (rank h =? k)%Z; simpl; rewrite IH; reflexivity.
Qed.

Lemma rank_tier (p : SpendingPattern.t) :
  let h := health_of p in
  (rank h =? 0)%Z = status_is "bad" h
  /\ (rank h =? 1)%Z = status_is "warning" h
  /\ (rank h =? 2)%Z = status_is "good" h.
Proof.
  unfold rank, status_is.
  destruct (health_of_tier p) as [H|[H|H]]; rewrite H; repeat split; reflexivity.
Qed.

(** [_assess_category_health] never raises, and its result is the three
    tiers one after the other, each in the order of the patterns. *)
Lemma assess_category_health_tiers (df : DataFrame) (ps : list SpendingPattern.t)
  (income_data : IncomeVsExpense.t) :
  let hs := map health_of ps in
  _assess_category_health df ps income_data
  = Ok (filter (status_is "bad") hs ++ filter (status_is "warning") hs
        ++ filter (status_is "good") hs).
Proof.
  intro hs. unfold _assess_category_health. fold hs.
  unfold hs at 1. rewrite mapM_status_key. fold hs. cbn [bind]. f_equal.
  change (fun a b : Z * CategoryHealth.t => (fst a <=? fst b)%Z)
    with (@key_le CategoryHealth.t).
  rewrite (list_sort_three_tiers (map (fun h => (rank h, h)) hs)).
  - rewrite !map_app, !filter_decorated.
    f_equal; [|f_equal]; apply filter_ext_in; intros h Hh;
      apply in_map_iff in Hh; destruct Hh as [p [<- _]];
      apply (rank_tier p).
  - unfold three_tiered. apply Forall_forall. intros a Ha.
    apply in_map_iff in Ha. destruct Ha as [h [<- _]]. simpl.
    unfold rank. destruct (status_is "bad" h); [|destruct (status_is "warning" h)]; auto.
Qed.

(** ** The pipeline as a whole *)

Lemma filter_hasattr_userId (transactions : list Transaction.t) :
  filter hasattr_userId transactions = transactions.
Proof.
  induction transactions as [|t ts IH]; simpl; [reflexivity|].
  rewrite IH. reflexivity.
Qed.

Lemma series_sum_nil_guard (df : DataFrame) :
  match df with [] => 0%Q | _ => series_sum (amounts df) end = series_sum (amounts df).
Proof. destruct df; reflexivity. Qed.

(** What a response to a non-empty input is made of. *)
Lemma analyze_transactions_inv (self : InsightsService)
  (transactions : list Transaction.t) (userId : string) (r : InsightsResponse.t) :
  transactions <> [] ->
  analyze_transactions self transactions userId = Ok r ->
  let df := _transactions_to_dataframe transactions in
  let expense_df := expense_subset transactions in
  let hs := map health_of (InsightsResponse.spendingPatterns r) in
  InsightsResponse.spendingPatterns r = _analyze_spending_patterns expense_df
  /\ InsightsResponse.categoryHealth r
     = filter (status_is "bad") hs ++ filter (status_is "warning") hs
       ++ filter (status_is "good") hs
  /\ InsightsResponse.budgetRecommendations r
     = _generate_budget_recommendations expense_df (InsightsResponse.spendingPatterns r)
  /\ _detect_anomalies self expense_df transactions = Ok (InsightsResponse.anomalies r)
  /\ InsightsResponse.totalSpending r = series_sum (amounts expense_df)
  /\ (exists date_range,
        date_range_of df = Ok date_range
        /\ InsightsResponse.averageDailySpending r
           = (InsightsResponse.totalSpending r / inject_Z (Z.max date_range 1))%Q)
  /\ InsightsResponse.projectedMonthlySpending r
     = (InsightsResponse.averageDailySpending r * 30)%Q
  /\ InsightsResponse.savingsOpportunities r
     = _identify_savings_opportunities (InsightsResponse.spendingPatterns r)
         (InsightsResponse.budgetRecommendations r).
Proof.
  intros Hne Hrun. unfold analyze_transactions in Hrun.
  destruct transactions as [|t ts]; [congruence|].
  rewrite assess_category_health_tiers in Hrun. cbn [bind] in Hrun.
  rewrite filter_hasattr_userId, series_sum_nil_guard in Hrun.
  fold (expense_subset (t :: ts)) in Hrun.
  destruct (_detect_anomalies self (expense_subset (t :: ts)) (t :: ts)) as [an|e] eqn:Han;
    cbn [bind] in Hrun; [|discriminate].
  destruct (date_range_of (_transactions_to_dataframe (t :: ts))) as [d|e] eqn:Hd;
    cbn [bind] in Hrun; [|discriminate].
  injection Hrun as <-. cbn -[expense_subset _transactions_to_dataframe].
  repeat split; try reflexivity; [exact Han|].
  exists d. split; [exact Hd | reflexivity].
Qed.

Lemma dataframe_dates (transactions : list Transaction.t) :
  map Row.date (_transactions_to_dataframe transactions)
  = map Transaction.date transactions.
Proof.
  unfold _transactions_to_dataframe. rewrite map_map. reflexivity.
Qed.

(** The date range is computed exactly when the dates can be compared. *)
Lemma date_range_of_outcome (transactions : list Transaction.t) :
  (comparable (map Transaction.date transactions) = true ->
   exists d, date_range_of (_transactions_to_dataframe transactions) = Ok d)
  /\ (comparable (map Transaction.date transactions) = false ->
      date_range_of (_transactions_to_dataframe transactions) = Raise TypeError).
Proof.
  unfold date_range_of. rewrite dataframe_dates.
  split; intro H; rewrite H; [|reflexivity].
  destruct (series_max _) as [hi|]; [destruct (series_min _) as [lo|]|];
    eexists; reflexivity.
Qed.

Lemma anomaly_loop_returns (df : DataFrame) (transactions : list Transaction.t)
  (samples : list (Z * Q)) (idx : nat) :
  (idx + List.length samples <= List.length transactions)%nat ->
  exists l, anomaly_loop df transactions idx samples = Ok l.
Proof.
  revert idx. induction samples as [|[pred score] rest IH]; intros idx Hlen; simpl.
  - eexists; reflexivity.
  - simpl in Hlen. destruct (IH (S idx)) as [l Hl]; [lia|].
    destruct (pred =? -1)%Z; [|eexists; exact Hl].
    destruct (nth_error transactions idx) as [t|] eqn:Hn.
    + rewrite Hl. eexists; reflexivity.
    + apply nth_error_None in Hn. lia.
Qed.

Lemma expense_subset_length (transactions : list Transaction.t) :
  (List.length (expense_subset transactions) <= List.length transactions)%nat.
Proof.
  unfold expense_subset, _transactions_to_dataframe.
  eapply Nat.le_trans; [apply filter_length_le|].
  rewrite length_map. apply Nat.le_refl.
Qed.

(** With a model that labels every sample once and dates that can be
    compared the engine always answers. *)
Lemma analyze_transactions_returns (self : InsightsService)
  (transactions : list Transaction.t) (userId : string) :
  one_label_per_sample (anomaly_detector self) ->
  comparable (map Transaction.date transactions) = true ->
  exists r, analyze_transactions self transactions userId = Ok r.
Proof.
  intros Hwf Hdates. unfold analyze_transactions.
  destruct transactions as [|t ts]; [eexists; reflexivity|].
  rewrite assess_category_health_tiers. cbn [bind].
  rewrite filter_hasattr_userId. fold (expense_subset (t :: ts)).
  assert (Hd : exists an,
             _detect_anomalies self (expense_subset (t :: ts)) (t :: ts) = Ok an).
  { unfold _detect_anomalies.
    destruct (List.length (expense_subset (t :: ts)) <? 10)%nat;
      [eexists; reflexivity|].
    apply anomaly_loop_returns.
    pose proof (expense_subset_length (t :: ts)) as Hle.
    pose proof (Hwf (amounts (expense_subset (t :: ts)))) as Hp.
    rewrite length_combine. unfold amounts in Hp. rewrite length_map in Hp.
    unfold amounts. lia. }
  destruct Hd as [an Han]. rewrite Han. cbn [bind].
  destruct (proj1 (date_range_of_outcome (t :: ts)) Hdates) as [d Hd].
  rewrite Hd. cbn [bind]. eexists; reflexivity.
Qed.

(** Once the anomalies are computed, the engine answers when the dates can
    be compared and raises TypeError when they cannot. *)
Lemma analyze_transactions_after_detection (self : InsightsService)
  (transactions : list Transaction.t) (userId : string)
  (anomalies : list AnomalyDetection.t) :
  transactions <> [] ->
  _detect_anomalies self (expense_subset transactions) transactions = Ok anomalies ->
  (comparable (map Transaction.date transactions) = true ->
   exists r, analyze_transactions self transactions userId = Ok r)
  /\ (comparable (map Transaction.date transactions) = false ->
      analyze_transactions self transactions userId = Raise TypeError).
Proof.
  intros Hne Han. unfold analyze_transactions.
  destruct transactions as [|t ts]; [congruence|].
  rewrite assess_category_health_tiers. cbn [bind].
  rewrite filter_hasattr_userId. fold (expense_subset (t :: ts)).
  rewrite Han. cbn [bind].
  destruct (date_range_of_outcome (t :: ts)) as [Hok Hraise].
  split; intro Hdates.
  - destruct (Hok Hdates) as [d Hd]. rewrite Hd. cbn [bind]. eexists; reflexivity.
  - rewrite (Hraise Hdates). reflexivity.
Qed.

(** ** Empty input, short input *)

(** C6. For the empty transaction list the engine returns, without raising,
    the canonical empty response: income, expense, balance and savings rate
    zero, status "healthy"; no patterns, health entries, recommendations or
    anomalies; total, daily average and monthly projection zero; and exactly
    one savings-opportunity string. *)
Theorem C6_empty_input_canonical_response (self : InsightsService) (userId : string) :
  exists r,
    analyze_transactions self [] userId = Ok r
    /\ InsightsResponse.userId r = userId
    /\ IncomeVsExpense.totalIncome (InsightsResponse.incomeVsExpense r) = 0%Q
    /\ IncomeVsExpense.totalExpense (InsightsResponse.incomeVsExpense r) = 0%Q
    /\ IncomeVsExpense.netBalance (InsightsResponse.incomeVsExpense r) = 0%Q
    /\ IncomeVsExpense.savingsRate (InsightsResponse.incomeVsExpense r) = 0%Q
    /\ IncomeVsExpense.status (InsightsResponse.incomeVsExpense r) = "healthy"%string
    /\ InsightsResponse.spendingPatterns r = []
    /\ InsightsResponse.categoryHealth r = []
    /\ InsightsResponse.budgetRecommendations r = []
    /\ InsightsResponse.anomalies r = []
    /\ InsightsResponse.totalSpending r = 0%Q
    /\ InsightsResponse.averageDailySpending r = 0%Q
    /\ InsightsResponse.projectedMonthlySpending r = 0%Q
    /\ InsightsResponse.savingsOpportunities r
       = ["Start tracking your expenses to get personalized insights!"%string].
Proof.
  exists (_empty_insights userId).
  unfold analyze_transactions, _empty_insights; cbn.
  repeat split.
Qed.





(** C5. The CategoryHealth list of a response is every "bad" entry, then
    every "warning" entry, then every "good" entry; inside each tier the
    entries come in the order of the SpendingPattern entries they were
    computed from. *)
Theorem C5_category_health_stable_by_tier (self : InsightsService)
  (transactions : list Transaction.t) (userId : string) (r : InsightsResponse.t) :
  analyze_transactions self transactions userId = Ok r ->
  let hs := map health_of (InsightsResponse.spendingPatterns r) in
  let bad := filter (status_is "bad") hs in
  let warning := filter (status_is "warning") hs in
  let good := filter (status_is "good") hs in
  InsightsResponse.categoryHealth r = bad ++ warning ++ good
  /\ Forall (fun h => CategoryHealth.status h = "bad"%string) bad
  /\ Forall (fun h => CategoryHealth.status h = "warning"%string) warning
  /\ Forall (fun h => CategoryHealth.status h = "good"%string) good.
Proof.
  intros Hrun hs bad warning good. split.
  - destruct transactions as [|t ts].
    + injection Hrun as <-. reflexivity.
    + apply analyze_transactions_inv in Hrun; [|discriminate].
      apply Hrun.
  - repeat split; apply Forall_forall; intros h Hh;
      apply filter_In in Hh; destruct Hh as [_ Hh];
      apply String.eqb_eq in Hh; exact Hh.
Qed.

Lemma C5_category_health_stable_by_tier_witness :
  let r := sample_tiers_response in
  let hs := map health_of (InsightsResponse.spendingPatterns r) in
  analyze_transactions quiet_service sample_tiers "user123" = Ok r
  /\ InsightsResponse.categoryHealth r
     = filter (status_is "bad") hs ++ filter (status_is "warning") hs
       ++ filter (status_is "good") hs.
Proof.
  intros r hs.
  assert (H : analyze_transactions quiet_service sample_tiers "user123" = Ok r)
    by (vm_compute; reflexivity).
  split; [exact H|].
  apply (C5_category_health_stable_by_tier quiet_service sample_tiers "user123" r H).
Defined.

(** On [sample_tiers] the patterns come out as shopping, transport, food,
    utilities, healthcare; the health list keeps that order inside a tier. *)
Example sample_tiers_health :
  map (fun h => (CategoryHealth.category h, CategoryHealth.status h))
      (InsightsResponse.categoryHealth sample_tiers_response)
  = [ ("shopping", "bad"); ("transport", "warning"); ("food", "good");
      ("utilities", "good"); ("healthcare", "good") ]%string.
Proof. vm_compute. reflexivity. Qed.

(** ** Transactions without a type *)

(** The default of [getattr] is not used: the attribute exists and holds
    [None], so the row is in neither the INCOME nor the EXPENSE subset. *)
Lemma typeless_row_left_out (t : Transaction.t) (ts : list Transaction.t) :
  Transaction.type t = None ->
  expense_subset (t :: ts) = expense_subset ts.
Proof.
  intro Hnone. unfold expense_subset. simpl.
  unfold type_is at 1. simpl. unfold getattr_type, hasattr_type.
  rewrite Hnone. reflexivity.
Qed.

(** C1. A transaction whose [type] is absent is not treated as an EXPENSE:
    on the single typeless food transaction of amount 50 the engine reports
    total spending 0, total expense 0 and no spending pattern, where the
    same transaction typed "EXPENSE" gives total spending 50 and one
    pattern. *)
Theorem C1_typeless_transaction_not_counted (self : InsightsService) :
  (exists r,
     analyze_transactions self [typeless_food] "user123" = Ok r
     /\ expense_subset [typeless_food] = []
     /\ InsightsResponse.totalSpending r = 0%Q
     /\ IncomeVsExpense.totalExpense (InsightsResponse.incomeVsExpense r) = 0%Q
     /\ InsightsResponse.spendingPatterns r = []
     /\ InsightsResponse.budgetRecommendations r = []
     /\ InsightsResponse.categoryHealth r = [])
  /\ (exists r,
        analyze_transactions self
          [tx "1" 50 TransactionCategory.FOOD 20000 EXPENSE] "user123" = Ok r
        /\ InsightsResponse.totalSpending r = 50%Q
        /\ map SpendingPattern.category (InsightsResponse.spendingPatterns r)
           = ["food"%string]).
Proof.
  split; eexists; (split; [reflexivity|]); repeat split; reflexivity.
Qed.

(** ** Anomalies on a mixed input *)

(** The sample at position [idx] of the model is row [idx] of the expense
    frame, but the record is built from entry [idx] of the full list. *)
Lemma anomaly_loop_flagged (df : DataFrame) (transactions : list Transaction.t)
  (idx : nat) (score : Q) (rest : list (Z * Q)) (t : Transaction.t)
  (tl : list AnomalyDetection.t) :
  nth_error transactions idx = Some t ->
  anomaly_loop df transactions (S idx) rest = Ok tl ->
  anomaly_loop df transactions idx (((-1)%Z, score) :: rest)
  = Ok (anomaly_of df idx score t :: tl).
Proof.
  intros Hn Hrest. simpl. rewrite Hn, Hrest. reflexivity.
Qed.

(** C2. On [sample_mixed], when the model flags the tenth expense (e9, the
    shopping expense of 1000) and nothing else, the anomaly that is emitted
    carries the id, amount, category and date of e8, the entry at position 9
    of the full list, salary included. *)
Theorem C2_anomaly_built_from_shifted_entry (self : InsightsService) :
  let d := anomaly_detector self in
  let features := amounts (expense_subset sample_mixed) in
  predict d (fit d features) features = [1; 1; 1; 1; 1; 1; 1; 1; 1; -1]%Z ->
  List.length (score_samples d (fit d features) features) = 10%nat ->
  map Row.id (expense_subset sample_mixed)
  = map Some ["e0"; "e1"; "e2"; "e3"; "e4"; "e5"; "e6"; "e7"; "e8"; "e9"]%string
  /\ exists r a,
       analyze_transactions self sample_mixed "user123" = Ok r
       /\ InsightsResponse.anomalies r = [a]
       /\ AnomalyDetection.transactionId a = "e8"%string
       /\ AnomalyDetection.amount a = 10%Q
       /\ AnomalyDetection.category a = "food"%string
       /\ AnomalyDetection.date a = naive (10 * usec_per_day)
       /\ AnomalyDetection.reason a
          = "Amount is $0.00 away from average food spending"%string.
Proof.
  intros d features Hpred Hscores. split; [reflexivity|].
  destruct (score_samples d (fit d features) features)
    as [|s0 [|s1 [|s2 [|s3 [|s4 [|s5 [|s6 [|s7 [|s8 [|s9 [|s10 ss]]]]]]]]]]] eqn:Hs;
    try discriminate Hscores.
  assert (Hdetect :
    _detect_anomalies self (expense_subset sample_mixed) sample_mixed
    = Ok [anomaly_of (expense_subset sample_mixed) 9 s9
            (tx "e8" 10 TransactionCategory.FOOD 10 EXPENSE)]).
  { unfold _detect_anomalies.
    replace (List.length (expense_subset sample_mixed) <? 10)%nat with false
      by reflexivity.
    cbv zeta. fold d. fold features. rewrite Hpred, Hs. reflexivity. }
  unfold analyze_transactions.
  change sample_mixed with (hd typeless_food sample_mixed :: tl sample_mixed) at 1.
  cbv iota.
  rewrite assess_category_health_tiers. cbn [bind].
  rewrite filter_hasattr_userId. fold (expense_subset sample_mixed).
  rewrite Hdetect. cbn [bind].
  eexists. eexists. split; [reflexivity|].
  cbn [InsightsResponse.anomalies]. split; [reflexivity|].
  repeat split; reflexivity.
Qed.

Lemma C2_anomaly_built_from_shifted_entry_witness :
  let features := amounts (expense_subset sample_mixed) in
  predict spike_forest (fit spike_forest features) features
  = [1; 1; 1; 1; 1; 1; 1; 1; 1; -1]%Z
  /\ List.length (score_samples spike_forest (fit spike_forest features) features) = 10%nat
  /\ exists r a,
       analyze_transactions spike_service sample_mixed "user123" = Ok r
       /\ InsightsResponse.anomalies r = [a]
       /\ AnomalyDetection.transactionId a = "e8"%string.
Proof.
  intro features.
  assert (Hp : predict spike_forest (fit spike_forest features) features
               = [1; 1; 1; 1; 1; 1; 1; 1; 1; -1]%Z) by reflexivity.
  assert (Hs : List.length (score_samples spike_forest (fit spike_forest features) features)
               = 10%nat) by reflexivity.
  split; [exact Hp|]. split; [exact Hs|].
  destruct (C2_anomaly_built_from_shifted_entry spike_service Hp Hs)
    as [_ [r [a [Hrun [Han [Hid _]]]]]].
  exists r, a. repeat split; assumption.
Defined.

(** ** Daily average and monthly projection *)

Lemma fold_left_max_spec (xs : list Z) (x : Z) :
  let m := fold_left Z.max xs x in
  In m (x :: xs) /\ forall y, In y (x :: xs) -> (y <= m)%Z.
Proof.
  revert x. induction xs as [|a xs IH]; intro x; simpl.
  - split; [left; reflexivity|]. intros y [<-|[]]. lia.
  - destruct (IH (Z.max x a)) as [Hin Hub]. simpl in Hin. split.
    + destruct Hin as [Hin|Hin]; [|right; right; exact Hin].
      destruct (Z.max_spec x a) as [[_ E]|[_ E]];
        [right; left | left]; congruence.
    + intros y Hy.
      assert (Hm : (Z.max x a <= fold_left Z.max xs (Z.max x a))%Z)
        by (apply Hub; left; reflexivity).
      destruct Hy as [<-|[<-|Hy]]; [lia | lia | apply Hub; right; exact Hy].
Qed.

Lemma fold_left_min_spec (xs : list Z) (x : Z) :
  let m := fold_left Z.min xs x in
  In m (x :: xs) /\ forall y, In y (x :: xs) -> (m <= y)%Z.
Proof.
  revert x. induction xs as [|a xs IH]; intro x; simpl.
  - split; [left; reflexivity|]. intros y [<-|[]]. lia.
  - destruct (IH (Z.min x a)) as [Hin Hlb]. simpl in Hin. split.
    + destruct Hin as [Hin|Hin]; [|right; right; exact Hin].
      destruct (Z.min_spec x a) as [[_ E]|[_ E]];
        [left | right; left]; congruence.
    + intros y Hy.
      assert (Hm : (fold_left Z.min xs (Z.min x a) <= Z.min x a)%Z)
        by (apply Hlb; left; reflexivity).
      destruct Hy as [<-|[<-|Hy]]; [lia | lia | apply Hlb; right; exact Hy].
Qed.

Lemma filter_map_comm {A B : Type} (f : A -> B) (p : B -> bool) (l : list A) :
  filter p (map f l) = map f (filter (fun x => p (f x)) l).
Proof.
  induction l as [|x l IH]; simpl; [reflexivity|].
  destruct (p (f x)); simpl; rewrite IH; reflexivity.
Qed.

Lemma expense_subset_amounts (transactions : list Transaction.t) :
  amounts (expense_subset transactions)
  = map Transaction.amount (filter typed_expense transactions).
Proof.
  unfold amounts, expense_subset, _transactions_to_dataframe.
  rewrite filter_map_comm, map_map. reflexivity.
Qed.

(** The date range of a non-empty frame whose dates can be compared: the
    whole days from the earliest to the latest timestamp. *)
Lemma date_range_of_spec (transactions : list Transaction.t) (d : Z) :
  transactions <> [] ->
  date_range_of (_transactions_to_dataframe transactions) = Ok d ->
  let stamps := map (fun t => timestamp (Transaction.date t)) transactions in
  comparable (map Transaction.date transactions) = true
  /\ exists earliest latest,
       In earliest stamps /\ In latest stamps
       /\ (forall x, In x stamps -> (earliest <= x <= latest)%Z)
       /\ d = ((latest - earliest) / 86400000000)%Z.
Proof.
  intros Hne Hd stamps. unfold date_range_of in Hd. rewrite dataframe_dates in Hd.
  destruct (comparable (map Transaction.date transactions)); [|discriminate].
  split; [reflexivity|].
  rewrite map_map in Hd. fold stamps in Hd.
  assert (Hs : stamps <> []).
  { unfold stamps. destruct transactions; [congruence | discriminate]. }
  destruct stamps as [|x xs]; [congruence|].
  cbn [series_max series_min] in Hd. injection Hd as <-.
  destruct (fold_left_max_spec xs x) as [Hmax_in Hmax].
  destruct (fold_left_min_spec xs x) as [Hmin_in Hmin].
  exists (fold_left Z.min xs x), (fold_left Z.max xs x).
  split; [exact Hmin_in|]. split; [exact Hmax_in|].
  split; [intros y Hy; split; [apply Hmin | apply Hmax]; exact Hy | reflexivity].
Qed.

(** C9. For a non-empty input the average daily spending is the total
    expense divided by max(d, 1), where d is the number of whole days
    (of 86400000000 microseconds) from the earliest to the latest date among
    all the transactions, income and expense alike; the monthly projection is
    that average times 30. *)
Theorem C9_average_daily_over_full_date_range (self : InsightsService)
  (transactions : list Transaction.t) (userId : string) (r : InsightsResponse.t) :
  transactions <> [] ->
  analyze_transactions self transactions userId = Ok r ->
  exists earliest latest,
    In earliest (map (fun t => timestamp (Transaction.date t)) transactions)
    /\ In latest (map (fun t => timestamp (Transaction.date t)) transactions)
    /\ (forall t, In t transactions ->
                  (earliest <= timestamp (Transaction.date t) <= latest)%Z)
    /\ InsightsResponse.totalSpending r
       = series_sum (map Transaction.amount (filter typed_expense transactions))
    /\ InsightsResponse.averageDailySpending r
       = (InsightsResponse.totalSpending r
          / inject_Z (Z.max ((latest - earliest) / 86400000000) 1))%Q
    /\ InsightsResponse.projectedMonthlySpending r
       = (InsightsResponse.averageDailySpending r * 30)%Q.
Proof.
  intros Hne Hrun.
  destruct (analyze_transactions_inv self transactions userId r Hne Hrun)
    as (_ & _ & _ & _ & Htotal & (d & Hd & Havg) & Hproj & _).
  destruct (date_range_of_spec transactions d Hne Hd)
    as (_ & earliest & latest & Hlo & Hhi & Hbounds & ->).
  exists earliest, latest.
  split; [exact Hlo|]. split; [exact Hhi|].
  split.
  { intros t Ht. apply Hbounds.
    apply (in_map (fun t => timestamp (Transaction.date t))). exact Ht. }
  split; [rewrite Htotal, expense_subset_amounts; reflexivity|].
  split; [exact Havg | exact Hproj].
Qed.

Lemma C9_average_daily_over_full_date_range_witness :
  let r := sample_small_response in
  sample_small <> []
  /\ analyze_transactions quiet_service sample_small "user123" = Ok r
  /\ InsightsResponse.totalSpending r = 150%Q
  /\ (InsightsResponse.averageDailySpending r == 150 # 8)%Q
  /\ (InsightsResponse.projectedMonthlySpending r == 4500 # 8)%Q
  /\ exists earliest latest,
       In earliest (map (fun t => timestamp (Transaction.date t)) sample_small)
       /\ In latest (map (fun t => timestamp (Transaction.date t)) sample_small)
       /\ (forall t, In t sample_small ->
                     (earliest <= timestamp (Transaction.date t) <= latest)%Z)
       /\ InsightsResponse.totalSpending r
          = series_sum (map Transaction.amount (filter typed_expense sample_small))
       /\ InsightsResponse.averageDailySpending r
          = (InsightsResponse.totalSpending r
             / inject_Z (Z.max ((latest - earliest) / 86400000000) 1))%Q
       /\ InsightsResponse.projectedMonthlySpending r
          = (InsightsResponse.averageDailySpending r * 30)%Q.
Proof.
  intro r.
  assert (Hne : sample_small <> []) by discriminate.
  assert (H : analyze_transactions quiet_service sample_small "user123" = Ok r)
    by (vm_compute; reflexivity).
  split; [exact Hne|]. split; [exact H|]. split; [reflexivity|].
  split; [reflexivity|]. split; [reflexivity|].
  apply (C9_average_daily_over_full_date_range
           quiet_service sample_small "user123" r Hne H).
Defined.

(** On [sample_small] the salary of day 9 stretches the range to 8 days:
    150 / 8 a day, not the 150 / 2 of the two expenses alone. *)
Example sample_small_daily_average :
  (InsightsResponse.averageDailySpending sample_small_response == 150 # 8)%Q
  /\ (InsightsResponse.projectedMonthlySpending sample_small_response == 4500 # 8)%Q.
Proof. split; reflexivity. Qed.

(** ** Spending patterns: shares of the total *)

Lemma series_sum_nonneg (l : list Q) :
  Forall (fun x => 0 < x)%Q l -> (0 <= series_sum l)%Q.
Proof.
  induction 1; simpl; lra.
Qed.

Lemma series_sum_pos (l : list Q) :
  l <> [] -> Forall (fun x => 0 < x)%Q l -> (0 < series_sum l)%Q.
Proof.
  intros Hne Hall. destruct Hall as [|x l Hx Hl]; [congruence|].
  simpl. pose proof (series_sum_nonneg l Hl). lra.
Qed.


Lemma series_sum_map_ext {A : Type} (f h : A -> Q) (l : list A) :
  (forall x, In x l -> (f x == h x)%Q) ->
  (series_sum (map f l) == series_sum (map h l))%Q.
Proof.
  induction l as [|x l IH]; simpl; intro H; [reflexivity|].
  rewrite (H x (or_introl eq_refl)), IH; [reflexivity|].
  intros y Hy. apply H. right. exact Hy.
Qed.


Lemma unique_cons (x : string) (xs : list string) :
  unique (x :: xs) = x :: filter (differs x) (unique xs).
Proof. reflexivity. Qed.

Lemma In_unique (c : string) (l : list string) : In c (unique l) <-> In c l.
Proof.
  induction l as [|x l IH]; [reflexivity|].
  rewrite unique_cons. simpl. rewrite filter_In, IH. unfold differs.
  destruct (String.eqb_spec c x) as [->|Hne]; simpl.
  - split; auto.
  - split; [intros [H|[H _]]; auto | intros [H|H]; auto].
Qed.

Lemma NoDup_unique (l : list string) : NoDup (unique l).
Proof.
  induction l as [|x l IH]; [constructor|].
  rewrite unique_cons. constructor.
  - intro H. apply filter_In in H. destruct H as [_ H].
    unfold differs in H. rewrite String.eqb_refl in H. discriminate.
  - apply NoDup_filter. exact IH.
Qed.

Lemma filter_differs_absent (c : string) (l : list string) :
  ~ In c l -> filter (differs c) l = l.
Proof.
  induction l as [|x l IH]; simpl; intro H; [reflexivity|].
  unfold differs at 1. destruct (String.eqb_spec x c) as [->|Hne]; simpl.
  - exfalso. apply H. left. reflexivity.
  - rewrite IH; [reflexivity|]. intro Hin. apply H. right. exact Hin.
Qed.

(** Taking one key out of a duplicate-free list of keys. *)
Lemma series_sum_take_out (h : string -> Q) (c : string) (l : list string) :
  NoDup l -> In c l ->
  (series_sum (map h l) == h c + series_sum (map h (filter (differs c) l)))%Q.
Proof.
  induction 1 as [|x l Hx Hnd IH]; simpl; intro Hin; [contradiction|].
  unfold differs at 1. destruct (String.eqb_spec x c) as [->|Hne]; simpl.
  - rewrite filter_differs_absent by exact Hx. reflexivity.
  - destruct Hin as [Hin|Hin]; [contradiction|].
    rewrite (IH Hin). ring.
Qed.

(** *** The rows of a frame, key by key *)

Section KeyedTotals.
Context {X : Type} (key : X -> string) (weight : X -> Q).

Lemma keyed_total_cons (x : X) (l : list X) (c : string) :
  keyed_total key weight (x :: l) c
  = if String.eqb (key x) c
    then (weight x + keyed_total key weight l c)%Q
    else keyed_total key weight l c.
Proof.
  unfold keyed_total. cbn [filter].
  destruct (String.eqb (key x) c); reflexivity.
Qed.

Lemma keyed_total_absent (l : list X) (c : string) :
  ~ In c (map key l) -> keyed_total key weight l c = 0%Q.
Proof.
  induction l as [|x l IH]; intro H; [reflexivity|].
  rewrite keyed_total_cons.
  destruct (String.eqb_spec (key x) c) as [E|Hne].
  - exfalso. apply H. left. exact E.
  - apply IH. intro Hin. apply H. right. exact Hin.
Qed.

(** The totals of the keys add up to the total of the rows. *)
Lemma keyed_totals_sum (l : list X) :
  (series_sum (map (keyed_total key weight l) (unique (map key l)))
   == series_sum (map weight l))%Q.
Proof.
  induction l as [|x l IH]; [reflexivity|].
  cbn [map]. rewrite unique_cons. cbn [map series_sum].
  set (c0 := key x). set (U := unique (map key l)) in *.
  rewrite keyed_total_cons. fold c0. rewrite String.eqb_refl.
  assert (Hrest :
    (series_sum (map (keyed_total key weight (x :: l)) (filter (differs c0) U))
     == series_sum (map (keyed_total key weight l) (filter (differs c0) U)))%Q).
  { apply series_sum_map_ext. intros c Hc. apply filter_In in Hc.
    destruct Hc as [_ Hc]. unfold differs in Hc.
    rewrite keyed_total_cons. fold c0.
    destruct (String.eqb_spec c0 c) as [->|Hne]; [|reflexivity].
    rewrite String.eqb_refl in Hc. discriminate. }
  rewrite Hrest, <- IH.
  destruct (in_dec string_dec c0 U) as [Hin|Hout].
  - rewrite (series_sum_take_out (keyed_total key weight l) c0 U (NoDup_unique _) Hin).
    ring.
  - rewrite (filter_differs_absent c0 U Hout).
    rewrite keyed_total_absent; [ring|].
    intro Hin. apply Hout. apply In_unique. exact Hin.
Qed.

End KeyedTotals.


(** The category totals add up to the total of the frame. *)
Lemma category_totals_sum (df : DataFrame) :
  (series_sum (map (category_total df) (unique (map Row.category df)))
   == series_sum (amounts df))%Q.
Proof. exact (keyed_totals_sum Row.category Row.amount df). Qed.

Lemma In_spending_patterns (df : DataFrame) (p : SpendingPattern.t) :
  In p (_analyze_spending_patterns df) <->
  exists c, In c (map Row.category df)
            /\ p = pattern_of df (series_sum (amounts df)) c.
Proof.
  unfold _analyze_spending_patterns. rewrite list_sort_In, in_map_iff.
  split; intros [c [H1 H2]]; exists c.
  - split; [apply (proj1 (In_unique _ _) H2) | symmetry; exact H1].
  - split; [symmetry; exact H2 | apply (proj2 (In_unique _ _) H1)].
Qed.

(** *** The function over an arithmetic *)

Lemma list_sort_map {X Y : Type} (f : X -> Y) (le : Y -> Y -> bool) (l : list X) :
  map f (list_sort (fun x y => le (f x) (f y)) l) = list_sort le (map f l).
Proof.
  induction l as [|x l IH]; [reflexivity|].
  cbn [list_sort map]. rewrite <- IH.
  generalize (list_sort (fun x y => le (f x) (f y)) l). intro sorted.
  induction sorted as [|y sorted IHs]; [reflexivity|].
  cbn [insert_by map]. destruct (le (f x) (f y)); [reflexivity|].
  cbn [map]. rewrite IHs. reflexivity.
Qed.

Lemma columns_of_category (df : DataFrame) (c : string) :
  filter (in_column c) (columns df) = columns (filter (category_is c) df).
Proof.
  unfold columns. induction df as [|row df IH]; [reflexivity|].
  cbn [map filter]. unfold in_column at 1, category_is at 1. cbn [fst].
  destruct (String.eqb (Row.category row) c); cbn [map]; rewrite IH; reflexivity.
Qed.

(** At the exact arithmetic the function over an arithmetic is
    [_analyze_spending_patterns]. *)
Lemma analyze_spending_patterns_exact (df : DataFrame) :
  _analyze_spending_patterns df
  = map record_of (_analyze_spending_patterns_over exact_arithmetic (columns df)).
Proof.
  unfold _analyze_spending_patterns, _analyze_spending_patterns_over.
  rewrite (list_sort_map record_of
             (fun x y => Qle_bool (SpendingPattern.totalAmount y)
                                  (SpendingPattern.totalAmount x))).
  f_equal. rewrite map_map.
  assert (Hcat : map fst (columns df) = map Row.category df).
  { unfold columns. rewrite map_map. reflexivity. }
  assert (Ham : forall d, map snd (columns d) = amounts d).
  { intro d. unfold columns, amounts. rewrite map_map. reflexivity. }
  rewrite Hcat, Ham. apply map_ext. intro c.
  unfold pattern_of, pattern_over, record_of. cbv zeta.
  cbn [PatternOver.category PatternOver.totalAmount PatternOver.transactionCount
       PatternOver.averageAmount PatternOver.percentage].
  rewrite columns_of_category, Ham.
  unfold columns. rewrite length_map. reflexivity.
Qed.


(** *** Propagation of the rounding errors *)







(** The expenses of [sample_small] in binary64: the percentages are
    66.66666666666666 and 33.33333333333333, their floating-point sum is
    99.99999999999999, not 100, and their exact sum is within 0.01 of
    100. *)
Example sample_small_floats_percentages :
  let patterns := _analyze_spending_patterns_over binary64 sample_small_floats in
  map PatternOver.percentage patterns
  = [0x1.0aaaaaaaaaaaap+6%float; 0x1.0aaaaaaaaaaaap+5%float]
  /\ Arith.sum binary64 (map PatternOver.percentage patterns)
     = 0x1.8ffffffffffffp+6%float
  /\ PrimFloat.eqb (Arith.sum binary64 (map PatternOver.percentage patterns)) 100
     = false
  /\ (Qabs (series_sum (map (fun p => value (PatternOver.percentage p)) patterns) - 100)
      <= 1 # 100)%Q.
Proof.
  split; [vm_compute; reflexivity|]. split; [vm_compute; reflexivity|].
  split; [vm_compute; reflexivity|]. vm_compute. discriminate.
Qed.


(** ** Budget recommendations *)

Lemma budget_guidelines_closed_set (c : TransactionCategory.t) :
  dict_get budget_guidelines (TransactionCategory.value c) (5 # 100)
  = guideline_fraction c.
Proof. destruct c; reflexivity. Qed.

Lemma budget_guidelines_nonneg (category : string) :
  (0 <= dict_get budget_guidelines category (5 # 100))%Q.
Proof.
  unfold budget_guidelines. cbn [dict_get].
  repeat match goal with
         | |- context [String.eqb ?a ?b] => destruct (String.eqb a b)
         end; discriminate.
Qed.

Lemma expense_total_nonneg (transactions : list Transaction.t) :
  Forall valid_transaction transactions ->
  (0 <= series_sum (amounts (expense_subset transactions)))%Q.
Proof.
  intro Hvalid. rewrite expense_subset_amounts. apply series_sum_nonneg.
  apply Forall_forall. intros x Hx. apply in_map_iff in Hx.
  destruct Hx as [t [<- Ht]]. apply filter_In in Ht. destruct Ht as [Ht _].
  rewrite Forall_forall in Hvalid. apply Hvalid. exact Ht.
Qed.

(** Every category of the expense frame is a value of the closed set. *)
Lemma expense_subset_categories (transactions : list Transaction.t) (category : string) :
  In category (map Row.category (expense_subset transactions)) ->
  exists c, category = TransactionCategory.value c.
Proof.
  intro H. apply in_map_iff in H. destruct H as [row [<- Hrow]].
  unfold expense_subset in Hrow. apply filter_In in Hrow. destruct Hrow as [Hrow _].
  unfold _transactions_to_dataframe in Hrow. apply in_map_iff in Hrow.
  destruct Hrow as [t [<- _]]. exists (Transaction.category t). reflexivity.
Qed.

(** The three branches of the priority test. *)
Lemma recommendation_of_priority (total_spending : Q) (pattern : SpendingPattern.t) :
  let b := recommendation_of total_spending pattern in
  let current := BudgetRecommendation.currentSpending b in
  let recommended := BudgetRecommendation.recommendedAmount b in
  ((recommended * (15 # 10) < current)%Q
   /\ BudgetRecommendation.priority b = "high"%string)
  \/ ((current <= recommended * (15 # 10))%Q
      /\ (recommended * (12 # 10) < current)%Q
      /\ BudgetRecommendation.priority b = "medium"%string)
  \/ ((current <= recommended * (15 # 10))%Q
      /\ (current <= recommended * (12 # 10))%Q
      /\ BudgetRecommendation.priority b = "low"%string).
Proof.
  unfold recommendation_of. cbv zeta.
  destruct (Qgt_bool _ (_ * (15 # 10))) eqn:E1.
  - left. apply Qgt_bool_iff in E1. split; [exact E1 | reflexivity].
  - apply Qgt_bool_false_iff in E1.
    destruct (Qgt_bool _ (_ * (12 # 10))) eqn:E2.
    + right; left. apply Qgt_bool_iff in E2. repeat split; assumption.
    + right; right. apply Qgt_bool_false_iff in E2. repeat split; assumption.
Qed.

Lemma recommendation_of_fields (total_spending : Q) (pattern : SpendingPattern.t) :
  let b := recommendation_of total_spending pattern in
  BudgetRecommendation.category b = SpendingPattern.category pattern
  /\ BudgetRecommendation.currentSpending b = SpendingPattern.totalAmount pattern
  /\ BudgetRecommendation.recommendedAmount b
     = (total_spending
        * dict_get budget_guidelines (SpendingPattern.category pattern) (5 # 100))%Q.
Proof.
  unfold recommendation_of. cbv zeta.
  destruct (Qgt_bool _ (_ * (15 # 10))); [|destruct (Qgt_bool _ (_ * (12 # 10)))];
    repeat split; reflexivity.
Qed.

(** What is known of a recommendation found in a response. *)
Lemma budget_recommendation_inv (self : InsightsService)
  (transactions : list Transaction.t) (userId : string) (r : InsightsResponse.t)
  (b : BudgetRecommendation.t) :
  analyze_transactions self transactions userId = Ok r ->
  In b (InsightsResponse.budgetRecommendations r) ->
  exists pattern c,
    In pattern (InsightsResponse.spendingPatterns r)
    /\ b = recommendation_of (InsightsResponse.totalSpending r) pattern
    /\ SpendingPattern.category pattern = TransactionCategory.value c
    /\ InsightsResponse.totalSpending r
       = series_sum (amounts (expense_subset transactions)).
Proof.
  intros Hrun Hb.
  destruct transactions as [|t ts].
  { injection Hrun as <-. contradiction. }
  destruct (analyze_transactions_inv self (t :: ts) userId r ltac:(discriminate) Hrun)
    as (Hpat & _ & Hrec & _ & Htotal & _).
  rewrite Hrec in Hb. unfold _generate_budget_recommendations in Hb.
  apply in_map_iff in Hb. destruct Hb as [pattern [<- Hp]].
  assert (Hp' := Hp). rewrite Hpat in Hp'. apply In_spending_patterns in Hp'.
  destruct Hp' as [category [Hcat ->]].
  apply expense_subset_categories in Hcat. destruct Hcat as [c ->].
  exists (pattern_of (expense_subset (t :: ts))
            (series_sum (amounts (expense_subset (t :: ts))))
            (TransactionCategory.value c)), c.
  rewrite Htotal. repeat split; try reflexivity. exact Hp.
Qed.

(** C4. For every BudgetRecommendation of a response: the priority is
    "high" exactly when the current spending exceeds 1.5 times the
    recommended amount, "medium" exactly when it exceeds 1.2 times but not
    1.5 times the recommended amount, and "low" otherwise; it is never
    "high" when the current spending is at most 1.2 times the recommended
    amount; and the recommended amount is the total expense times the
    guideline fraction of the category. *)
Theorem C4_budget_priority_thresholds (self : InsightsService)
  (transactions : list Transaction.t) (userId : string) (r : InsightsResponse.t)
  (b : BudgetRecommendation.t) :
  analyze_transactions self transactions userId = Ok r ->
  In b (InsightsResponse.budgetRecommendations r) ->
  let current := BudgetRecommendation.currentSpending b in
  let recommended := BudgetRecommendation.recommendedAmount b in
  let priority := BudgetRecommendation.priority b in
  (priority = "high"%string <-> ((15 # 10) * recommended < current)%Q)
  /\ (priority = "medium"%string
      <-> ((12 # 10) * recommended < current)%Q
          /\ ~ ((15 # 10) * recommended < current)%Q)
  /\ (priority = "low"%string
      <-> ~ ((12 # 10) * recommended < current)%Q
          /\ ~ ((15 # 10) * recommended < current)%Q)
  /\ (Forall valid_transaction transactions ->
      (current <= (12 # 10) * recommended)%Q -> priority <> "high"%string)
  /\ exists c,
       BudgetRecommendation.category b = TransactionCategory.value c
       /\ (recommended == InsightsResponse.totalSpending r * guideline_fraction c)%Q.
Proof.
  intros Hrun Hb current recommended priority.
  destruct (budget_recommendation_inv self transactions userId r b Hrun Hb)
    as (pattern & c & _ & Hbdef & Hcat & Htotal).
  destruct (recommendation_of_fields (InsightsResponse.totalSpending r) pattern)
    as (Hc & _ & Hr).
  rewrite <- Hbdef in Hc, Hr. fold recommended in Hr.
  rewrite Hcat, budget_guidelines_closed_set in Hr.
  assert (Hnonneg : Forall valid_transaction transactions -> (0 <= recommended)%Q).
  { intro Hvalid. rewrite Hr, Htotal.
    apply Qmult_le_0_compat; [apply expense_total_nonneg; exact Hvalid|].
    destruct c; discriminate. }
  pose proof (recommendation_of_priority (InsightsResponse.totalSpending r) pattern)
    as Hprio.
  rewrite <- Hbdef in Hprio. cbv zeta in Hprio.
  fold current recommended priority in Hprio.
  assert (Hclosed : exists c0,
             BudgetRecommendation.category b = TransactionCategory.value c0
             /\ (recommended == InsightsResponse.totalSpending r * guideline_fraction c0)%Q).
  { exists c. split; [rewrite Hc; exact Hcat | rewrite Hr; reflexivity]. }
  destruct Hprio as [[H15 Hp]|[(H15 & H12 & Hp)|(H15 & H12 & Hp)]];
    (split; [|split; [|split; [|split]]]); try exact Hclosed;
    rewrite Hp; (split || idtac); intros;
    repeat match goal with
           | H : _ /\ _ |- _ => destruct H
           | H : Forall valid_transaction transactions |- _ => apply Hnonneg in H
           | |- _ /\ _ => split
           | |- ~ _ => intro
           end;
    try discriminate; try reflexivity; try lra.
Qed.

Lemma sample_small_valid : Forall valid_transaction sample_small.
Proof.
  unfold sample_small. repeat (constructor; [reflexivity|]). constructor.
Qed.

Lemma C4_budget_priority_thresholds_witness :
  let r := sample_small_response in
  let b := sample_small_first_recommendation in
  Forall valid_transaction sample_small
  /\ analyze_transactions quiet_service sample_small "user123" = Ok r
  /\ In b (InsightsResponse.budgetRecommendations r)
  /\ BudgetRecommendation.category b = "transport"%string
  /\ BudgetRecommendation.priority b = "high"%string
  /\ (BudgetRecommendation.recommendedAmount b == 15)%Q
  /\ (BudgetRecommendation.priority b = "high"%string
      <-> ((15 # 10) * BudgetRecommendation.recommendedAmount b
           < BudgetRecommendation.currentSpending b)%Q).
Proof.
  intros r b.
  assert (H : analyze_transactions quiet_service sample_small "user123" = Ok r)
    by (vm_compute; reflexivity).
  assert (Hb : In b (InsightsResponse.budgetRecommendations r))
    by (left; reflexivity).
  split; [exact sample_small_valid|]. split; [exact H|]. split; [exact Hb|].
  split; [reflexivity|]. split; [reflexivity|]. split; [reflexivity|].
  apply (C4_budget_priority_thresholds quiet_service sample_small "user123" r b H Hb).
Defined.

(** ** Savings opportunities *)

Lemma fold_left_append_if {A : Type} (p : A -> bool) (f : A -> string)
  (l : list A) (acc : list string) :
  fold_left (fun acc x => if p x then acc ++ [f x] else acc) l acc
  = acc ++ map f (filter p l).
Proof.
  revert acc. induction l as [|x l IH]; intro acc; simpl.
  - rewrite app_nil_r. reflexivity.
  - rewrite IH. destruct (p x); simpl; [|reflexivity].
    rewrite <- app_assoc. reflexivity.
Qed.

(** The two loops, the fallback and the truncation, as list operations. *)
Lemma identify_savings_opportunities_eq
  (patterns : list SpendingPattern.t) (recommendations : list BudgetRecommendation.t) :
  let generated :=
    map reduce_text (filter exceeds (firstn 3 (filter is_high recommendations)))
    ++ map consolidate_text (filter frequent_small patterns) in
  _identify_savings_opportunities patterns recommendations
  = firstn 5 (match generated with
              | [] => [well_balanced]
              | _ => generated
              end).
Proof.
  intro generated. unfold _identify_savings_opportunities. cbv zeta.
  change (fun (opportunities : list string) (rec : BudgetRecommendation.t) =>
            if Qgt_bool (BudgetRecommendation.currentSpending rec
                         - BudgetRecommendation.recommendedAmount rec) 0
            then opportunities ++ [reduce_text rec] else opportunities)
    with (fun (acc : list string) (x : BudgetRecommendation.t) =>
            if exceeds x then acc ++ [reduce_text x] else acc).
  change (fun (opportunities : list string) (pattern : SpendingPattern.t) =>
            if (SpendingPattern.transactionCount pattern >? 20)%Z
               && Qlt_bool (SpendingPattern.averageAmount pattern) 10
            then opportunities ++ [consolidate_text pattern] else opportunities)
    with (fun (acc : list string) (x : SpendingPattern.t) =>
            if frequent_small x then acc ++ [consolidate_text x] else acc).
  rewrite !fold_left_append_if. cbn [app]. fold generated.
  destruct generated; reflexivity.
Qed.

Lemma In_firstn {A : Type} (n : nat) (x : A) (l : list A) :
  In x (firstn n l) -> In x l.
Proof.
  revert l. induction n as [|n IH]; intros [|y l]; simpl; try contradiction.
  intros [H|H]; [left; exact H | right; apply IH; exact H].
Qed.

Lemma filter_all {A : Type} (p : A -> bool) (l : list A) :
  (forall x, In x l -> p x = true) -> filter p l = l.
Proof.
  induction l as [|x l IH]; simpl; intro H; [reflexivity|].
  rewrite (H x (or_introl eq_refl)), IH; [reflexivity|].
  intros y Hy. apply H. right. exact Hy.
Qed.

Lemma reduce_text_not_fallback (rec : BudgetRecommendation.t) :
  reduce_text rec <> well_balanced.
Proof. unfold reduce_text, fstr. cbn. discriminate. Qed.

Lemma consolidate_text_not_fallback (pattern : SpendingPattern.t) :
  consolidate_text pattern <> well_balanced.
Proof. unfold consolidate_text, fstr. cbn. discriminate. Qed.

(** With positive amounts a high priority comes with a positive excess. *)
Lemma high_priority_excess (self : InsightsService)
  (transactions : list Transaction.t) (userId : string) (r : InsightsResponse.t)
  (b : BudgetRecommendation.t) :
  Forall valid_transaction transactions ->
  analyze_transactions self transactions userId = Ok r ->
  In b (InsightsResponse.budgetRecommendations r) ->
  BudgetRecommendation.priority b = "high"%string ->
  (0 <= BudgetRecommendation.recommendedAmount b)%Q
  /\ (0 < BudgetRecommendation.currentSpending b)%Q
  /\ (0 < BudgetRecommendation.currentSpending b
          - BudgetRecommendation.recommendedAmount b)%Q.
Proof.
  intros Hvalid Hrun Hb Hhigh.
  destruct (budget_recommendation_inv self transactions userId r b Hrun Hb)
    as (pattern & c & _ & Hbdef & Hcat & Htotal).
  destruct (recommendation_of_fields (InsightsResponse.totalSpending r) pattern)
    as (_ & _ & Hr).
  pose proof (recommendation_of_priority (InsightsResponse.totalSpending r) pattern)
    as Hprio.
  rewrite <- Hbdef in Hr, Hprio. cbv zeta in Hprio.
  assert (Hnonneg : (0 <= BudgetRecommendation.recommendedAmount b)%Q).
  { rewrite Hr, Htotal.
    apply Qmult_le_0_compat;
      [apply expense_total_nonneg; exact Hvalid | apply budget_guidelines_nonneg]. }
  destruct Hprio as [[H15 _]|[(_ & _ & Hp)|(_ & _ & Hp)]];
    [|rewrite Hhigh in Hp; discriminate..].
  repeat split; lra.
Qed.

Lemma is_high_priority (b : BudgetRecommendation.t) :
  is_high b = true <-> BudgetRecommendation.priority b = "high"%string.
Proof. unfold is_high. apply String.eqb_eq. Qed.

(** The opportunities of a response to valid transactions: the guard of
    the first loop lets every candidate through. *)
Lemma savings_opportunities_shape (self : InsightsService)
  (transactions : list Transaction.t) (userId : string) (r : InsightsResponse.t) :
  transactions <> [] ->
  Forall valid_transaction transactions ->
  analyze_transactions self transactions userId = Ok r ->
  let generated :=
    map reduce_text
        (firstn 3 (filter is_high (InsightsResponse.budgetRecommendations r)))
    ++ map consolidate_text
           (filter frequent_small (InsightsResponse.spendingPatterns r)) in
  InsightsResponse.savingsOpportunities r
  = firstn 5 (match generated with
              | [] => [well_balanced]
              | _ => generated
              end).
Proof.
  intros Hne Hvalid Hrun generated.
  destruct (analyze_transactions_inv self transactions userId r Hne Hrun)
    as (_ & _ & _ & _ & _ & _ & _ & Hsav).
  rewrite Hsav, identify_savings_opportunities_eq. cbv zeta.
  rewrite (filter_all exceeds).
  - reflexivity.
  - intros b Hb. apply In_firstn in Hb. apply filter_In in Hb.
    destruct Hb as [Hb Hhigh]. apply is_high_priority in Hhigh.
    destruct (high_priority_excess self transactions userId r b Hvalid Hrun Hb Hhigh)
      as (_ & _ & Hexcess).
    unfold exceeds. apply Qgt_bool_iff. exact Hexcess.
Qed.

(** C10. In a response to transactions of positive amounts, a
    recommendation of priority "high" has a non-negative target, a positive
    current spending and a positive excess, so the guard "excess > 0" lets
    it through; and the first three high-priority recommendations each
    contribute their reduction string, in order, at the head of the savings
    opportunities. *)
Theorem C10_high_priority_always_contributes (self : InsightsService)
  (transactions : list Transaction.t) (userId : string) (r : InsightsResponse.t) :
  Forall valid_transaction transactions ->
  analyze_transactions self transactions userId = Ok r ->
  let recommendations := InsightsResponse.budgetRecommendations r in
  let top := firstn 3 (filter is_high recommendations) in
  (forall b, In b recommendations ->
             BudgetRecommendation.priority b = "high"%string ->
             (0 <= BudgetRecommendation.recommendedAmount b)%Q
             /\ (0 < BudgetRecommendation.currentSpending b)%Q
             /\ (0 < BudgetRecommendation.currentSpending b
                     - BudgetRecommendation.recommendedAmount b)%Q
             /\ exceeds b = true)
  /\ firstn (List.length top) (InsightsResponse.savingsOpportunities r)
     = map reduce_text top
  /\ (forall b, In b top ->
                In (reduce_text b) (InsightsResponse.savingsOpportunities r)).
Proof.
  intros Hvalid Hrun recommendations top.
  assert (Hhead : firstn (List.length top) (InsightsResponse.savingsOpportunities r)
                  = map reduce_text top).
  { destruct transactions as [|t ts].
    { injection Hrun as <-. reflexivity. }
    rewrite (savings_opportunities_shape self (t :: ts) userId r
               ltac:(discriminate) Hvalid Hrun).
    cbv zeta. fold recommendations. fold top.
    set (consolidations :=
           map consolidate_text
               (filter frequent_small (InsightsResponse.spendingPatterns r))).
    assert (Hlen : (List.length top <= 3)%nat) by apply firstn_le_length.
    destruct (map reduce_text top ++ consolidations) as [|s rest] eqn:Hgen.
    - apply app_eq_nil in Hgen. destruct Hgen as [Hgen _].
      apply map_eq_nil in Hgen. rewrite Hgen. reflexivity.
    - rewrite <- Hgen. rewrite firstn_firstn.
      replace (Nat.min (List.length top) 5) with (List.length top) by lia.
      rewrite <- (length_map reduce_text top).
      rewrite firstn_app, Nat.sub_diag, firstn_all, firstn_0, app_nil_r.
      reflexivity. }
  split; [|split].
  - intros b Hb Hhigh.
    destruct (high_priority_excess self transactions userId r b Hvalid Hrun Hb Hhigh)
      as (H1 & H2 & H3).
    repeat split; try assumption. unfold exceeds. apply Qgt_bool_iff. exact H3.
  - exact Hhead.
  - intros b Hb. apply (In_firstn (List.length top)). rewrite Hhead.
    apply in_map. exact Hb.
Qed.

Lemma C10_high_priority_always_contributes_witness :
  let r := sample_small_response in
  Forall valid_transaction sample_small
  /\ analyze_transactions quiet_service sample_small "user123" = Ok r
  /\ map BudgetRecommendation.priority (InsightsResponse.budgetRecommendations r)
     = ["high"; "high"]%string
  /\ firstn 2 (InsightsResponse.savingsOpportunities r)
     = [ "Reduce transport spending by $85.00/month to meet budget goals";
         "Reduce food spending by $27.50/month to meet budget goals" ]%string
  /\ (forall b,
        In b (firstn 3 (filter is_high (InsightsResponse.budgetRecommendations r))) ->
        In (reduce_text b) (InsightsResponse.savingsOpportunities r)).
Proof.
  intro r.
  assert (H : analyze_transactions quiet_service sample_small "user123" = Ok r)
    by (vm_compute; reflexivity).
  split; [exact sample_small_valid|]. split; [exact H|].
  split; [reflexivity|]. split; [reflexivity|].
  apply (C10_high_priority_always_contributes
           quiet_service sample_small "user123" r sample_small_valid H).
Defined.

(** C8. For a non-empty input of positive amounts the savings
    opportunities are at most 5; they are the reduction strings of the first
    (at most 3) high-priority recommendations whose current spending exceeds
    the recommended amount, followed by one consolidation string per pattern
    with more than 20 transactions and an average below 10, cut to the first
    5; and the list is the single string "Your spending is well-balanced.
    Keep up the good work!" exactly when neither rule produced a string. *)
Theorem C8_savings_opportunities (self : InsightsService)
  (transactions : list Transaction.t) (userId : string) (r : InsightsResponse.t) :
  transactions <> [] ->
  Forall valid_transaction transactions ->
  analyze_transactions self transactions userId = Ok r ->
  let opportunities := InsightsResponse.savingsOpportunities r in
  let reductions := spec_reductions (InsightsResponse.budgetRecommendations r) in
  let consolidations := spec_consolidations (InsightsResponse.spendingPatterns r) in
  (List.length opportunities <= 5)%nat
  /\ (List.length reductions <= 3)%nat
  /\ (reductions ++ consolidations <> [] ->
      opportunities = firstn 5 (reductions ++ consolidations))
  /\ (opportunities
      = ["Your spending is well-balanced. Keep up the good work!"%string]
      <-> reductions ++ consolidations = []).
Proof.
  intros Hne Hvalid Hrun opportunities reductions consolidations.
  assert (Hred : reductions
                 = map reduce_text
                       (firstn 3 (filter is_high (InsightsResponse.budgetRecommendations r)))).
  { unfold reductions, spec_reductions. do 2 f_equal.
    apply filter_ext_in. intros b Hb. unfold overspent_high. fold (is_high b).
    destruct (is_high b) eqn:Hhigh; [|reflexivity]. simpl.
    apply is_high_priority in Hhigh.
    destruct (high_priority_excess self transactions userId r b Hvalid Hrun Hb Hhigh)
      as (_ & _ & Hexcess).
    apply Qgt_bool_iff. lra. }
  assert (Hcons : consolidations
                  = map consolidate_text
                        (filter frequent_small (InsightsResponse.spendingPatterns r))).
  { unfold consolidations, spec_consolidations. f_equal.
    apply filter_ext. intro p. unfold frequent_small.
    rewrite Z.gtb_ltb. reflexivity. }
  pose proof (savings_opportunities_shape self transactions userId r Hne Hvalid Hrun)
    as Hshape.
  cbv zeta in Hshape. rewrite <- Hred, <- Hcons in Hshape.
  fold opportunities in Hshape.
  split; [|split; [|split]].
  - rewrite Hshape. apply firstn_le_length.
  - unfold reductions, spec_reductions. rewrite length_map. apply firstn_le_length.
  - intro Hgen. rewrite Hshape.
    destruct (reductions ++ consolidations); [congruence | reflexivity].
  - split.
    + intro Honly. rewrite Hshape in Honly.
      destruct (reductions ++ consolidations) as [|s rest] eqn:Hgen; [reflexivity|].
      exfalso. cbn in Honly. injection Honly as Hs _.
      destruct reductions as [|s' reds] eqn:Hr.
      * simpl in Hgen. rewrite Hcons in Hgen.
        destruct (filter frequent_small (InsightsResponse.spendingPatterns r))
          as [|p ps]; [discriminate|].
        simpl in Hgen.
        apply (consolidate_text_not_fallback p). unfold well_balanced. congruence.
      * destruct (firstn 3 (filter is_high (InsightsResponse.budgetRecommendations r)))
          as [|b bs]; [discriminate|].
        simpl in Hred, Hgen.
        apply (reduce_text_not_fallback b). unfold well_balanced. congruence.
    + intro Hgen. rewrite Hshape, Hgen. reflexivity.
Qed.

Lemma C8_savings_opportunities_witness :
  let r := sample_small_response in
  let opportunities := InsightsResponse.savingsOpportunities r in
  let reductions := spec_reductions (InsightsResponse.budgetRecommendations r) in
  let consolidations := spec_consolidations (InsightsResponse.spendingPatterns r) in
  sample_small <> []
  /\ Forall valid_transaction sample_small
  /\ analyze_transactions quiet_service sample_small "user123" = Ok r
  /\ opportunities
     = [ "Reduce transport spending by $85.00/month to meet budget goals";
         "Reduce food spending by $27.50/month to meet budget goals" ]%string
  /\ (List.length opportunities <= 5)%nat
  /\ (List.length reductions <= 3)%nat
  /\ (reductions ++ consolidations <> [] ->
      opportunities = firstn 5 (reductions ++ consolidations))
  /\ (opportunities
      = ["Your spending is well-balanced. Keep up the good work!"%string]
      <-> reductions ++ consolidations = []).
Proof.
  intros r opportunities reductions consolidations.
  assert (Hne : sample_small <> []) by discriminate.
  assert (H : analyze_transactions quiet_service sample_small "user123" = Ok r)
    by (vm_compute; reflexivity).
  split; [exact Hne|]. split; [exact sample_small_valid|]. split; [exact H|].
  split; [reflexivity|].
  apply (C8_savings_opportunities
           quiet_service sample_small "user123" r Hne sample_small_valid H).
Defined.

(** Twenty-one coffees of 3 each and a salary: the reduction comes first,
    the consolidation of the small purchases after it. *)
Example sample_coffees_opportunities :
  InsightsResponse.savingsOpportunities (response_of quiet_service sample_coffees)
  = [ "Reduce other spending by $59.85/month to meet budget goals";
      "Consolidate small other purchases to save up to $18.90/month" ]%string.
Proof. vm_compute. reflexivity. Qed.

(** A salary alone: no rule fires and the fallback string is the answer. *)
Example sample_salary_opportunities :
  InsightsResponse.savingsOpportunities
    (response_of quiet_service [tx "salary" 3000 TransactionCategory.OTHER 1 INCOME])
  = [well_balanced].
Proof. vm_compute. reflexivity. Qed.

(** * Further properties *)

(** ** The engine answers *)

(** X1. With a model that gives one label per sample, the engine returns
    a response on every input whose dates are all tz-naive or all tz-aware:
    the lookup [transactions[idx]] stays inside the list and
    [status_order[...]] always finds its key.  On an input with dates of both
    kinds it raises TypeError, from the comparison of the dates. *)
Theorem engine_raises_only_on_mixed_dates (self : InsightsService)
  (transactions : list Transaction.t) (userId : string) :
  one_label_per_sample (anomaly_detector self) ->
  (comparable (map Transaction.date transactions) = true ->
   exists r, analyze_transactions self transactions userId = Ok r)
  /\ (comparable (map Transaction.date transactions) = false ->
      analyze_transactions self transactions userId = Raise TypeError).
Proof.
  intro Hwf. split.
  - apply analyze_transactions_returns. exact Hwf.
  - intro Hdates. destruct transactions as [|t ts]; [discriminate Hdates|].
    assert (Hd : exists an,
               _detect_anomalies self (expense_subset (t :: ts)) (t :: ts) = Ok an).
    { unfold _detect_anomalies.
      destruct (List.length (expense_subset (t :: ts)) <? 10)%nat;
        [eexists; reflexivity|].
      apply anomaly_loop_returns.
      pose proof (expense_subset_length (t :: ts)) as Hle.
      pose proof (Hwf (amounts (expense_subset (t :: ts)))) as Hp.
      rewrite length_combine. unfold amounts in Hp. rewrite length_map in Hp.
      unfold amounts. lia. }
    destruct Hd as [an Han].
    apply (analyze_transactions_after_detection self (t :: ts) userId an
             ltac:(discriminate) Han). exact Hdates.
Qed.

Lemma quiet_forest_one_label : one_label_per_sample quiet_forest.
Proof. intro xs. simpl. apply length_map. Qed.

Lemma engine_raises_only_on_mixed_dates_witness :
  one_label_per_sample (anomaly_detector quiet_service)
  /\ comparable (map Transaction.date sample_small) = true
  /\ comparable (map Transaction.date sample_naive_and_aware) = false
  /\ (exists r, analyze_transactions quiet_service sample_small "user123" = Ok r)
  /\ analyze_transactions quiet_service sample_naive_and_aware "user123"
     = Raise TypeError.
Proof.
  assert (Hc : comparable (map Transaction.date sample_small) = true) by reflexivity.
  assert (Hm : comparable (map Transaction.date sample_naive_and_aware) = false)
    by reflexivity.
  split; [exact quiet_forest_one_label|]. split; [exact Hc|]. split; [exact Hm|].
  split.
  - apply (engine_raises_only_on_mixed_dates quiet_service sample_small "user123"
             quiet_forest_one_label). exact Hc.
  - apply (engine_raises_only_on_mixed_dates quiet_service sample_naive_and_aware
             "user123" quiet_forest_one_label). exact Hm.
Defined.

(** ** Income against expense *)

Lemma income_subset_amounts (transactions : list Transaction.t) :
  amounts (filter (type_is "INCOME") (_transactions_to_dataframe transactions))
  = map Transaction.amount (filter typed_income transactions).
Proof.
  unfold amounts, _transactions_to_dataframe.
  rewrite filter_map_comm, map_map. reflexivity.
Qed.

(** The income summary and the user id of a response to a non-empty input. *)
Lemma analyze_transactions_summary (self : InsightsService)
  (transactions : list Transaction.t) (userId : string) (r : InsightsResponse.t) :
  transactions <> [] ->
  analyze_transactions self transactions userId = Ok r ->
  InsightsResponse.incomeVsExpense r
  = _analyze_income_vs_expense (_transactions_to_dataframe transactions)
  /\ InsightsResponse.userId r = userId.
Proof.
  intros Hne Hrun. unfold analyze_transactions in Hrun.
  destruct transactions as [|t ts]; [congruence|].
  rewrite assess_category_health_tiers in Hrun. cbn [bind] in Hrun.
  destruct (_detect_anomalies self _ _) as [an|e]; cbn [bind] in Hrun; [|discriminate].
  destruct (date_range_of _) as [d|e]; cbn [bind] in Hrun; [|discriminate].
  injection Hrun as <-. split; reflexivity.
Qed.

Lemma status_of_rate (df : DataFrame) :
  let s := _analyze_income_vs_expense df in
  let rate := IncomeVsExpense.savingsRate s in
  ((20 <= rate)%Q /\ IncomeVsExpense.status s = "healthy"%string)
  \/ ((rate < 20)%Q /\ (10 <= rate)%Q /\ IncomeVsExpense.status s = "concerning"%string)
  \/ ((rate < 20)%Q /\ (rate < 10)%Q /\ IncomeVsExpense.status s = "critical"%string).
Proof.
  unfold _analyze_income_vs_expense. cbn. unfold Qge_bool.
  set (rate := if Qgt_bool _ 0 then _ else _).
  destruct (Qle_bool 20 rate) eqn:E20.
  - left. apply Qle_bool_iff in E20. split; [exact E20 | reflexivity].
  - assert (H20 : (rate < 20)%Q).
    { apply Qnot_le_lt. intro H. apply Qle_bool_iff in H. congruence. }
    destruct (Qle_bool 10 rate) eqn:E10.
    + right; left. apply Qle_bool_iff in E10. repeat split; assumption.
    + right; right. repeat split; try assumption.
      apply Qnot_le_lt. intro H. apply Qle_bool_iff in H. congruence.
Qed.

(** X2. In a response to a non-empty input the income summary is: total
    income and total expense, the sums over the transactions typed "INCOME"
    and "EXPENSE"; net balance, their difference; savings rate, net over
    income times 100 when income is above 0 and 0 otherwise; status
    "healthy" exactly when the rate is at least 20, "concerning" exactly
    when it is at least 10 and not at least 20, "critical" exactly when it
    is neither (the code's own two tests, so also for a rate that compares
    with nothing). *)
Theorem income_summary_thresholds (self : InsightsService)
  (transactions : list Transaction.t) (userId : string) (r : InsightsResponse.t) :
  transactions <> [] ->
  analyze_transactions self transactions userId = Ok r ->
  let s := InsightsResponse.incomeVsExpense r in
  let income := IncomeVsExpense.totalIncome s in
  let expense := IncomeVsExpense.totalExpense s in
  let rate := IncomeVsExpense.savingsRate s in
  income = series_sum (map Transaction.amount (filter typed_income transactions))
  /\ expense = series_sum (map Transaction.amount (filter typed_expense transactions))
  /\ IncomeVsExpense.netBalance s = (income - expense)%Q
  /\ ((0 < income)%Q -> rate = ((income - expense) / income * 100)%Q)
  /\ (~ (0 < income)%Q -> rate = 0%Q)
  /\ (IncomeVsExpense.status s = "healthy"%string <-> (20 <= rate)%Q)
  /\ (IncomeVsExpense.status s = "concerning"%string
      <-> (10 <= rate)%Q /\ ~ (20 <= rate)%Q)
  /\ (IncomeVsExpense.status s = "critical"%string
      <-> ~ (20 <= rate)%Q /\ ~ (10 <= rate)%Q).
Proof.
  intros Hne Hrun s income expense rate.
  destruct (analyze_transactions_summary self transactions userId r Hne Hrun)
    as [Hs _].
  pose proof (status_of_rate (_transactions_to_dataframe transactions)) as Hst.
  cbv zeta in Hst. rewrite <- Hs in Hst. fold s in Hst. fold rate in Hst.
  assert (Hinc : income
                 = series_sum (map Transaction.amount (filter typed_income transactions))).
  { unfold income, s. rewrite Hs. cbn. apply f_equal, income_subset_amounts. }
  assert (Hexp : expense
                 = series_sum (map Transaction.amount (filter typed_expense transactions))).
  { unfold expense, s. rewrite Hs. cbn.
    apply f_equal, (expense_subset_amounts transactions). }
  assert (Hrate : rate = if Qgt_bool income 0
                         then ((income - expense) / income * 100)%Q else 0%Q).
  { unfold rate, income, expense, s. rewrite Hs. reflexivity. }
  split; [exact Hinc|]. split; [exact Hexp|].
  split; [unfold income, expense, s; rewrite Hs; reflexivity|].
  split; [intro Hpos; apply Qgt_bool_iff in Hpos; rewrite Hrate, Hpos; reflexivity|].
  split.
  { intro Hle. apply Qnot_lt_le, Qgt_bool_false_iff in Hle.
    rewrite Hrate, Hle. reflexivity. }
  destruct Hst as [[H20 Hp]|[(H20 & H10 & Hp)|(H20 & H10 & Hp)]];
    rewrite Hp; repeat split; intros;
    repeat match goal with
           | H : _ /\ _ |- _ => destruct H
           | |- ~ _ => intro
           end;
    try discriminate; try reflexivity; try lra.
Qed.

Lemma income_summary_thresholds_witness :
  let r := sample_small_response in
  let s := InsightsResponse.incomeVsExpense r in
  sample_small <> []
  /\ analyze_transactions quiet_service sample_small "user123" = Ok r
  /\ (IncomeVsExpense.savingsRate s == 925 # 10)%Q
  /\ (IncomeVsExpense.status s = "healthy"%string
      <-> (20 <= IncomeVsExpense.savingsRate s)%Q).
Proof.
  intros r s.
  assert (Hne : sample_small <> []) by discriminate.
  assert (H : analyze_transactions quiet_service sample_small "user123" = Ok r)
    by (vm_compute; reflexivity).
  split; [exact Hne|]. split; [exact H|]. split; [reflexivity|].
  apply (income_summary_thresholds quiet_service sample_small "user123" r Hne H).
Defined.

(** X3. A non-empty input without any transaction typed "INCOME" is
    answered with total income 0, savings rate 0 and status "critical",
    whatever its expenses (the empty input gets "healthy"). *)
Theorem no_income_is_critical (self : InsightsService)
  (transactions : list Transaction.t) (userId : string) (r : InsightsResponse.t) :
  transactions <> [] ->
  (forall t, In t transactions -> typed_income t = false) ->
  analyze_transactions self transactions userId = Ok r ->
  let s := InsightsResponse.incomeVsExpense r in
  IncomeVsExpense.totalIncome s = 0%Q
  /\ IncomeVsExpense.savingsRate s = 0%Q
  /\ IncomeVsExpense.status s = "critical"%string.
Proof.
  intros Hne Hnone Hrun s.
  destruct (analyze_transactions_summary self transactions userId r Hne Hrun)
    as [Hs _].
  assert (Hno : filter typed_income transactions = []).
  { clear - Hnone. induction transactions as [|t ts IH]; [reflexivity|].
    simpl. rewrite (Hnone t (or_introl eq_refl)). apply IH.
    intros t' Ht'. apply Hnone. right. exact Ht'. }
  unfold s. rewrite Hs. unfold _analyze_income_vs_expense.
  rewrite income_subset_amounts, Hno. cbn. repeat split.
Qed.

Lemma no_income_is_critical_witness :
  let txs := [tx "1" 50 TransactionCategory.FOOD 1 EXPENSE] in
  let r := response_of quiet_service txs in
  txs <> []
  /\ (forall t, In t txs -> typed_income t = false)
  /\ analyze_transactions quiet_service txs "user123" = Ok r
  /\ IncomeVsExpense.totalIncome (InsightsResponse.incomeVsExpense r) = 0%Q
  /\ IncomeVsExpense.savingsRate (InsightsResponse.incomeVsExpense r) = 0%Q
  /\ IncomeVsExpense.status (InsightsResponse.incomeVsExpense r) = "critical"%string.
Proof.
  intros txs r.
  assert (Hne : txs <> []) by discriminate.
  assert (Hnone : forall t, In t txs -> typed_income t = false).
  { intros t [<-|[]]. reflexivity. }
  assert (H : analyze_transactions quiet_service txs "user123" = Ok r)
    by (vm_compute; reflexivity).
  split; [exact Hne|]. split; [exact Hnone|]. split; [exact H|].
  apply (no_income_is_critical quiet_service txs "user123" r Hne Hnone H).
Defined.

(** X4. In every response the total spending is the total expense of the
    income summary: the two sums over the expense subset agree. *)
Theorem total_spending_is_total_expense (self : InsightsService)
  (transactions : list Transaction.t) (userId : string) (r : InsightsResponse.t) :
  analyze_transactions self transactions userId = Ok r ->
  InsightsResponse.totalSpending r
  = IncomeVsExpense.totalExpense (InsightsResponse.incomeVsExpense r).
Proof.
  intro Hrun. destruct transactions as [|t ts].
  - injection Hrun as <-. reflexivity.
  - destruct (analyze_transactions_inv self (t :: ts) userId r ltac:(discriminate) Hrun)
      as (_ & _ & _ & _ & Htotal & _).
    destruct (analyze_transactions_summary self (t :: ts) userId r
                ltac:(discriminate) Hrun) as [Hs _].
    rewrite Htotal, Hs. reflexivity.
Qed.

Lemma total_spending_is_total_expense_witness :
  let r := sample_small_response in
  analyze_transactions quiet_service sample_small "user123" = Ok r
  /\ InsightsResponse.totalSpending r
     = IncomeVsExpense.totalExpense (InsightsResponse.incomeVsExpense r).
Proof.
  intro r.
  assert (H : analyze_transactions quiet_service sample_small "user123" = Ok r)
    by (vm_compute; reflexivity).
  split; [exact H|].
  apply (total_spending_is_total_expense quiet_service sample_small "user123" r H).
Defined.

(** ** Spending patterns: order, averages, categories *)

Section SortedOutput.
Context {A : Type} (le : A -> A -> bool).
Hypothesis le_total : forall x y, le x y = true \/ le y x = true.
Hypothesis le_trans : forall x y z, le x y = true -> le y z = true -> le x z = true.

Lemma insert_by_sorted (x : A) (l : list A) :
  StronglySorted (fun a b => le a b = true) l ->
  StronglySorted (fun a b => le a b = true) (insert_by le x l).
Proof.
  induction 1 as [|y l Hs IH Hy]; simpl.
  - repeat constructor.
  - destruct (le x y) eqn:E.
    + constructor; [constructor; assumption|].
      constructor; [exact E|].
      rewrite Forall_forall in *. intros z Hz. apply (le_trans x y z E). auto.
    + constructor; [exact IH|].
      rewrite Forall_forall in *. intros z Hz.
      apply (Permutation_in _ (insert_by_perm le x l)) in Hz.
      destruct Hz as [<-|Hz]; [|auto].
      destruct (le_total x y) as [H|H]; [congruence | exact H].
Qed.

Lemma list_sort_sorted (l : list A) :
  StronglySorted (fun a b => le a b = true) (list_sort le l).
Proof.
  induction l as [|x l IH]; simpl; [constructor | apply insert_by_sorted, IH].
Qed.
End SortedOutput.

Lemma StronglySorted_weaken {A : Type} (R R' : A -> A -> Prop) (l : list A) :
  (forall x y, R x y -> R' x y) -> StronglySorted R l -> StronglySorted R' l.
Proof.
  intros Himp. induction 1 as [|x l Hs IH Hx]; constructor; [exact IH|].
  rewrite Forall_forall in *. auto.
Qed.

(** X5. The spending patterns of a response are in descending order of
    total amount: every pattern's total is at least the total of each
    pattern after it. *)
Theorem spending_patterns_descending (self : InsightsService)
  (transactions : list Transaction.t) (userId : string) (r : InsightsResponse.t) :
  analyze_transactions self transactions userId = Ok r ->
  StronglySorted total_ge (InsightsResponse.spendingPatterns r).
Proof.
  intro Hrun. destruct transactions as [|t ts].
  { injection Hrun as <-. constructor. }
  destruct (analyze_transactions_inv self (t :: ts) userId r ltac:(discriminate) Hrun)
    as (Hpat & _).
  rewrite Hpat. unfold _analyze_spending_patterns.
  eapply StronglySorted_weaken;
    [|apply list_sort_sorted].
  - intros p q H. apply Qle_bool_iff in H. exact H.
  - intros x y. destruct (Qle_bool (SpendingPattern.totalAmount y)
                                   (SpendingPattern.totalAmount x)) eqn:E;
      [left; reflexivity|]. right. apply Qle_bool_iff.
    apply Qlt_le_weak, Qnot_le_lt. intro H. apply Qle_bool_iff in H. congruence.
  - intros x y z H1 H2. apply Qle_bool_iff in H1, H2. apply Qle_bool_iff.
    eapply Qle_trans; eassumption.
Qed.

Lemma spending_patterns_descending_witness :
  let r := sample_tiers_response in
  analyze_transactions quiet_service sample_tiers "user123" = Ok r
  /\ map SpendingPattern.totalAmount (InsightsResponse.spendingPatterns r)
     = [60; 13; 12; 10; 5]%Q
  /\ StronglySorted total_ge (InsightsResponse.spendingPatterns r).
Proof.
  intro r.
  assert (H : analyze_transactions quiet_service sample_tiers "user123" = Ok r)
    by (vm_compute; reflexivity).
  split; [exact H|]. split; [reflexivity|].
  apply (spending_patterns_descending quiet_service sample_tiers "user123" r H).
Defined.

Lemma filter_filter_and {A : Type} (p q : A -> bool) (l : list A) :
  filter p (filter q l) = filter (fun x => q x && p x) l.
Proof.
  induction l as [|x l IH]; simpl; [reflexivity|].
  destruct (q x); simpl; [destruct (p x)|]; rewrite IH; reflexivity.
Qed.

(** The rows of one category of the expense subset are the rows of the
    expenses of that category. *)
Lemma expense_subset_category (transactions : list Transaction.t) (c : string) :
  filter (category_is c) (expense_subset transactions)
  = _transactions_to_dataframe (filter (in_category c) transactions).
Proof.
  unfold expense_subset, _transactions_to_dataframe.
  rewrite !filter_map_comm, filter_filter_and. reflexivity.
Qed.

Lemma dataframe_amounts (transactions : list Transaction.t) :
  amounts (_transactions_to_dataframe transactions)
  = map Transaction.amount transactions.
Proof. unfold amounts, _transactions_to_dataframe. apply map_map. Qed.

Lemma dataframe_length (transactions : list Transaction.t) :
  List.length (_transactions_to_dataframe transactions) = List.length transactions.
Proof. unfold _transactions_to_dataframe. apply length_map. Qed.

(** A pattern of a response, in terms of the transactions. *)
Lemma spending_pattern_inv (self : InsightsService)
  (transactions : list Transaction.t) (userId : string) (r : InsightsResponse.t)
  (p : SpendingPattern.t) :
  analyze_transactions self transactions userId = Ok r ->
  In p (InsightsResponse.spendingPatterns r) ->
  let mine := filter (in_category (SpendingPattern.category p)) transactions in
  mine <> []
  /\ SpendingPattern.totalAmount p = series_sum (map Transaction.amount mine)
  /\ SpendingPattern.transactionCount p = Z.of_nat (List.length mine)
  /\ SpendingPattern.averageAmount p
     = (SpendingPattern.totalAmount p
        / inject_Z (SpendingPattern.transactionCount p))%Q.
Proof.
  intros Hrun Hp mine.
  destruct transactions as [|t ts].
  { injection Hrun as <-. contradiction. }
  destruct (analyze_transactions_inv self (t :: ts) userId r ltac:(discriminate) Hrun)
    as (Hpat & _).
  rewrite Hpat in Hp. apply In_spending_patterns in Hp.
  destruct Hp as [c [Hc ->]]. unfold mine. cbn [pattern_of SpendingPattern.category
    SpendingPattern.totalAmount SpendingPattern.transactionCount
    SpendingPattern.averageAmount].
  rewrite expense_subset_category, dataframe_amounts, dataframe_length.
  repeat split.
  apply in_map_iff in Hc. destruct Hc as [row [Hcat Hrow]].
  assert (Hin : In row (filter (category_is c) (expense_subset (t :: ts)))).
  { apply filter_In. split; [exact Hrow|]. unfold category_is.
    rewrite Hcat. apply String.eqb_refl. }
  rewrite expense_subset_category in Hin.
  intro Hnil. rewrite Hnil in Hin. exact Hin.
Qed.

(** X6. Every spending pattern of a response stands for at least one
    expense: its count is the number of expenses of its category, its total
    is the sum of their amounts, and its average is its total divided by
    its count. *)
Theorem pattern_average_is_total_over_count (self : InsightsService)
  (transactions : list Transaction.t) (userId : string) (r : InsightsResponse.t)
  (p : SpendingPattern.t) :
  analyze_transactions self transactions userId = Ok r ->
  In p (InsightsResponse.spendingPatterns r) ->
  let mine := filter (in_category (SpendingPattern.category p)) transactions in
  (1 <= SpendingPattern.transactionCount p)%Z
  /\ SpendingPattern.transactionCount p = Z.of_nat (List.length mine)
  /\ SpendingPattern.totalAmount p = series_sum (map Transaction.amount mine)
  /\ SpendingPattern.averageAmount p
     = (SpendingPattern.totalAmount p
        / inject_Z (SpendingPattern.transactionCount p))%Q.
Proof.
  intros Hrun Hp mine.
  destruct (spending_pattern_inv self transactions userId r p Hrun Hp)
    as (Hne & Htotal & Hcount & Havg).
  fold mine in Hne, Htotal, Hcount.
  assert (Hpos : (1 <= SpendingPattern.transactionCount p)%Z).
  { rewrite Hcount. destruct mine; [congruence|]. simpl List.length. lia. }
  repeat split; assumption.
Qed.

Lemma pattern_average_is_total_over_count_witness :
  let r := sample_small_response in
  let p := pattern_of (expense_subset sample_small) 150 "transport" in
  analyze_transactions quiet_service sample_small "user123" = Ok r
  /\ In p (InsightsResponse.spendingPatterns r)
  /\ SpendingPattern.transactionCount p = 1%Z
  /\ (SpendingPattern.totalAmount p == 100)%Q
  /\ (SpendingPattern.averageAmount p == 100)%Q
  /\ let mine := filter (in_category (SpendingPattern.category p)) sample_small in
     (1 <= SpendingPattern.transactionCount p)%Z
     /\ SpendingPattern.transactionCount p = Z.of_nat (List.length mine)
     /\ SpendingPattern.totalAmount p = series_sum (map Transaction.amount mine)
     /\ SpendingPattern.averageAmount p
        = (SpendingPattern.totalAmount p
           / inject_Z (SpendingPattern.transactionCount p))%Q.
Proof.
  intros r p.
  assert (H : analyze_transactions quiet_service sample_small "user123" = Ok r)
    by (vm_compute; reflexivity).
  assert (Hp : In p (InsightsResponse.spendingPatterns r))
    by (left; vm_compute; reflexivity).
  split; [exact H|]. split; [exact Hp|].
  split; [reflexivity|]. split; [reflexivity|]. split; [reflexivity|].
  apply (pattern_average_is_total_over_count
           quiet_service sample_small "user123" r p H Hp).
Defined.

Lemma spending_pattern_categories (df : DataFrame) :
  Permutation (map SpendingPattern.category (_analyze_spending_patterns df))
              (unique (map Row.category df)).
Proof.
  unfold _analyze_spending_patterns.
  eapply Permutation_trans; [apply Permutation_map, list_sort_perm|].
  rewrite map_map. cbn [pattern_of SpendingPattern.category].
  rewrite map_id. apply Permutation_refl.
Qed.

Lemma expense_category_present (transactions : list Transaction.t) (c : string) :
  In c (map Row.category (expense_subset transactions)) <->
  exists t, In t transactions /\ in_category c t = true.
Proof.
  split.
  - intro H. apply in_map_iff in H. destruct H as [row [Hcat Hrow]].
    assert (Hin : In row (filter (category_is c) (expense_subset transactions))).
    { apply filter_In. split; [exact Hrow|]. unfold category_is.
      rewrite Hcat. apply String.eqb_refl. }
    rewrite expense_subset_category in Hin.
    unfold _transactions_to_dataframe in Hin. apply in_map_iff in Hin.
    destruct Hin as [t [_ Ht]]. apply filter_In in Ht. exists t. exact Ht.
  - intros [t [Ht Hc]]. unfold in_category in Hc.
    apply andb_prop in Hc. destruct Hc as [He Hc]. apply String.eqb_eq in Hc.
    unfold expense_subset, _transactions_to_dataframe.
    apply in_map_iff. eexists. split; cycle 1.
    + apply filter_In. split; [apply in_map; exact Ht | exact He].
    + exact Hc.
Qed.

(** X7. The spending patterns of a response have pairwise distinct
    categories: exactly the categories that have an expense in the input,
    one pattern each, hence at most seven patterns. *)
Theorem pattern_categories_distinct (self : InsightsService)
  (transactions : list Transaction.t) (userId : string) (r : InsightsResponse.t) :
  analyze_transactions self transactions userId = Ok r ->
  let categories := map SpendingPattern.category (InsightsResponse.spendingPatterns r) in
  NoDup categories
  /\ (forall c, In c categories <->
                exists t, In t transactions
                          /\ typed_expense t = true
                          /\ TransactionCategory.value (Transaction.category t) = c)
  /\ (List.length (InsightsResponse.spendingPatterns r) <= 7)%nat.
Proof.
  intros Hrun categories.
  assert (Hperm : Permutation categories
                    (unique (map Row.category (expense_subset transactions)))).
  { unfold categories. destruct transactions as [|t ts].
    - injection Hrun as <-. apply perm_nil.
    - destruct (analyze_transactions_inv self (t :: ts) userId r
                  ltac:(discriminate) Hrun) as (Hpat & _).
      rewrite Hpat. apply spending_pattern_categories. }
  assert (Hnd : NoDup categories).
  { apply (Permutation_NoDup (Permutation_sym Hperm)), NoDup_unique. }
  split; [exact Hnd|]. split.
  - intro c. split.
    + intro H. apply (Permutation_in _ Hperm) in H.
      apply In_unique, expense_category_present in H.
      destruct H as [t [Ht Hc]]. unfold in_category in Hc.
      apply andb_prop in Hc. destruct Hc as [He Hc]. apply String.eqb_eq in Hc.
      exists t. auto.
    + intros [t [Ht [He Hc]]].
      apply (Permutation_in _ (Permutation_sym Hperm)).
      apply In_unique, expense_category_present. exists t. split; [exact Ht|].
      unfold in_category. rewrite He, Hc. apply String.eqb_refl.
  - replace (List.length (InsightsResponse.spendingPatterns r))
      with (List.length categories) by apply length_map.
    change 7%nat with (List.length category_values).
    apply NoDup_incl_length; [exact Hnd|].
    intros c Hc. apply (Permutation_in _ Hperm) in Hc.
    apply In_unique, expense_subset_categories in Hc. destruct Hc as [c0 ->].
    unfold category_values. apply in_map. destruct c0; simpl; auto 8.
Qed.

Lemma pattern_categories_distinct_witness :
  let r := sample_tiers_response in
  analyze_transactions quiet_service sample_tiers "user123" = Ok r
  /\ map SpendingPattern.category (InsightsResponse.spendingPatterns r)
     = ["shopping"; "transport"; "food"; "utilities"; "healthcare"]%string
  /\ NoDup (map SpendingPattern.category (InsightsResponse.spendingPatterns r)).
Proof.
  intro r.
  assert (H : analyze_transactions quiet_service sample_tiers "user123" = Ok r)
    by (vm_compute; reflexivity).
  split; [exact H|]. split; [reflexivity|].
  apply (pattern_categories_distinct quiet_service sample_tiers "user123" r H).
Defined.

(** ** Spending patterns: nothing is lost *)

Lemma sum_Z_inject (l : list Z) :
  (inject_Z (sum_Z l) == series_sum (map inject_Z l))%Q.
Proof.
  induction l as [|x l IH]; simpl; [reflexivity|].
  rewrite inject_Z_plus, IH. reflexivity.
Qed.

Lemma unit_amounts_sum (df : DataFrame) :
  (series_sum (amounts (unit_amounts df)) == inject_Z (Z.of_nat (List.length df)))%Q.
Proof.
  induction df as [|row df IH]; [reflexivity|].
  cbn [unit_amounts map amounts series_sum List.length].
  change (map Row.amount (map _ df)) with (amounts (unit_amounts df)).
  rewrite IH, Nat2Z.inj_succ, <- Z.add_1_l, inject_Z_plus. reflexivity.
Qed.

Lemma unit_amounts_category (df : DataFrame) (c : string) :
  filter (category_is c) (unit_amounts df) = unit_amounts (filter (category_is c) df).
Proof.
  unfold unit_amounts. rewrite filter_map_comm. reflexivity.
Qed.

Lemma unit_amounts_categories (df : DataFrame) :
  map Row.category (unit_amounts df) = map Row.category df.
Proof. unfold unit_amounts. rewrite map_map. reflexivity. Qed.

(** The sizes of the categories add up to the size of the frame. *)
Lemma category_sizes_sum (df : DataFrame) :
  sum_Z (map (fun c => Z.of_nat (List.length (filter (category_is c) df)))
             (unique (map Row.category df)))
  = Z.of_nat (List.length df).
Proof.
  apply inject_Z_injective.
  rewrite sum_Z_inject, map_map, <- unit_amounts_sum.
  rewrite <- (category_totals_sum (unit_amounts df)), unit_amounts_categories.
  apply series_sum_map_ext. intros c _.
  unfold category_total. rewrite unit_amounts_category, unit_amounts_sum.
  reflexivity.
Qed.

Lemma sum_Z_perm (l l' : list Z) : Permutation l l' -> sum_Z l = sum_Z l'.
Proof. induction 1; simpl; lia. Qed.

(** X8. The patterns of a response count every expense once: their
    transaction counts add up to the number of transactions typed
    "EXPENSE". *)
Theorem pattern_counts_cover_every_expense (self : InsightsService)
  (transactions : list Transaction.t) (userId : string) (r : InsightsResponse.t) :
  analyze_transactions self transactions userId = Ok r ->
  sum_Z (map SpendingPattern.transactionCount (InsightsResponse.spendingPatterns r))
  = Z.of_nat (List.length (filter typed_expense transactions)).
Proof.
  intro Hrun. destruct transactions as [|t ts].
  { injection Hrun as <-. reflexivity. }
  destruct (analyze_transactions_inv self (t :: ts) userId r ltac:(discriminate) Hrun)
    as (Hpat & _).
  rewrite Hpat. unfold _analyze_spending_patterns.
  set (df := expense_subset (t :: ts)).
  set (le := fun x y : SpendingPattern.t => Qle_bool _ _).
  rewrite (sum_Z_perm _ _ (Permutation_map _ (list_sort_perm le _))).
  rewrite map_map. cbn [pattern_of SpendingPattern.transactionCount].
  rewrite (category_sizes_sum df). f_equal.
  rewrite <- (length_map Row.amount). fold (amounts df). unfold df.
  rewrite expense_subset_amounts. apply length_map.
Qed.

Lemma pattern_counts_cover_every_expense_witness :
  let r := sample_tiers_response in
  analyze_transactions quiet_service sample_tiers "user123" = Ok r
  /\ List.length (filter typed_expense sample_tiers) = 5%nat
  /\ sum_Z (map SpendingPattern.transactionCount (InsightsResponse.spendingPatterns r))
     = Z.of_nat (List.length (filter typed_expense sample_tiers)).
Proof.
  intro r.
  assert (H : analyze_transactions quiet_service sample_tiers "user123" = Ok r)
    by (vm_compute; reflexivity).
  split; [exact H|]. split; [reflexivity|].
  apply (pattern_counts_cover_every_expense quiet_service sample_tiers "user123" r H).
Defined.

(** ** Recommendations and health entries follow the patterns *)

Lemma tiers_permutation (l : list CategoryHealth.t) :
  (forall h, In h l -> CategoryHealth.status h = "bad"%string
                       \/ CategoryHealth.status h = "warning"%string
                       \/ CategoryHealth.status h = "good"%string) ->
  Permutation (filter (status_is "bad") l ++ filter (status_is "warning") l
               ++ filter (status_is "good") l) l.
Proof.
  induction l as [|h l IH]; intro Hall; [apply perm_nil|].
  assert (IH' : Permutation (filter (status_is "bad") l ++ filter (status_is "warning") l
                             ++ filter (status_is "good") l) l).
  { apply IH. intros h' Hh'. apply Hall. right. exact Hh'. }
  assert (Hs : forall s, status_is s h = String.eqb (CategoryHealth.status h) s)
    by reflexivity.
  simpl. rewrite !Hs.
  destruct (Hall h (or_introl eq_refl)) as [E|[E|E]]; rewrite E; simpl.
  - apply perm_skip. exact IH'.
  - eapply Permutation_trans; [apply Permutation_sym, Permutation_middle|].
    apply perm_skip. exact IH'.
  - eapply Permutation_trans; [|apply perm_skip; exact IH'].
    rewrite app_assoc.
    eapply Permutation_trans; [apply Permutation_sym, Permutation_middle|].
    rewrite app_assoc. apply Permutation_refl.
Qed.

(** X9. A response has one budget recommendation per spending pattern, in
    the same order, each with the category of its pattern and the pattern's
    total as current spending; and its health entries are, up to the order,
    one per pattern, each with the pattern's category and total. *)
Theorem recommendations_and_health_follow_patterns (self : InsightsService)
  (transactions : list Transaction.t) (userId : string) (r : InsightsResponse.t) :
  analyze_transactions self transactions userId = Ok r ->
  let patterns := InsightsResponse.spendingPatterns r in
  let summary := fun p => (SpendingPattern.category p, SpendingPattern.totalAmount p) in
  map (fun b => (BudgetRecommendation.category b, BudgetRecommendation.currentSpending b))
      (InsightsResponse.budgetRecommendations r)
  = map summary patterns
  /\ Permutation
       (map (fun h => (CategoryHealth.category h, CategoryHealth.spending h))
            (InsightsResponse.categoryHealth r))
       (map summary patterns).
Proof.
  intros Hrun patterns summary. destruct transactions as [|t ts].
  { injection Hrun as <-. split; [reflexivity | apply perm_nil]. }
  destruct (analyze_transactions_inv self (t :: ts) userId r ltac:(discriminate) Hrun)
    as (_ & Hhealth & Hrec & _).
  fold patterns in Hhealth, Hrec. split.
  - rewrite Hrec. unfold _generate_budget_recommendations. rewrite map_map.
    apply map_ext. intro p.
    destruct (recommendation_of_fields
                (series_sum (amounts (expense_subset (t :: ts)))) p) as (Hc & Hs & _).
    rewrite Hc, Hs. reflexivity.
  - rewrite Hhealth.
    set (hs := map health_of patterns).
    eapply Permutation_trans; [apply Permutation_map, tiers_permutation|].
    + intros h Hh. apply in_map_iff in Hh. destruct Hh as [p [<- _]].
      apply health_of_tier.
    + unfold hs. rewrite map_map.
      replace (map (fun x => (CategoryHealth.category (health_of x),
                              CategoryHealth.spending (health_of x))) patterns)
        with (map summary patterns); [apply Permutation_refl|].
      apply map_ext. intro p. unfold health_of.
      destruct (Qle_bool _ (inject_Z _)); [|destruct (Qle_bool _ (_ * _))];
        reflexivity.
Qed.

Lemma recommendations_and_health_follow_patterns_witness :
  let r := sample_tiers_response in
  analyze_transactions quiet_service sample_tiers "user123" = Ok r
  /\ map BudgetRecommendation.category (InsightsResponse.budgetRecommendations r)
     = map SpendingPattern.category (InsightsResponse.spendingPatterns r)
  /\ Permutation
       (map (fun h => (CategoryHealth.category h, CategoryHealth.spending h))
            (InsightsResponse.categoryHealth r))
       (map (fun p => (SpendingPattern.category p, SpendingPattern.totalAmount p))
            (InsightsResponse.spendingPatterns r)).
Proof.
  intro r.
  assert (H : analyze_transactions quiet_service sample_tiers "user123" = Ok r)
    by (vm_compute; reflexivity).
  split; [exact H|]. split; [reflexivity|].
  apply (recommendations_and_health_follow_patterns
           quiet_service sample_tiers "user123" r H).
Defined.

Lemma recommended_pct_closed_set (c : TransactionCategory.t) :
  dict_get recommended_pct (TransactionCategory.value c) 5%Z = guideline_percent c.
Proof. destruct c; reflexivity. Qed.

Lemma Qle_bool_false_iff (x y : Q) : Qle_bool x y = false <-> (y < x)%Q.
Proof.
  split; intro H.
  - apply Qnot_le_lt. intro Hle. apply Qle_bool_iff in Hle. congruence.
  - destruct (Qle_bool x y) eqn:E; [|reflexivity].
    apply Qle_bool_iff in E. exfalso. apply (Qlt_not_le _ _ H E).
Qed.

(** X10. Every health entry of a response belongs to one spending pattern
    of the same category and total, and its status is "good" exactly when
    the pattern's percentage is at most the guideline of the category,
    "warning" exactly when it is not, but is at most 1.5 times the
    guideline, and "bad" exactly when it is neither (the code's own two
    tests, so also for a percentage that compares with nothing). *)
Theorem health_tier_thresholds (self : InsightsService)
  (transactions : list Transaction.t) (userId : string) (r : InsightsResponse.t)
  (h : CategoryHealth.t) :
  analyze_transactions self transactions userId = Ok r ->
  In h (InsightsResponse.categoryHealth r) ->
  exists p c,
    In p (InsightsResponse.spendingPatterns r)
    /\ CategoryHealth.category h = SpendingPattern.category p
    /\ CategoryHealth.category h = TransactionCategory.value c
    /\ CategoryHealth.spending h = SpendingPattern.totalAmount p
    /\ let pct := SpendingPattern.percentage p in
       let guideline := inject_Z (guideline_percent c) in
       (CategoryHealth.status h = "good"%string <-> (pct <= guideline)%Q)
       /\ (CategoryHealth.status h = "warning"%string
           <-> ~ (pct <= guideline)%Q /\ (pct <= guideline * (15 # 10))%Q)
       /\ (CategoryHealth.status h = "bad"%string
           <-> ~ (pct <= guideline)%Q /\ ~ (pct <= guideline * (15 # 10))%Q).
Proof.
  intros Hrun Hh. destruct transactions as [|t ts].
  { injection Hrun as <-. contradiction. }
  destruct (analyze_transactions_inv self (t :: ts) userId r ltac:(discriminate) Hrun)
    as (Hpat & Hhealth & _).
  rewrite Hhealth in Hh.
  assert (Hin : In h (map health_of (InsightsResponse.spendingPatterns r))).
  { rewrite !in_app_iff in Hh.
    destruct Hh as [Hh|[Hh|Hh]]; apply filter_In in Hh; apply Hh. }
  apply in_map_iff in Hin. destruct Hin as [p [<- Hp]].
  assert (Hp' := Hp). rewrite Hpat in Hp'. apply In_spending_patterns in Hp'.
  destruct Hp' as [category [Hcat Hpdef]].
  apply expense_subset_categories in Hcat. destruct Hcat as [c Hc].
  assert (Hpc : SpendingPattern.category p = TransactionCategory.value c).
  { rewrite Hpdef. cbn. exact Hc. }
  assert (Hfields : CategoryHealth.category (health_of p) = SpendingPattern.category p
                    /\ CategoryHealth.spending (health_of p)
                       = SpendingPattern.totalAmount p).
  { unfold health_of.
    destruct (Qle_bool _ (inject_Z _)); [|destruct (Qle_bool _ (_ * _))];
      split; reflexivity. }
  exists p, c. destruct Hfields as [Hf1 Hf2].
  split; [exact Hp|]. split; [exact Hf1|]. split; [rewrite Hf1; exact Hpc|].
  split; [exact Hf2|].
  pose proof (health_of_status p) as Hst. cbv zeta in Hst.
  rewrite Hpc, recommended_pct_closed_set in Hst. cbv zeta.
  destruct Hst as [[H1 Hs]|[(H1 & H2 & Hs)|(H1 & H2 & Hs)]];
    rewrite Hs;
    try apply Qle_bool_iff in H1; try apply Qle_bool_false_iff in H1;
    try apply Qle_bool_iff in H2; try apply Qle_bool_false_iff in H2;
    assert (Hg : (0 <= inject_Z (guideline_percent c))%Q)
      by (destruct c; discriminate);
    repeat split; intros;
    repeat match goal with
           | H : _ /\ _ |- _ => destruct H
           | |- ~ _ => intro
           end;
    try discriminate; try reflexivity; try lra.
Qed.

Lemma health_tier_thresholds_witness :
  let r := sample_tiers_response in
  let h := health_of (pattern_of (expense_subset sample_tiers) 100 "transport") in
  analyze_transactions quiet_service sample_tiers "user123" = Ok r
  /\ In h (InsightsResponse.categoryHealth r)
  /\ CategoryHealth.status h = "warning"%string
  /\ exists p c,
       In p (InsightsResponse.spendingPatterns r)
       /\ CategoryHealth.category h = SpendingPattern.category p
       /\ CategoryHealth.category h = TransactionCategory.value c
       /\ CategoryHealth.spending h = SpendingPattern.totalAmount p
       /\ let pct := SpendingPattern.percentage p in
          let guideline := inject_Z (guideline_percent c) in
          (CategoryHealth.status h = "good"%string <-> (pct <= guideline)%Q)
          /\ (CategoryHealth.status h = "warning"%string
              <-> ~ (pct <= guideline)%Q /\ (pct <= guideline * (15 # 10))%Q)
          /\ (CategoryHealth.status h = "bad"%string
              <-> ~ (pct <= guideline)%Q
                  /\ ~ (pct <= guideline * (15 # 10))%Q).
Proof.
  intros r h.
  assert (H : analyze_transactions quiet_service sample_tiers "user123" = Ok r)
    by (vm_compute; reflexivity).
  assert (Hh : In h (InsightsResponse.categoryHealth r))
    by (right; left; vm_compute; reflexivity).
  split; [exact H|]. split; [exact Hh|]. split; [reflexivity|].
  apply (health_tier_thresholds quiet_service sample_tiers "user123" r h H Hh).
Defined.

(** ** Savings opportunities and daily average: bounds *)

(** X11. Whatever the input, a response carries at least one and at most
    five savings-opportunity strings. *)
Theorem savings_between_one_and_five (self : InsightsService)
  (transactions : list Transaction.t) (userId : string) (r : InsightsResponse.t) :
  analyze_transactions self transactions userId = Ok r ->
  (1 <= List.length (InsightsResponse.savingsOpportunities r) <= 5)%nat.
Proof.
  intro Hrun. destruct transactions as [|t ts].
  { injection Hrun as <-. simpl. lia. }
  destruct (analyze_transactions_inv self (t :: ts) userId r ltac:(discriminate) Hrun)
    as (_ & _ & _ & _ & _ & _ & _ & Hsav).
  rewrite Hsav, identify_savings_opportunities_eq. cbv zeta.
  rewrite length_firstn.
  destruct (map reduce_text _ ++ map consolidate_text _) as [|s rest];
    simpl List.length; lia.
Qed.

Lemma savings_between_one_and_five_witness :
  let r := sample_small_response in
  analyze_transactions quiet_service sample_small "user123" = Ok r
  /\ (1 <= List.length (InsightsResponse.savingsOpportunities r) <= 5)%nat.
Proof.
  intro r.
  assert (H : analyze_transactions quiet_service sample_small "user123" = Ok r)
    by (vm_compute; reflexivity).
  split; [exact H|].
  apply (savings_between_one_and_five quiet_service sample_small "user123" r H).
Defined.

Lemma Qdiv_le_self (a : Q) (k : Z) :
  (0 <= a)%Q -> (1 <= k)%Z -> (0 <= a / inject_Z k <= a)%Q.
Proof.
  intros Ha Hk.
  assert (HK : (1 <= inject_Z k)%Q).
  { change 1%Q with (inject_Z 1). rewrite <- Zle_Qle. exact Hk. }
  split.
  - apply Qle_shift_div_l; lra.
  - apply Qle_shift_div_r; [lra|]. nra.
Qed.

(** X12. With positive amounts the average daily spending lies between 0
    and the total spending; when all the dates of the input lie less than
    two days apart it is the total spending itself, and the monthly
    projection is 30 times the total. *)
Theorem daily_average_bounds (self : InsightsService)
  (transactions : list Transaction.t) (userId : string) (r : InsightsResponse.t) :
  Forall valid_transaction transactions ->
  analyze_transactions self transactions userId = Ok r ->
  (0 <= InsightsResponse.averageDailySpending r <= InsightsResponse.totalSpending r)%Q
  /\ ((forall t t', In t transactions -> In t' transactions ->
                    (timestamp (Transaction.date t') - timestamp (Transaction.date t)
                     < 2 * usec_per_day)%Z) ->
      (InsightsResponse.averageDailySpending r == InsightsResponse.totalSpending r)%Q
      /\ (InsightsResponse.projectedMonthlySpending r
          == 30 * InsightsResponse.totalSpending r)%Q).
Proof.
  intros Hvalid Hrun. destruct transactions as [|t ts].
  { injection Hrun as <-. cbn. split; [split; discriminate|].
    intros _. split; reflexivity. }
  destruct (analyze_transactions_inv self (t :: ts) userId r ltac:(discriminate) Hrun)
    as (_ & _ & _ & _ & Htotal & (d & Hd & Havg) & Hproj & _).
  assert (Hnonneg : (0 <= InsightsResponse.totalSpending r)%Q).
  { rewrite Htotal. apply expense_total_nonneg. exact Hvalid. }
  split.
  - rewrite Havg. apply Qdiv_le_self; [exact Hnonneg | lia].
  - intro Hclose.
    destruct (date_range_of_spec (t :: ts) d ltac:(discriminate) Hd)
      as (_ & lo & hi & Hlo & Hhi & _ & Hrange).
    apply in_map_iff in Hlo, Hhi.
    destruct Hlo as [tlo [<- Hlo]]. destruct Hhi as [thi [<- Hhi]].
    pose proof (Hclose tlo thi Hlo Hhi) as Hspan.
    assert (Hone : Z.max d 1 = 1%Z).
    { rewrite Hrange.
      assert ((timestamp (Transaction.date thi) - timestamp (Transaction.date tlo))
              / 86400000000 < 2)%Z.
      { apply Z.div_lt_upper_bound; [reflexivity|].
        change (2 * usec_per_day)%Z with (86400000000 * 2)%Z in Hspan. exact Hspan. }
      lia. }
    rewrite Hone in Havg.
    assert (Ha : (InsightsResponse.averageDailySpending r
                  == InsightsResponse.totalSpending r)%Q).
    { rewrite Havg. field. }
    split; [exact Ha|]. rewrite Hproj, Ha. ring.
Qed.

Lemma daily_average_bounds_witness :
  let txs := [ tx "1" 50 TransactionCategory.FOOD 1 EXPENSE;
               tx "2" 100 TransactionCategory.TRANSPORT 2 EXPENSE ] in
  let r := response_of quiet_service txs in
  Forall valid_transaction txs
  /\ analyze_transactions quiet_service txs "user123" = Ok r
  /\ (forall t t', In t txs -> In t' txs ->
                   (timestamp (Transaction.date t') - timestamp (Transaction.date t)
                    < 2 * usec_per_day)%Z)
  /\ (InsightsResponse.averageDailySpending r == 150)%Q
  /\ (InsightsResponse.projectedMonthlySpending r == 4500)%Q
  /\ (0 <= InsightsResponse.averageDailySpending r
      <= InsightsResponse.totalSpending r)%Q.
Proof.
  intros txs r.
  assert (Hv : Forall valid_transaction txs).
  { unfold txs. repeat (constructor; [reflexivity|]). constructor. }
  assert (H : analyze_transactions quiet_service txs "user123" = Ok r)
    by (vm_compute; reflexivity).
  assert (Hclose : forall t t', In t txs -> In t' txs ->
             (timestamp (Transaction.date t') - timestamp (Transaction.date t)
              < 2 * usec_per_day)%Z).
  { intros t t' [<-|[<-|[]]] [<-|[<-|[]]]; reflexivity. }
  split; [exact Hv|]. split; [exact H|]. split; [exact Hclose|].
  split; [reflexivity|]. split; [reflexivity|].
  apply (daily_average_bounds quiet_service txs "user123" r Hv H).
Defined.

(** ** Anomalies *)

(** What [anomaly_loop] emits: one record per flagged sample, built from
    the entry of [transactions] at the position of the sample. *)
Lemma anomaly_loop_inv (df : DataFrame) (transactions : list Transaction.t)
  (samples : list (Z * Q)) (idx : nat) (l : list AnomalyDetection.t) :
  anomaly_loop df transactions idx samples = Ok l ->
  (List.length l <= List.length samples)%nat
  /\ forall a, In a l ->
       exists k score t,
         nth_error samples k = Some ((-1)%Z, score)
         /\ nth_error transactions (idx + k) = Some t
         /\ a = anomaly_of df (idx + k) score t.
Proof.
  revert idx l. induction samples as [|[pred score] rest IH]; intros idx l Hrun.
  - simpl in Hrun. injection Hrun as <-. split; [simpl; lia | contradiction].
  - simpl in Hrun. destruct (pred =? -1)%Z eqn:Epred.
    + apply Z.eqb_eq in Epred. subst pred.
      destruct (nth_error transactions idx) as [t|] eqn:Hn; [|discriminate].
      destruct (anomaly_loop df transactions (S idx) rest) as [tl|e] eqn:Hrest;
        cbn [bind] in Hrun; [|discriminate].
      injection Hrun as <-. destruct (IH (S idx) tl Hrest) as [Hlen Hall].
      split; [simpl; lia|]. intros a [<-|Ha].
      * exists 0%nat, score, t. rewrite Nat.add_0_r. repeat split. exact Hn.
      * destruct (Hall a Ha) as (k & s & t' & Hk & Ht' & Hdef).
        exists (S k), s, t'. rewrite Nat.add_succ_r. repeat split; assumption.
    + destruct (IH (S idx) l Hrun) as [Hlen Hall].
      split; [simpl; lia|]. intros a Ha.
      destruct (Hall a Ha) as (k & s & t' & Hk & Ht' & Hdef).
      exists (S k), s, t'. rewrite Nat.add_succ_r. repeat split; assumption.
Qed.

Lemma nth_error_combine {A B : Type} (l : list A) (l' : list B) (k : nat) (a : A) (b : B) :
  nth_error (combine l l') k = Some (a, b) ->
  nth_error l k = Some a /\ nth_error l' k = Some b.
Proof.
  revert l' k. induction l as [|x l IH]; intros [|y l'] [|k]; simpl;
    try discriminate.
  - intro H. injection H as <- <-. split; reflexivity.
  - apply IH.
Qed.

(** The anomalies of a response, in terms of the labels and scores of the
    model on the amounts of the expense subset. *)
Lemma detect_anomalies_inv (self : InsightsService)
  (transactions : list Transaction.t) (userId : string) (r : InsightsResponse.t)
  (a : AnomalyDetection.t) :
  analyze_transactions self transactions userId = Ok r ->
  In a (InsightsResponse.anomalies r) ->
  let d := anomaly_detector self in
  let features := amounts (expense_subset transactions) in
  (10 <= List.length (filter typed_expense transactions))%nat
  /\ exists idx score t,
       nth_error (predict d (fit d features) features) idx = Some (-1)%Z
       /\ nth_error (score_samples d (fit d features) features) idx = Some score
       /\ nth_error transactions idx = Some t
       /\ a = anomaly_of (expense_subset transactions) idx score t.
Proof.
  intros Hrun Ha d features. destruct transactions as [|t0 ts].
  { injection Hrun as <-. contradiction. }
  destruct (analyze_transactions_inv self (t0 :: ts) userId r ltac:(discriminate) Hrun)
    as (_ & _ & _ & Hdet & _).
  unfold _detect_anomalies in Hdet.
  destruct (List.length (expense_subset (t0 :: ts)) <? 10)%nat eqn:Hlen.
  { injection Hdet as Hnil. rewrite <- Hnil in Ha. contradiction. }
  apply Nat.ltb_ge in Hlen. cbv zeta in Hdet. fold d in Hdet. fold features in Hdet.
  destruct (anomaly_loop_inv _ _ _ _ _ Hdet) as [_ Hall].
  split.
  - rewrite <- (length_map Transaction.amount), <- expense_subset_amounts.
    unfold amounts. rewrite length_map. exact Hlen.
  - destruct (Hall a Ha) as (k & score & t & Hk & Ht & Hdef).
    apply nth_error_combine in Hk. destruct Hk as [Hp Hs].
    exists k, score, t. simpl in Ht, Hdef. repeat split; assumption.
Qed.

(** X13. Every anomaly of a response has a non-negative score and carries
    the amount, category and date of one transaction of the input, and its
    id when it has a non-empty one; anomalies are reported only when at
    least 10 transactions are typed "EXPENSE". *)
Theorem anomaly_records_wellformed (self : InsightsService)
  (transactions : list Transaction.t) (userId : string) (r : InsightsResponse.t)
  (a : AnomalyDetection.t) :
  analyze_transactions self transactions userId = Ok r ->
  In a (InsightsResponse.anomalies r) ->
  (0 <= AnomalyDetection.anomalyScore a)%Q
  /\ (10 <= List.length (filter typed_expense transactions))%nat
  /\ exists t,
       In t transactions
       /\ AnomalyDetection.amount a = Transaction.amount t
       /\ AnomalyDetection.category a
          = TransactionCategory.value (Transaction.category t)
       /\ AnomalyDetection.date a = Transaction.date t
       /\ (forall c s, Transaction.id t = Some (String c s) ->
                       AnomalyDetection.transactionId a = String c s).
Proof.
  intros Hrun Ha.
  destruct (detect_anomalies_inv self transactions userId r a Hrun Ha)
    as (Hten & idx & score & t & _ & _ & Ht & ->).
  split; [apply Qabs_nonneg|]. split; [exact Hten|].
  exists t. split; [apply nth_error_In with idx; exact Ht|].
  repeat split. intros c s Hid. cbn. rewrite Hid. reflexivity.
Qed.

Lemma anomaly_records_wellformed_witness :
  let r := response_of spike_service sample_mixed in
  let a := anomaly_of (expense_subset sample_mixed) 9 (- (75 # 100))
             (tx "e8" 10 TransactionCategory.FOOD 10 EXPENSE) in
  analyze_transactions spike_service sample_mixed "user123" = Ok r
  /\ In a (InsightsResponse.anomalies r)
  /\ (AnomalyDetection.anomalyScore a == 75 # 100)%Q
  /\ (0 <= AnomalyDetection.anomalyScore a)%Q.
Proof.
  intros r a.
  assert (H : analyze_transactions spike_service sample_mixed "user123" = Ok r)
    by (vm_compute; reflexivity).
  assert (Ha : In a (InsightsResponse.anomalies r))
    by (left; vm_compute; reflexivity).
  split; [exact H|]. split; [exact Ha|]. split; [reflexivity|].
  apply (anomaly_records_wellformed spike_service sample_mixed "user123" r a H Ha).
Defined.

Lemma all_expenses_subset (transactions : list Transaction.t) :
  (forall t, In t transactions -> typed_expense t = true) ->
  expense_subset transactions = _transactions_to_dataframe transactions.
Proof.
  intro Hall. unfold expense_subset, _transactions_to_dataframe.
  rewrite filter_map_comm. f_equal. apply filter_all. exact Hall.
Qed.

(** X14. When every transaction of the input is typed "EXPENSE", each
    anomaly is the record of the very transaction whose sample the model
    flagged: for some position, the label there is -1, the feature there is
    the amount of the transaction there, and the anomaly carries that
    transaction's amount, category, date and id (or "tx_" and the position
    when the id is absent or empty). *)
Theorem anomalies_aligned_when_all_expenses (self : InsightsService)
  (transactions : list Transaction.t) (userId : string) (r : InsightsResponse.t)
  (a : AnomalyDetection.t) :
  (forall t, In t transactions -> typed_expense t = true) ->
  analyze_transactions self transactions userId = Ok r ->
  In a (InsightsResponse.anomalies r) ->
  let d := anomaly_detector self in
  let features := map Transaction.amount transactions in
  exists idx t,
    nth_error transactions idx = Some t
    /\ nth_error features idx = Some (Transaction.amount t)
    /\ nth_error (predict d (fit d features) features) idx = Some (-1)%Z
    /\ AnomalyDetection.amount a = Transaction.amount t
    /\ AnomalyDetection.category a = TransactionCategory.value (Transaction.category t)
    /\ AnomalyDetection.date a = Transaction.date t
    /\ AnomalyDetection.transactionId a
       = str_or (Transaction.id t) (fstr ["tx_"%string; str_of_nat idx]).
Proof.
  intros Hall Hrun Ha d features.
  destruct (detect_anomalies_inv self transactions userId r a Hrun Ha)
    as (_ & idx & score & t & Hp & _ & Ht & ->).
  rewrite (all_expenses_subset transactions Hall), dataframe_amounts in Hp.
  exists idx, t. split; [exact Ht|].
  split; [unfold features; apply map_nth_error; exact Ht|].
  split; [exact Hp|]. repeat split.
Qed.

Lemma anomalies_aligned_when_all_expenses_witness :
  let txs := tl sample_mixed in
  let r := response_of spike_service txs in
  let a := anomaly_of (expense_subset txs) 9 (- (75 # 100))
             (tx "e9" 1000 TransactionCategory.SHOPPING 11 EXPENSE) in
  (forall t, In t txs -> typed_expense t = true)
  /\ analyze_transactions spike_service txs "user123" = Ok r
  /\ In a (InsightsResponse.anomalies r)
  /\ AnomalyDetection.transactionId a = "e9"%string
  /\ exists idx t,
       nth_error txs idx = Some t
       /\ nth_error (map Transaction.amount txs) idx = Some (Transaction.amount t)
       /\ nth_error (predict spike_forest
                       (fit spike_forest (map Transaction.amount txs))
                       (map Transaction.amount txs)) idx = Some (-1)%Z
       /\ AnomalyDetection.amount a = Transaction.amount t
       /\ AnomalyDetection.category a
          = TransactionCategory.value (Transaction.category t)
       /\ AnomalyDetection.date a = Transaction.date t
       /\ AnomalyDetection.transactionId a
          = str_or (Transaction.id t) (fstr ["tx_"%string; str_of_nat idx]).
Proof.
  intros txs r a.
  assert (Hall : forall t, In t txs -> typed_expense t = true).
  { intros t Ht. simpl in Ht.
    repeat (destruct Ht as [<-|Ht]; [reflexivity|]). contradiction. }
  assert (H : analyze_transactions spike_service txs "user123" = Ok r)
    by (vm_compute; reflexivity).
  assert (Ha : In a (InsightsResponse.anomalies r))
    by (left; vm_compute; reflexivity).
  split; [exact Hall|]. split; [exact H|]. split; [exact Ha|].
  split; [reflexivity|].
  apply (anomalies_aligned_when_all_expenses spike_service txs "user123" r a Hall H Ha).
Defined.

(** ** Transactions of no known type *)

Lemma income_frame (transactions : list Transaction.t) :
  filter (type_is "INCOME") (_transactions_to_dataframe transactions)
  = _transactions_to_dataframe (filter typed_income transactions).
Proof. unfold _transactions_to_dataframe. rewrite filter_map_comm. reflexivity. Qed.

Lemma expense_frame (transactions : list Transaction.t) :
  expense_subset transactions
  = _transactions_to_dataframe (filter typed_expense transactions).
Proof.
  unfold expense_subset, _transactions_to_dataframe.
  rewrite filter_map_comm. reflexivity.
Qed.

Lemma typed_keeps_expenses (transactions : list Transaction.t) :
  filter typed_expense (filter typed transactions) = filter typed_expense transactions.
Proof.
  rewrite filter_filter_and. apply filter_ext. intro t. unfold typed.
  destruct (typed_income t), (typed_expense t); reflexivity.
Qed.

Lemma typed_keeps_incomes (transactions : list Transaction.t) :
  filter typed_income (filter typed transactions) = filter typed_income transactions.
Proof.
  rewrite filter_filter_and. apply filter_ext. intro t. unfold typed.
  destruct (typed_income t), (typed_expense t); reflexivity.
Qed.

(** X15. Transactions typed neither "INCOME" nor "EXPENSE" (no type, or a
    type spelt otherwise) change nothing in the income summary, the total
    spending, the patterns, the health entries, the recommendations and the
    savings opportunities: as long as one typed transaction remains, a
    response to the input and a response to its typed transactions alone
    agree on all of them. *)
Theorem untyped_transactions_change_no_total (self self' : InsightsService)
  (transactions : list Transaction.t) (userId : string)
  (r r' : InsightsResponse.t) :
  filter typed transactions <> [] ->
  analyze_transactions self transactions userId = Ok r ->
  analyze_transactions self' (filter typed transactions) userId = Ok r' ->
  InsightsResponse.incomeVsExpense r = InsightsResponse.incomeVsExpense r'
  /\ InsightsResponse.totalSpending r = InsightsResponse.totalSpending r'
  /\ InsightsResponse.spendingPatterns r = InsightsResponse.spendingPatterns r'
  /\ InsightsResponse.categoryHealth r = InsightsResponse.categoryHealth r'
  /\ InsightsResponse.budgetRecommendations r = InsightsResponse.budgetRecommendations r'
  /\ InsightsResponse.savingsOpportunities r = InsightsResponse.savingsOpportunities r'.
Proof.
  intros Hne' Hrun Hrun'.
  assert (Hne : transactions <> []) by (intro E; rewrite E in Hne'; apply Hne'; reflexivity).
  destruct (analyze_transactions_inv self transactions userId r Hne Hrun)
    as (Hpat & Hhealth & Hrec & _ & Htotal & _ & _ & Hsav).
  destruct (analyze_transactions_inv self' _ userId r' Hne' Hrun')
    as (Hpat' & Hhealth' & Hrec' & _ & Htotal' & _ & _ & Hsav').
  destruct (analyze_transactions_summary self transactions userId r Hne Hrun)
    as [Hs _].
  destruct (analyze_transactions_summary self' _ userId r' Hne' Hrun') as [Hs' _].
  assert (Hexp : expense_subset (filter typed transactions) = expense_subset transactions).
  { rewrite !expense_frame, typed_keeps_expenses. reflexivity. }
  rewrite Hexp in *.
  assert (P : InsightsResponse.spendingPatterns r = InsightsResponse.spendingPatterns r')
    by congruence.
  split.
  - rewrite Hs, Hs'. unfold _analyze_income_vs_expense.
    fold (expense_subset transactions). fold (expense_subset (filter typed transactions)).
    rewrite Hexp, !income_frame, typed_keeps_incomes. reflexivity.
  - split; [congruence|]. split; [exact P|].
    split; [rewrite Hhealth, Hhealth', P; reflexivity|].
    assert (B : InsightsResponse.budgetRecommendations r
                = InsightsResponse.budgetRecommendations r')
      by (rewrite Hrec, Hrec', P; reflexivity).
    split; [exact B|]. rewrite Hsav, Hsav', P, B. reflexivity.
Qed.

Lemma untyped_transactions_change_no_total_witness :
  let txs := typeless_food :: sample_small in
  let r := response_of quiet_service txs in
  let r' := response_of quiet_service (filter typed txs) in
  filter typed txs <> []
  /\ analyze_transactions quiet_service txs "user123" = Ok r
  /\ analyze_transactions quiet_service (filter typed txs) "user123" = Ok r'
  /\ InsightsResponse.totalSpending r = 150%Q
  /\ InsightsResponse.incomeVsExpense r = InsightsResponse.incomeVsExpense r'
  /\ InsightsResponse.totalSpending r = InsightsResponse.totalSpending r'
  /\ InsightsResponse.spendingPatterns r = InsightsResponse.spendingPatterns r'
  /\ InsightsResponse.categoryHealth r = InsightsResponse.categoryHealth r'
  /\ InsightsResponse.budgetRecommendations r
     = InsightsResponse.budgetRecommendations r'
  /\ InsightsResponse.savingsOpportunities r
     = InsightsResponse.savingsOpportunities r'.
Proof.
  intros txs r r'.
  assert (Hne : filter typed txs <> []) by discriminate.
  assert (H : analyze_transactions quiet_service txs "user123" = Ok r)
    by (vm_compute; reflexivity).
  assert (H' : analyze_transactions quiet_service (filter typed txs) "user123" = Ok r')
    by (vm_compute; reflexivity).
  split; [exact Hne|]. split; [exact H|]. split; [exact H'|].
  split; [reflexivity|].
  apply (untyped_transactions_change_no_total
           quiet_service quiet_service txs "user123" r r' Hne H H').
Defined.

(** ** Prediction *)

Lemma In_unique_days (d : Z) (l : list Z) : In d (unique_days l) <-> In d l.
Proof.
  induction l as [|x l IH]; [reflexivity|].
  cbn [unique_days]. simpl. rewrite filter_In, IH.
  destruct (Z.eqb_spec d x) as [->|Hne]; simpl.
  - split; auto.
  - split; [intros [H|[H _]]; auto | intros [H|H]; auto].
Qed.

Lemma NoDup_unique_days (l : list Z) : NoDup (unique_days l).
Proof.
  induction l as [|x l IH]; [constructor|].
  cbn [unique_days]. constructor.
  - intro H. apply filter_In in H. destruct H as [_ H].
    rewrite Z.eqb_refl in H. discriminate.
  - apply NoDup_filter. exact IH.
Qed.

Lemma filter_other_days_absent (d : Z) (l : list Z) :
  ~ In d l -> filter (fun y => negb (y =? d)%Z) l = l.
Proof.
  induction l as [|x l IH]; simpl; intro H; [reflexivity|].
  destruct (Z.eqb_spec x d) as [->|Hne]; simpl.
  - exfalso. apply H. left. reflexivity.
  - rewrite IH; [reflexivity|]. intro Hin. apply H. right. exact Hin.
Qed.

Lemma series_sum_take_out_day (h : Z -> Q) (d : Z) (l : list Z) :
  NoDup l -> In d l ->
  (series_sum (map h l)
   == h d + series_sum (map h (filter (fun y => negb (y =? d)%Z) l)))%Q.
Proof.
  induction 1 as [|x l Hx Hnd IH]; simpl; intro Hin; [contradiction|].
  destruct (Z.eqb_spec x d) as [->|Hne]; simpl.
  - rewrite filter_other_days_absent by exact Hx. reflexivity.
  - destruct Hin as [Hin|Hin]; [contradiction|].
    rewrite (IH Hin). ring.
Qed.

Lemma day_total_cons (row : Row.t) (df : DataFrame) (d : Z) :
  day_total (row :: df) d
  = if (date_of (Row.date row) =? d)%Z
    then (Row.amount row + day_total df d)%Q
    else day_total df d.
Proof.
  unfold day_total. simpl. unfold on_day at 1.
  destruct (date_of (Row.date row) =? d)%Z; reflexivity.
Qed.

Lemma day_total_absent (df : DataFrame) (d : Z) :
  ~ In d (calendar_days df) -> day_total df d = 0%Q.
Proof.
  induction df as [|row df IH]; intro H; [reflexivity|].
  rewrite day_total_cons.
  destruct (Z.eqb_spec (date_of (Row.date row)) d) as [E|Hne].
  - exfalso. apply H. left. exact E.
  - apply IH. intro Hin. apply H. right. exact Hin.
Qed.

(** The daily totals add up to the total of the frame. *)
Lemma day_totals_sum (df : DataFrame) :
  (series_sum (map (day_total df) (unique_days (calendar_days df)))
   == series_sum (amounts df))%Q.
Proof.
  induction df as [|row df IH]; [reflexivity|].
  cbn [calendar_days map amounts unique_days series_sum].
  fold (calendar_days df). fold (amounts df).
  set (d0 := date_of (Row.date row)). set (U := unique_days (calendar_days df)) in *.
  rewrite day_total_cons. fold d0. rewrite Z.eqb_refl.
  assert (Hrest :
    (series_sum (map (day_total (row :: df)) (filter (fun y => negb (y =? d0)%Z) U))
     == series_sum (map (day_total df) (filter (fun y => negb (y =? d0)%Z) U)))%Q).
  { apply series_sum_map_ext. intros d Hd. apply filter_In in Hd.
    destruct Hd as [_ Hd]. rewrite day_total_cons. fold d0.
    destruct (Z.eqb_spec d0 d) as [->|Hne]; [|reflexivity].
    rewrite Z.eqb_refl in Hd. discriminate. }
  rewrite Hrest, <- IH.
  destruct (in_dec Z.eq_dec d0 U) as [Hin|Hout].
  - rewrite (series_sum_take_out_day (day_total df) d0 U (NoDup_unique_days _) Hin).
    ring.
  - rewrite (filter_other_days_absent d0 U Hout).
    rewrite day_total_absent; [ring|].
    intro Hin. apply Hout. apply In_unique_days. exact Hin.
Qed.

Lemma selected_frame (transactions : list Transaction.t) (category : option string) :
  (if truthy category
   then filter (category_is (str_or category EmptyString))
               (_transactions_to_dataframe transactions)
   else _transactions_to_dataframe transactions)
  = _transactions_to_dataframe (selected transactions category).
Proof.
  unfold selected. destruct (truthy category); [|reflexivity].
  unfold _transactions_to_dataframe. rewrite filter_map_comm. reflexivity.
Qed.

Lemma dataframe_days (transactions : list Transaction.t) :
  unique_days (calendar_days (_transactions_to_dataframe transactions))
  = days_covered transactions.
Proof.
  unfold days_covered, calendar_days, _transactions_to_dataframe.
  rewrite map_map. reflexivity.
Qed.

Lemma match_nonempty {A B : Type} (l : list A) (a b : B) :
  l <> [] -> match l with [] => a | _ :: _ => b end = b.
Proof. destruct l; [congruence | reflexivity]. Qed.

(** The prediction on a non-empty selection of a frame whose dates have a
    datetime dtype. *)
Lemma predict_spending_selected (sqrt : Q -> Q) (self : InsightsService)
  (transactions : list Transaction.t) (category : option string) (days_ahead : Z) :
  selected transactions category <> [] ->
  datetimelike (map Transaction.date transactions) = true ->
  let df := _transactions_to_dataframe (selected transactions category) in
  let daily_spending := daily_totals df in
  let avg := (series_sum daily_spending
              / inject_Z (Z.of_nat (List.length daily_spending)))%Q in
  daily_spending <> []
  /\ predict_spending sqrt self transactions category days_ahead
     = Ok (Some (avg * inject_Z days_ahead)%Q,
           max_with_zero
             (min_with_one
                (option_map (fun c => (1 - c)%Q)
                   (if Qgt_bool avg 0
                    then option_map (fun std => (std / avg)%Q)
                                    (series_std sqrt daily_spending)
                    else Some 1%Q)))).
Proof.
  intros Hsel Hdt df daily_spending avg.
  assert (Hdf : df <> []).
  { unfold df, _transactions_to_dataframe.
    destruct (selected transactions category); [congruence | discriminate]. }
  assert (Hdaily : daily_spending <> []).
  { unfold daily_spending, daily_totals. intro Hnil. apply map_eq_nil in Hnil.
    assert (Hlen := Permutation_length
                      (list_sort_perm Z.leb (unique_days (calendar_days df)))).
    rewrite Hnil in Hlen.
    destruct df as [|row rest]; [congruence|]. discriminate Hlen. }
  split; [exact Hdaily|].
  unfold predict_spending.
  destruct transactions as [|t ts].
  { exfalso. apply Hsel. unfold selected. destruct (truthy category); reflexivity. }
  rewrite selected_frame. fold df. rewrite dataframe_dates, Hdt.
  rewrite (match_nonempty df) by exact Hdf. cbv zeta. cbn [negb].
  fold daily_spending.
  assert (Hmean : series_mean daily_spending = Some avg).
  { unfold series_mean, avg. rewrite (match_nonempty daily_spending) by exact Hdaily.
    reflexivity. }
  rewrite Hmean. reflexivity.
Qed.

(** X16. [predict_spending] answers (0, 0) when there is no history to
    predict from: on the empty list, and when a category is asked for that
    no transaction has. *)
Theorem predict_spending_without_history (sqrt : Q -> Q) (self : InsightsService)
  (transactions : list Transaction.t) (category : option string) (days_ahead : Z) :
  selected transactions category = [] ->
  predict_spending sqrt self transactions category days_ahead = Ok (Some 0%Q, 0%Q).
Proof.
  intro Hsel. unfold predict_spending.
  destruct transactions as [|t ts]; [reflexivity|].
  rewrite selected_frame, Hsel. reflexivity.
Qed.

Lemma predict_spending_without_history_witness :
  selected sample_small (Some "healthcare"%string) = []
  /\ predict_spending toy_sqrt quiet_service sample_small (Some "healthcare"%string) 30
     = Ok (Some 0%Q, 0%Q).
Proof.
  assert (H : selected sample_small (Some "healthcare"%string) = []) by reflexivity.
  split; [exact H|].
  apply (predict_spending_without_history toy_sqrt quiet_service sample_small
           (Some "healthcare"%string) 30 H).
Defined.

Lemma max_min_bounds (x : option Q) :
  (0 <= max_with_zero (min_with_one x) <= 1)%Q.
Proof.
  assert (Hmin : (min_with_one x <= 1)%Q).
  { unfold min_with_one. destruct x as [v|]; [|lra].
    destruct (Qlt_bool v 1) eqn:E; [apply Qlt_bool_iff in E|]; lra. }
  unfold max_with_zero.
  destruct (Qgt_bool (min_with_one x) 0) eqn:E.
  - apply Qgt_bool_iff in E. lra.
  - lra.
Qed.

(** X17. The confidence of a prediction lies between 0 and 1, whatever the
    history and whatever the deviation comes out as; and a prediction is
    given whenever the dates of the history have a datetime dtype
    (all tz-naive, or all tz-aware with one offset). *)
Theorem predict_spending_confidence_bounds (sqrt : Q -> Q) (self : InsightsService)
  (transactions : list Transaction.t) (category : option string) (days_ahead : Z) :
  (forall predicted confidence,
     predict_spending sqrt self transactions category days_ahead
     = Ok (predicted, confidence) ->
     (0 <= confidence <= 1)%Q)
  /\ (datetimelike (map Transaction.date transactions) = true ->
      exists predicted confidence,
        predict_spending sqrt self transactions category days_ahead
        = Ok (predicted, confidence)
        /\ (0 <= confidence <= 1)%Q).
Proof.
  assert (Hbounds : forall predicted confidence,
            predict_spending sqrt self transactions category days_ahead
            = Ok (predicted, confidence) ->
            (0 <= confidence <= 1)%Q).
  { intros predicted confidence Hrun.
    destruct (selected transactions category) as [|t ts] eqn:Hsel.
    - rewrite (predict_spending_without_history sqrt self transactions category
                 days_ahead Hsel) in Hrun.
      injection Hrun as _ <-. lra.
    - destruct (datetimelike (map Transaction.date transactions)) eqn:Hdt.
      + destruct (predict_spending_selected sqrt self transactions category
                    days_ahead) as [_ Hrun']; [rewrite Hsel; discriminate|exact Hdt|].
        rewrite Hrun' in Hrun. injection Hrun as _ <-. apply max_min_bounds.
      + exfalso. unfold predict_spending in Hrun.
        destruct transactions as [|t0 ts0].
        { unfold selected in Hsel. destruct (truthy category); discriminate Hsel. }
        rewrite selected_frame, Hsel, dataframe_dates, Hdt in Hrun.
        discriminate Hrun. }
  split; [exact Hbounds|].
  intro Hdt.
  destruct (selected transactions category) as [|t ts] eqn:Hsel.
  - exists (Some 0%Q), 0%Q.
    rewrite (predict_spending_without_history sqrt self transactions category
               days_ahead Hsel).
    split; [reflexivity | lra].
  - destruct (predict_spending_selected sqrt self transactions category days_ahead)
      as [_ Hrun]; [rewrite Hsel; discriminate|exact Hdt|].
    eexists. eexists. split; [exact Hrun|]. apply max_min_bounds.
Qed.

Lemma predict_spending_confidence_bounds_witness :
  datetimelike (map Transaction.date sample_small) = true
  /\ predict_spending toy_sqrt quiet_service sample_small None 30
     = Ok (Some (2150 / inject_Z 3 * inject_Z 30)%Q, 0%Q)
  /\ (forall predicted confidence,
        predict_spending toy_sqrt quiet_service sample_small None 30
        = Ok (predicted, confidence) ->
        (0 <= confidence <= 1)%Q)
  /\ (datetimelike (map Transaction.date sample_small) = true ->
      exists predicted confidence,
        predict_spending toy_sqrt quiet_service sample_small None 30
        = Ok (predicted, confidence)
        /\ (0 <= confidence <= 1)%Q).
Proof.
  split; [reflexivity|]. split; [vm_compute; reflexivity|].
  apply (predict_spending_confidence_bounds toy_sqrt quiet_service sample_small None 30).
Defined.

(** X18. On a non-empty selection whose dates have a datetime dtype, the
    predicted amount is the mean of the daily totals times the number of
    days ahead.  The daily totals are taken over the calendar days on which
    a selected transaction falls, in ascending order of the days: each is
    the sum of the amounts of the selected transactions of that day, income
    included.  Their mean is their sum divided by the number of those
    days. *)
Theorem predict_spending_amount (sqrt : Q -> Q) (self : InsightsService)
  (transactions : list Transaction.t) (category : option string) (days_ahead : Z) :
  selected transactions category <> [] ->
  datetimelike (map Transaction.date transactions) = true ->
  let chosen := selected transactions category in
  let covered := list_sort Z.leb (days_covered chosen) in
  let daily :=
    map (fun d => series_sum (map Transaction.amount (filter (on_date d) chosen)))
        covered in
  exists confidence,
    predict_spending sqrt self transactions category days_ahead
    = Ok (Some (series_sum daily
                / inject_Z (Z.of_nat (List.length (days_covered chosen)))
                * inject_Z days_ahead)%Q,
          confidence).
Proof.
  intros Hsel Hdt chosen covered daily.
  destruct (predict_spending_selected sqrt self transactions category days_ahead
              Hsel Hdt) as [_ Hrun].
  fold chosen in Hrun. rewrite Hrun. eexists. do 3 f_equal.
  assert (Hdaily : daily_totals (_transactions_to_dataframe chosen) = daily).
  { unfold daily_totals. rewrite dataframe_days. fold covered. unfold daily.
    apply map_ext. intro d. unfold day_total, amounts, _transactions_to_dataframe.
    rewrite filter_map_comm, map_map. reflexivity. }
  rewrite Hdaily. unfold daily, covered.
  rewrite length_map, (Permutation_length (list_sort_perm Z.leb _)). reflexivity.
Qed.

Lemma predict_spending_amount_witness :
  selected sample_same_day None <> []
  /\ datetimelike (map Transaction.date sample_same_day) = true
  /\ days_covered (selected sample_same_day None) = [4; 9]%Z
  /\ (exists predicted confidence,
        predict_spending toy_sqrt quiet_service sample_same_day None 30
        = Ok (Some predicted, confidence)
        /\ (predicted == 32250)%Q)
  /\ exists confidence,
       predict_spending toy_sqrt quiet_service sample_same_day None 30
       = Ok (Some (series_sum
                     (map (fun d => series_sum
                                      (map Transaction.amount
                                           (filter (on_date d)
                                                   (selected sample_same_day None))))
                          (list_sort Z.leb (days_covered (selected sample_same_day None))))
                   / inject_Z (Z.of_nat (List.length
                                           (days_covered (selected sample_same_day None))))
                   * inject_Z 30)%Q,
             confidence).
Proof.
  assert (H : selected sample_same_day None <> []) by discriminate.
  assert (Hdt : datetimelike (map Transaction.date sample_same_day) = true)
    by reflexivity.
  split; [exact H|]. split; [exact Hdt|]. split; [reflexivity|].
  split; [eexists; eexists; split; [vm_compute; reflexivity | reflexivity]|].
  apply (predict_spending_amount toy_sqrt quiet_service sample_same_day None 30 H Hdt).
Defined.

Lemma unique_days_constant (d : Z) (l : list Z) :
  l <> [] -> (forall x, In x l -> x = d) -> unique_days l = [d].
Proof.
  induction l as [|x l IH]; intros Hne Hall; [congruence|].
  cbn [unique_days]. rewrite (Hall x (or_introl eq_refl)).
  destruct l as [|y l']; [reflexivity|].
  rewrite IH; [|discriminate | intros z Hz; apply Hall; right; exact Hz].
  simpl. rewrite Z.eqb_refl. reflexivity.
Qed.

(** X19. When the dates of the history have a datetime dtype and the
    selected transactions have positive amounts and all fall on one
    calendar day, the confidence of the prediction is 1: the deviation of a
    single daily total is NaN and [min(1.0, ...)] keeps its first
    argument. *)
Theorem predict_spending_single_day (sqrt : Q -> Q) (self : InsightsService)
  (transactions : list Transaction.t) (category : option string) (days_ahead : Z)
  (d : Z) :
  datetimelike (map Transaction.date transactions) = true ->
  selected transactions category <> [] ->
  Forall valid_transaction (selected transactions category) ->
  (forall t, In t (selected transactions category) ->
             date_of (Transaction.date t) = d) ->
  exists predicted,
    predict_spending sqrt self transactions category days_ahead
    = Ok (predicted, 1%Q).
Proof.
  intros Hdt Hsel Hvalid Hday.
  destruct (predict_spending_selected sqrt self transactions category days_ahead
              Hsel Hdt) as [_ Hrun].
  rewrite Hrun. eexists. do 2 f_equal. clear Hrun.
  set (chosen := selected transactions category) in *.
  set (df := _transactions_to_dataframe chosen).
  assert (Hdays : unique_days (calendar_days df) = [d]).
  { unfold df. rewrite dataframe_days. unfold days_covered.
    apply unique_days_constant.
    - destruct chosen; [congruence | discriminate].
    - intros x Hx. apply in_map_iff in Hx. destruct Hx as [t [<- Ht]].
      apply Hday. exact Ht. }
  assert (Hdaily : daily_totals df = [day_total df d]).
  { unfold daily_totals. rewrite Hdays. reflexivity. }
  assert (Hpos : (0 < day_total df d)%Q).
  { pose proof (day_totals_sum df) as Hsum. rewrite Hdays in Hsum.
    cbn [map series_sum] in Hsum.
    assert (0 < series_sum (amounts df))%Q.
    { unfold df. rewrite dataframe_amounts. apply series_sum_pos.
      - destruct chosen; [congruence | discriminate].
      - apply Forall_forall. intros x Hx. apply in_map_iff in Hx.
        destruct Hx as [t [<- Ht]]. rewrite Forall_forall in Hvalid.
        apply Hvalid. exact Ht. }
    lra. }
  rewrite Hdaily. cbn [series_sum List.length series_std].
  assert (Havg : Qgt_bool ((day_total df d + 0) / inject_Z (Z.of_nat 1)) 0 = true).
  { apply Qgt_bool_iff. apply Qlt_shift_div_l; [reflexivity|]. lra. }
  rewrite Havg. reflexivity.
Qed.

Lemma predict_spending_single_day_witness :
  let txs := [ tx "1" 50 TransactionCategory.FOOD 4 EXPENSE;
               tx "2" 2000 TransactionCategory.OTHER 4 INCOME ] in
  datetimelike (map Transaction.date txs) = true
  /\ selected txs None <> []
  /\ Forall valid_transaction (selected txs None)
  /\ (forall t, In t (selected txs None) -> date_of (Transaction.date t) = 4%Z)
  /\ predict_spending toy_sqrt quiet_service txs None 30
     = Ok (Some (2050 / inject_Z 1 * inject_Z 30)%Q, 1%Q)
  /\ exists predicted,
       predict_spending toy_sqrt quiet_service txs None 30 = Ok (predicted, 1%Q).
Proof.
  intro txs.
  assert (Hdt : datetimelike (map Transaction.date txs) = true) by reflexivity.
  assert (Hne : selected txs None <> []) by discriminate.
  assert (Hv : Forall valid_transaction (selected txs None)).
  { unfold txs, selected. simpl. repeat (constructor; [reflexivity|]). constructor. }
  assert (Hd : forall t, In t (selected txs None) -> date_of (Transaction.date t) = 4%Z).
  { intros t [<-|[<-|[]]]; reflexivity. }
  split; [exact Hdt|]. split; [exact Hne|]. split; [exact Hv|]. split; [exact Hd|].
  split; [reflexivity|].
  apply (predict_spending_single_day toy_sqrt quiet_service txs None 30 4 Hdt Hne Hv Hd).
Defined.

(** ** From the table to the engine *)

Lemma category_of_value_round_trip_aux :
  (forall c, category_of_value (TransactionCategory.value c) = Some c)
  /\ (forall s c, category_of_value s = Some c -> TransactionCategory.value c = s).
Proof.
  split; [intro c; destruct c; reflexivity|].
  intros s c H. unfold category_of_value in H. apply find_some in H.
  destruct H as [_ H]. apply String.eqb_eq in H. exact H.
Qed.

(** X20. Looking a category up by its value and taking the value of the
    member found are inverse to each other, and the lookup fails exactly on
    the strings that are no value of the closed set. *)
Theorem category_of_value_round_trip :
  (forall c, category_of_value (TransactionCategory.value c) = Some c)
  /\ (forall s c, category_of_value s = Some c -> TransactionCategory.value c = s)
  /\ (forall s, category_of_value s = None <-> ~ In s category_values).
Proof.
  split; [intro c; destruct c; reflexivity|].
  assert (Hfound : forall s c, category_of_value s = Some c ->
                               TransactionCategory.value c = s).
  { intros s c H. unfold category_of_value in H. apply find_some in H.
    destruct H as [_ H]. apply String.eqb_eq in H. exact H. }
  split; [exact Hfound|]. intro s. split.
  - intros Hnone Hin. unfold category_values in Hin. apply in_map_iff in Hin.
    destruct Hin as [c [<- _]].
    destruct c; discriminate Hnone.
  - intro Hout. destruct (category_of_value s) as [c|] eqn:E; [|reflexivity].
    exfalso. apply Hout. apply Hfound in E. rewrite <- E.
    unfold category_values. apply in_map. destruct c; simpl; auto 8.
Qed.

Section TableToEngine.
Variable lower : string -> string.

Lemma convert_row_inv (row : TransactionModel.t) (t : Transaction.t) :
  convert_row lower row = Some t ->
  (0 < TransactionModel.amount row)%Q
  /\ Transaction.id t = Some (TransactionModel.id row)
  /\ Transaction.amount t = TransactionModel.amount row
  /\ Transaction.date t = naive (TransactionModel.date row)
  /\ Transaction.userId t = TransactionModel.userId row
  /\ Transaction.type t = Some (TransactionTypeEnum.value (TransactionModel.type row))
  /\ (forall c, lower (TransactionModel.category row) = TransactionCategory.value c ->
                Transaction.category t = c)
  /\ (~ In (lower (TransactionModel.category row)) category_values ->
      Transaction.category t = TransactionCategory.OTHER).
Proof.
  unfold convert_row, new_transaction. cbv zeta.
  set (known := existsb _ category_values).
  set (name := if known then _ else _).
  destruct (category_of_value name) as [member|] eqn:Hm; [|discriminate].
  destruct (Qgt_bool (TransactionModel.amount row) 0) eqn:Hpos; [|discriminate].
  intro H. injection H as <-. cbn.
  apply Qgt_bool_iff in Hpos.
  repeat split; try assumption.
  - intros c Hc.
    assert (Hk : known = true).
    { unfold known. apply existsb_exists. exists (TransactionCategory.value c).
      split; [unfold category_values; apply in_map; destruct c; simpl; auto 8|].
      rewrite Hc. apply String.eqb_refl. }
    unfold name in Hm. rewrite Hk, Hc in Hm.
    destruct category_of_value_round_trip_aux as [Hrt _].
    rewrite Hrt in Hm. congruence.
  - intro Hout.
    assert (Hk : known = false).
    { unfold known. destruct (existsb _ category_values) eqn:E; [|reflexivity].
      exfalso. apply Hout. apply existsb_exists in E. destruct E as [s [Hs E]].
      apply String.eqb_eq in E. rewrite E. exact Hs. }
    unfold name in Hm. rewrite Hk in Hm. vm_compute in Hm. congruence.
Qed.
End TableToEngine.

Lemma convert_row_kept (lower : string -> string) (row : TransactionModel.t) :
  (Qgt_bool (TransactionModel.amount row) 0 = true ->
   exists t, convert_row lower row = Some t)
  /\ (Qgt_bool (TransactionModel.amount row) 0 = false ->
      convert_row lower row = None).
Proof.
  unfold convert_row, new_transaction. cbv zeta.
  set (known := existsb _ category_values).
  set (name := if known then _ else _).
  assert (Hname : exists member, category_of_value name = Some member).
  { unfold name. destruct known eqn:Hk.
    - unfold known in Hk. apply existsb_exists in Hk. destruct Hk as [s [Hs E]].
      apply String.eqb_eq in E. rewrite E.
      unfold category_values in Hs. apply in_map_iff in Hs.
      destruct Hs as [c [<- _]]. exists c.
      apply category_of_value_round_trip_aux.
    - exists TransactionCategory.OTHER. reflexivity. }
  destruct Hname as [member Hm]. rewrite Hm.
  split; intro H; rewrite H; [eexists|]; reflexivity.
Qed.

(** X21. Every transaction that the conversion of [get_user_insights]
    hands to the engine has a positive amount and the type "INCOME" or
    "EXPENSE", and is the image of a table row: same id, amount, date and
    user; its category is the member whose value the lowered category name
    is, and OTHER when the lowered name is no value of the closed set. *)
Theorem converted_transactions_wellformed (lower : string -> string)
  (db_transactions : list TransactionModel.t) (t : Transaction.t) :
  In t (convert_rows lower db_transactions) ->
  valid_transaction t
  /\ (Transaction.type t = Some "INCOME"%string
      \/ Transaction.type t = Some "EXPENSE"%string)
  /\ exists row,
       In row db_transactions
       /\ Transaction.id t = Some (TransactionModel.id row)
       /\ Transaction.amount t = TransactionModel.amount row
       /\ Transaction.date t = naive (TransactionModel.date row)
       /\ Transaction.userId t = TransactionModel.userId row
       /\ (forall c, lower (TransactionModel.category row) = TransactionCategory.value c ->
                     Transaction.category t = c)
       /\ (~ In (lower (TransactionModel.category row)) category_values ->
           Transaction.category t = TransactionCategory.OTHER).
Proof.
  induction db_transactions as [|row rest IH]; simpl; [contradiction|].
  destruct (convert_row lower row) as [t0|] eqn:Hrow.
  - intros [<-|Hin].
    + destruct (convert_row_inv lower row t0 Hrow)
        as (Hpos & Hid & Ham & Hdate & Huser & Htype & Hcat & Hother).
      split; [unfold valid_transaction; rewrite Ham; exact Hpos|].
      split; [rewrite Htype; destruct (TransactionModel.type row); auto|].
      exists row. repeat split; auto.
    + destruct (IH Hin) as (Hv & Hty & row' & Hin' & Hrest).
      split; [exact Hv|]. split; [exact Hty|]. exists row'. split; [right|]; assumption.
  - intro Hin. destruct (IH Hin) as (Hv & Hty & row' & Hin' & Hrest).
    split; [exact Hv|]. split; [exact Hty|]. exists row'. split; [right|]; assumption.
Qed.

Lemma converted_transactions_wellformed_witness :
  let t := set_type
             {| Transaction.id := Some "b"%string;
                Transaction.amount := 900;
                Transaction.category := TransactionCategory.OTHER;
                Transaction.description := Some EmptyString;
                Transaction.date := naive (2 * usec_per_day);
                Transaction.userId := "user123";
                Transaction.type := None |}
             (Some "INCOME"%string) in
  In t (convert_rows (fun s => s) sample_table)
  /\ valid_transaction t
  /\ (Transaction.type t = Some "INCOME"%string
      \/ Transaction.type t = Some "EXPENSE"%string).
Proof.
  intro t.
  assert (H : In t (convert_rows (fun s => s) sample_table))
    by (right; left; reflexivity).
  split; [exact H|].
  destruct (converted_transactions_wellformed (fun s => s) sample_table t H)
    as (Hv & Hty & _).
  split; assumption.
Defined.

(** X22. The conversion skips exactly the rows whose amount is not above
    zero and keeps the others in their order: the ids and amounts of the
    converted transactions are those of the rows of positive amount. *)
Theorem conversion_keeps_positive_rows (lower : string -> string)
  (db_transactions : list TransactionModel.t) :
  map (fun t => (Transaction.id t, Transaction.amount t))
      (convert_rows lower db_transactions)
  = map (fun row => (Some (TransactionModel.id row), TransactionModel.amount row))
        (filter (fun row => Qgt_bool (TransactionModel.amount row) 0) db_transactions).
Proof.
  induction db_transactions as [|row rest IH]; simpl; [reflexivity|].
  destruct (convert_row_kept lower row) as [Hkept Hskipped].
  destruct (Qgt_bool (TransactionModel.amount row) 0) eqn:Hpos.
  - destruct (Hkept eq_refl) as [t Ht]. rewrite Ht. simpl. rewrite IH.
    destruct (convert_row_inv lower row t Ht) as (_ & Hid & Ham & _).
    rewrite Hid, Ham. reflexivity.
  - rewrite (Hskipped eq_refl). exact IH.
Qed.

Lemma convert_rows_valid (lower : string -> string)
  (db_transactions : list TransactionModel.t) :
  Forall valid_transaction (convert_rows lower db_transactions).
Proof.
  apply Forall_forall. intros t Ht.
  induction db_transactions as [|row rest IH]; simpl in Ht; [contradiction|].
  destruct (convert_row lower row) as [t0|] eqn:Hrow; [|apply IH; exact Ht].
  destruct Ht as [<-|Ht]; [|apply IH; exact Ht].
  destruct (convert_row_inv lower row t0 Hrow) as (Hpos & _ & Ham & _).
  unfold valid_transaction. rewrite Ham. exact Hpos.
Qed.

(** The dates of a DateTime column carry no time zone, so those of the
    converted rows compare with one another. *)
Lemma convert_rows_comparable (lower : string -> string)
  (db_transactions : list TransactionModel.t) :
  comparable (map Transaction.date (convert_rows lower db_transactions)) = true.
Proof.
  unfold comparable. apply Bool.orb_true_iff. right.
  apply forallb_forall. intros d Hd. apply in_map_iff in Hd.
  destruct Hd as [t [<- Ht]].
  induction db_transactions as [|row rest IH]; simpl in Ht; [contradiction|].
  destruct (convert_row lower row) as [t0|] eqn:Hrow; [|apply IH; exact Ht].
  destruct Ht as [<-|Ht]; [|apply IH; exact Ht].
  destruct (convert_row_inv lower row t0 Hrow) as (_ & _ & _ & Hdate & _).
  rewrite Hdate. reflexivity.
Qed.

(** X23. With a model that gives one label per sample, [get_user_insights]
    answers for every table and user: with the canonical empty response of
    the engine when the user has no row of positive amount, and otherwise
    with the engine's response to the converted rows of that user, all of
    positive amount; rows of other users play no part. *)
Theorem get_user_insights_answers (lower : string -> string)
  (service : InsightsService) (db : list TransactionModel.t) (user_id : string) :
  one_label_per_sample (anomaly_detector service) ->
  let mine := filter (fun row => String.eqb (TransactionModel.userId row) user_id) db in
  let transactions := convert_rows lower mine in
  exists r,
    get_user_insights lower service db user_id = Ok r
    /\ get_user_insights lower service mine user_id = Ok r
    /\ analyze_transactions service transactions user_id = Ok r
    /\ Forall valid_transaction transactions
    /\ ((forall row, In row mine -> (TransactionModel.amount row <= 0)%Q) ->
        r = _empty_insights user_id).
Proof.
  intros Hwf mine transactions.
  assert (Hmine : filter (fun row => String.eqb (TransactionModel.userId row) user_id)
                         mine = mine).
  { unfold mine. rewrite filter_filter_and. apply filter_ext. intro row.
    apply andb_diag. }
  assert (Hbody : get_user_insights lower service db user_id
                  = analyze_transactions service transactions user_id).
  { unfold get_user_insights. fold mine. fold transactions.
    destruct mine as [|row rest] eqn:Em.
    - reflexivity.
    - destruct transactions as [|t ts]; reflexivity. }
  assert (Hbody' : get_user_insights lower service mine user_id
                   = analyze_transactions service transactions user_id).
  { unfold get_user_insights. rewrite Hmine. fold transactions.
    destruct mine as [|row rest] eqn:Em.
    - reflexivity.
    - destruct transactions as [|t ts]; reflexivity. }
  destruct (analyze_transactions_returns service transactions user_id Hwf
              (convert_rows_comparable lower mine)) as [r Hr].
  exists r. rewrite Hbody, Hbody'. split; [exact Hr|]. split; [exact Hr|].
  split; [exact Hr|]. split; [apply convert_rows_valid|].
  intro Hnone.
  assert (Hempty : transactions = []).
  { unfold transactions. clear - Hnone. induction mine as [|row rest IH]; [reflexivity|].
    simpl. destruct (convert_row_kept lower row) as [_ Hskipped].
    rewrite Hskipped.
    - apply IH. intros row' Hrow'. apply Hnone. right. exact Hrow'.
    - apply Qgt_bool_false_iff. apply Hnone. left. reflexivity. }
  rewrite Hempty in Hr. injection Hr as <-. reflexivity.
Qed.

Lemma get_user_insights_answers_witness :
  one_label_per_sample (anomaly_detector quiet_service)
  /\ (exists r,
        get_user_insights (fun s => s) quiet_service sample_table "user123" = Ok r
        /\ InsightsResponse.totalSpending r = 40%Q
        /\ IncomeVsExpense.totalIncome (InsightsResponse.incomeVsExpense r) = 900%Q)
  /\ exists r,
       get_user_insights (fun s => s) quiet_service sample_table "nobody" = Ok r
       /\ r = _empty_insights "nobody".
Proof.
  split; [exact quiet_forest_one_label|]. split.
  - eexists. split; [vm_compute; reflexivity|]. split; reflexivity.
  - destruct (get_user_insights_answers (fun s => s) quiet_service sample_table
                "nobody" quiet_forest_one_label) as (r & Hr & _ & _ & _ & Hnone).
    exists r. split; [exact Hr|]. apply Hnone. intros row [].
Defined.
